(** * Digilock Z-Wave middleware: a shallow embedding of the JavaScript sources

    The development follows the repository file by file:
    - [JS]: the fragment of JavaScript values the handlers compute with
      (strings as sequences of UTF-16 code units, numbers, JSON values,
      exceptions);
    - [ManufacturerProprietary]: [manufacturer-proprietary.js]
      ([hexTo32ByteBuffer], [sendManufacturerProprietaryCustom]);
    - [Lock]: [models/ZWaveLock.js] (command interceptor, [sendCustom]);
    - [Client]: [zwave-client.js] (DSK normaliser, provisioning entries);
    - [Router]: [plugins/ZWaveControllerWebsocket.js] together with the
      [initializeDriver] closure of [server.js].

    Time stamps ([new Date().toISOString()], [Date.now()]) and console
    output are not part of the model. *)

From Stdlib Require Import ZArith NArith QArith Qround Qabs List Bool String Ascii Lia.
From stdpp Require Import base option list gmap.

Set Warnings "-register-all".
Local Open Scope Z_scope.

(* ================================================================== *)
(** * JavaScript values *)
(* ================================================================== *)

Module JS.

(** A JavaScript string is a sequence of UTF-16 code units. *)
Definition codeunit := N.
Definition JSString := list codeunit.

(** Source-level string literals (all of them ASCII). *)
Definition str (s : string) : JSString :=
  map N_of_ascii (list_ascii_of_string s).

(** [a === b] on strings. *)
Fixpoint streq (a b : JSString) : bool :=
  match a, b with
  | [], [] => true
  | x :: a', y :: b' => N.eqb x y && streq a' b'
  | _, _ => false
  end.

(** A JavaScript number.  Every finite double is a rational; the
    comparisons, the integer test and the truthiness test used by the
    sources agree with the ones on rationals.  [-0] is identified with
    [0] (both are falsy integers and index the same [Map] entry). *)
Inductive JSNum :=
| NaN
| Infinity (negative : bool)
| Fin (q : Q).

Definition num_of_Z (z : Z) : JSNum := Fin (inject_Z z).
Definition num_of_nat (n : nat) : JSNum := num_of_Z (Z.of_nat n).

(** [a < b]; any comparison with [NaN] is false. *)
Definition num_lt (a b : JSNum) : bool :=
  match a, b with
  | NaN, _ | _, NaN => false
  | Infinity true, Infinity true => false
  | Infinity true, _ => true
  | _, Infinity true => false
  | Infinity false, _ => false
  | _, Infinity false => true
  | Fin x, Fin y => negb (Qle_bool y x)
  end.

(** [a <= b]. *)
Definition num_le (a b : JSNum) : bool :=
  match a, b with
  | NaN, _ | _, NaN => false
  | Infinity true, _ => true
  | _, Infinity true => false
  | _, Infinity false => true
  | Infinity false, _ => false
  | Fin x, Fin y => Qle_bool x y
  end.

(** [a > b] is [b < a]. *)
Definition num_gt (a b : JSNum) : bool := num_lt b a.

(** [a === b] on numbers ([NaN] differs from itself). *)
Definition num_eq (a b : JSNum) : bool :=
  match a, b with
  | Fin x, Fin y => Qeq_bool x y
  | Infinity s, Infinity t => Bool.eqb s t
  | _, _ => false
  end.

Definition q_is_integer (q : Q) : bool :=
  Z.eqb (Z.modulo (Qnum q) (Z.pos (Qden q))) 0.

(** JSON values, extended with [undefined] (the value of an absent
    property). *)
Inductive JSValue :=
| JUndefined
| JNull
| JBool (b : bool)
| JNum (n : JSNum)
| JStr (s : JSString)
| JArr (items : list JSValue)
| JObj (fields : list (JSString * JSValue)).

Definition JInt (z : Z) : JSValue := JNum (num_of_Z z).
Definition JS_ (s : string) : JSValue := JStr (str s).

(** ToBoolean. *)
Definition truthy (v : JSValue) : bool :=
  match v with
  | JUndefined | JNull => false
  | JBool b => b
  | JNum NaN => false
  | JNum (Infinity _) => true
  | JNum (Fin q) => negb (Qeq_bool q 0)
  | JStr s => match s with [] => false | _ => true end
  | JArr _ | JObj _ => true
  end.

(** [a || b] and [!a]. *)
Definition js_or (a b : JSValue) : JSValue := if truthy a then a else b.
Definition js_not (a : JSValue) : bool := negb (truthy a).

(** [a === b].  Arrays and objects are compared by reference; two
    values that were built independently (parsed from different
    messages, or stored earlier) are never the same reference. *)
Definition strict_eq (a b : JSValue) : bool :=
  match a, b with
  | JUndefined, JUndefined => true
  | JNull, JNull => true
  | JBool x, JBool y => Bool.eqb x y
  | JNum x, JNum y => num_eq x y
  | JStr x, JStr y => streq x y
  | _, _ => false
  end.

Definition is_true_literal (v : JSValue) : bool :=
  strict_eq v (JBool true).

Definition Number_isInteger (v : JSValue) : bool :=
  match v with
  | JNum (Fin q) => q_is_integer q
  | _ => false
  end.

Definition Array_isArray (v : JSValue) : bool :=
  match v with JArr _ => true | _ => false end.

Inductive JSType := TUndefined | TObject | TBoolean | TNumber | TString.

Definition typeof (v : JSValue) : JSType :=
  match v with
  | JUndefined => TUndefined
  | JNull | JArr _ | JObj _ => TObject
  | JBool _ => TBoolean
  | JNum _ => TNumber
  | JStr _ => TString
  end.

Definition is_object_type (v : JSValue) : bool :=
  match typeof v with TObject => true | _ => false end.

Definition is_string_type (v : JSValue) : bool :=
  match typeof v with TString => true | _ => false end.

(** ** Exceptions *)

(** A template literal: fixed text and interpolated values. *)
Inductive Part :=
| Txt (s : JSString)
| Val (v : JSValue).

Definition Msg := list Part.
Definition msg (s : string) : Msg := [Txt (str s)].

Definition part_nonempty (p : Part) : bool :=
  match p with
  | Txt s | Val (JStr s) => match s with [] => false | _ => true end
  | Val (JArr []) => false
  | Val _ => true
  end.

(** Truthiness of [error.message]: the rendered text is not empty. *)
Definition msg_truthy (m : Msg) : bool := existsb part_nonempty m.

Inductive ExnKind := Error | TypeError | SyntaxError.

Record Exn := mkExn { exn_kind : ExnKind; exn_message : Msg }.

Definition new_Error (m : Msg) : Exn := mkExn Error m.

(** The result of evaluating an expression or a statement list.
    [OutOfFuel] is the model's account of a loop that was cut off by
    its step bound; no [catch] intercepts it. *)
Inductive Completion (A : Type) :=
| Normal (a : A)
| Throw (e : Exn)
| OutOfFuel.
Arguments Normal {A} a.
Arguments Throw {A} e.
Arguments OutOfFuel {A}.

Definition cbind {A B} (c : Completion A) (k : A -> Completion B)
  : Completion B :=
  match c with
  | Normal a => k a
  | Throw e => Throw e
  | OutOfFuel => OutOfFuel
  end.

(** ** Property access *)

(** Own property of an object built by [JSON.parse]: of several
    members with one key the last one wins. *)
Fixpoint own_property (fields : list (JSString * JSValue)) (key : JSString)
  : option JSValue :=
  match fields with
  | [] => None
  | (k, v) :: rest =>
      match own_property rest key with
      | Some v' => Some v'
      | None => if streq k key then Some v else None
      end
  end.

(** [v.key] for the property names the sources read from request data
    (none of which is defined on a prototype): reading from
    [undefined] or [null] throws, a primitive or an array has no such
    property. *)
Definition get (v : JSValue) (key : string) : Completion JSValue :=
  match v with
  | JUndefined | JNull =>
      Throw (mkExn TypeError
               [Txt (str "Cannot read properties of "); Val v;
                Txt (str " (reading '"); Txt (str key); Txt (str "')")])
  | JObj fields =>
      match own_property fields (str key) with
      | Some x => Normal x
      | None => Normal JUndefined
      end
  | _ => Normal JUndefined
  end.

(** ** Regular-expression character classes *)

(** [\s]: WhiteSpace and LineTerminator code units. *)
Definition is_whitespace (c : codeunit) : bool :=
  ((9 <=? c) && (c <=? 13) || (c =? 32) || (c =? 160) || (c =? 5760)
   || (8192 <=? c) && (c <=? 8202) || (c =? 8232) || (c =? 8233)
   || (c =? 8239) || (c =? 8287) || (c =? 12288) || (c =? 65279))%N.

(** [[0-9]], [[A-F]], [[a-f]]. *)
Definition is_digit (c : codeunit) : bool := ((48 <=? c) && (c <=? 57))%N.
Definition is_upper_hex (c : codeunit) : bool := ((65 <=? c) && (c <=? 70))%N.
Definition is_lower_hex (c : codeunit) : bool := ((97 <=? c) && (c <=? 102))%N.

(** [[0-9a-fA-F]]. *)
Definition is_hex (c : codeunit) : bool :=
  is_digit c || is_lower_hex c || is_upper_hex c.

Definition hex_value (c : codeunit) : option N :=
  if is_digit c then Some (c - 48)%N
  else if is_lower_hex c then Some (c - 87)%N
  else if is_upper_hex c then Some (c - 55)%N
  else None.

(** ** Buffers *)

Definition Buffer := list N.

(** The decoder of Node.js reads a UTF-16 code unit by its low byte
    ([static_cast<uint8_t>]). *)
Definition low_byte (c : codeunit) : N := (c mod 256)%N.

(** [Buffer.from(s, "hex")] of Node.js: two characters per byte, each
    read by the low byte of its code unit; decoding stops at the first
    pair that is not hexadecimal, and a trailing single character is
    dropped. *)
Fixpoint Buffer_from_hex (s : JSString) : Buffer :=
  match s with
  | a :: b :: rest =>
      match hex_value (low_byte a), hex_value (low_byte b) with
      | Some x, Some y => (16 * x + y)%N :: Buffer_from_hex rest
      | _, _ => []
      end
  | _ => []
  end.

Definition hex_digit (n : N) : codeunit :=
  (if n <? 10 then 48 + n else 87 + n)%N.

(** [buf.toString("hex")]. *)
Definition Buffer_toString_hex (b : Buffer) : JSString :=
  flat_map (fun x => [hex_digit (x / 16); hex_digit (x mod 16)])%N b.

End JS.
Export JS.

Declare Scope js_scope.
Delimit Scope js_scope with js.
Notation "x <- c ;; k" := (cbind c (fun x => k))
  (at level 100, c at next level, right associativity) : js_scope.

(* ================================================================== *)
(** * The zwave-js driver, as the sources use it *)
(* ================================================================== *)

Module ZWaveJS.

(** Modelled from the spec: the external driver collaborator (spec
    section 6).  The library is not part of the repository; the
    records of this module hold what the sources read from and write
    to its objects, and every call that can reject carries its
    outcome.  First, command class 0x91, Manufacturer Proprietary. *)
Definition CC_ManufacturerProprietary : Z := 0x91.

(** Modelled from the spec: [Protocols] and [ProvisioningEntryStatus]
    of zwave-js ([0 = Active], as the sources' comments say). *)
Definition Protocols_ZWave : JSValue := JInt 0.
Definition Protocols_ZWaveLongRange : JSValue := JInt 1.
Definition ProvisioningEntryStatus_Active : JSValue := JInt 0.
Definition ProvisioningEntryStatus_Inactive : JSValue := JInt 1.

(** An inbound command object. *)
Record Command := mkCommand {
  ccId : Z;
  cmd_instanceof_MPCC : bool;             (* command instanceof ManufacturerProprietaryCC *)
  cmd_constructor_name : option JSString; (* command.constructor?.name *)
  cmd_manufacturerId : JSValue;
  cmd_payload : option Buffer;            (* None: no payload property *)
  cmd_endpointIndex : JSValue
}.

(** The object published with "manufacturerProprietaryCommand". *)
Record CommandData := mkCommandData {
  cd_nodeId : Z;
  cd_manufacturerId : JSValue;
  cd_payload : option (list N);           (* None: null *)
  cd_payloadLength : JSValue;
  cd_endpointIndex : JSValue
}.

(** [node.handleCommand]: the library's own method, or the closure
    that [setupManufacturerProprietaryCommandHandler] installs around
    the method it found. *)
Inductive HandlerImpl :=
| Native (result : Command -> JSValue)
| Intercepting (nodeId : Z) (originalHandleCommand : HandlerImpl).

(** What a handler run leaves behind: the events published to the
    application and the commands that reached the library's method. *)
Record Bus := mkBus {
  emitted : list CommandData;
  delivered : list Command
}.

(** Outcome of one [ccMP.sendData(manufacturerId, payload)], with the
    time it took. *)
Inductive SendOutcome :=
| Sent (result : JSValue) (duration : Z)
| SendFailed (e : Exn) (duration : Z).

(** [node.commandClasses["Manufacturer Proprietary"]]: the outcome of
    [sendData] may depend on the number of frames the node was sent
    before.  [withOptions], when the wrapper has it, yields the
    supervised variant. *)
Definition SendData := JSNum -> Buffer -> nat -> SendOutcome.

Record MPApi := mkMPApi {
  sendData : SendData;
  withOptions : option SendData
}.

Record DeviceConfig := mkDeviceConfig {
  dc_manufacturer : JSValue;
  dc_label : JSValue;
  dc_description : JSValue
}.

Record ZWaveNode := mkNode {
  node_id : Z;
  node_name : JSValue;
  node_status : N;
  node_ready : bool;
  node_deviceConfig : option DeviceConfig;
  node_addCC : bool;                      (* typeof node.addCC === "function" *)
  node_supported : list Z;                (* supportedCCs / implementedCommandClasses *)
  node_commandClasses_MP : option MPApi;
  node_frames : list (JSNum * Buffer);    (* frames handed to sendData *)
  node_handleCommand : option HandlerImpl;
  node_mpHandlerAttached : bool           (* node._mpHandlerAttached *)
}.

Definition set_supported (n : ZWaveNode) (l : list Z) : ZWaveNode :=
  mkNode (node_id n) (node_name n) (node_status n) (node_ready n)
    (node_deviceConfig n) (node_addCC n) l (node_commandClasses_MP n)
    (node_frames n) (node_handleCommand n) (node_mpHandlerAttached n).

Definition set_ready (n : ZWaveNode) (b : bool) : ZWaveNode :=
  mkNode (node_id n) (node_name n) (node_status n) b
    (node_deviceConfig n) (node_addCC n) (node_supported n)
    (node_commandClasses_MP n) (node_frames n) (node_handleCommand n)
    (node_mpHandlerAttached n).

Definition set_frames (n : ZWaveNode) (l : list (JSNum * Buffer)) : ZWaveNode :=
  mkNode (node_id n) (node_name n) (node_status n) (node_ready n)
    (node_deviceConfig n) (node_addCC n) (node_supported n)
    (node_commandClasses_MP n) l (node_handleCommand n)
    (node_mpHandlerAttached n).

Definition set_handler (n : ZWaveNode) (h : HandlerImpl) (attached : bool)
  : ZWaveNode :=
  mkNode (node_id n) (node_name n) (node_status n) (node_ready n)
    (node_deviceConfig n) (node_addCC n) (node_supported n)
    (node_commandClasses_MP n) (node_frames n) (Some h) attached.

(** [NodeStatus[status]]: the enum's reverse mapping. *)
Definition NodeStatus_name (status : N) : JSValue :=
  match status with
  | 0%N => JS_ "Unknown"
  | 1%N => JS_ "Asleep"
  | 2%N => JS_ "Awake"
  | 3%N => JS_ "Dead"
  | 4%N => JS_ "Alive"
  | _ => JUndefined
  end.

(** A provisioning entry, with the properties the sources read or
    write. *)
Record ProvisioningEntry := mkEntry {
  dsk : JSValue;
  name : JSValue;
  location : JSValue;
  protocol : JSValue;
  status : JSValue;
  securityClasses : JSValue;
  s2AccessControl : JSValue;
  s2Authenticated : JSValue;
  s2Unauthenticated : JSValue;
  s0Legacy : JSValue;
  supportedProtocols : JSValue;
  manufacturerId : JSValue;
  productType : JSValue;
  productId : JSValue;
  applicationVersion : JSValue;
  nodeId : JSValue
}.

(** [driver.controller.nodes] is a [Map] from node ids to nodes: the
    model keeps its entries ([nodes]) and its keys in the order of
    insertion ([nodes_order]), the order in which the [Map] is
    iterated. *)
Record Driver := mkDriver {
  nodes : gmap Z ZWaveNode;               (* driver.controller.nodes *)
  nodes_order : list Z;                   (* its keys, as inserted *)
  provisioningList : list ProvisioningEntry;
  assertProvisioningEntry : ProvisioningEntry -> option Exn;
  start_outcome : option Exn;             (* None: start() resolves *)
  destroy_outcome : option Exn;           (* None: destroy() resolves *)
  destroyed : bool
}.

Definition set_nodes (d : Driver) (m : gmap Z ZWaveNode) : Driver :=
  mkDriver m (nodes_order d) (provisioningList d) (assertProvisioningEntry d)
    (start_outcome d) (destroy_outcome d) (destroyed d).

Definition set_provisioningList (d : Driver) (l : list ProvisioningEntry)
  : Driver :=
  mkDriver (nodes d) (nodes_order d) l (assertProvisioningEntry d)
    (start_outcome d) (destroy_outcome d) (destroyed d).

Definition set_destroyed (d : Driver) : Driver :=
  mkDriver (nodes d) (nodes_order d) (provisioningList d)
    (assertProvisioningEntry d) (start_outcome d) (destroy_outcome d) true.

(** [controller.nodes.get(nodeId)]: the map is keyed by integers. *)
Definition nodes_get (m : gmap Z ZWaveNode) (nodeId : JSNum)
  : option ZWaveNode :=
  match nodeId with
  | Fin q => if q_is_integer q then m !! Qfloor q else None
  | _ => None
  end.

(** Modelled from the spec: the provisioning store of the controller
    (get, upsert and delete keyed by DSK).
    [controller.getProvisioningEntry(dsk)]. *)
Definition getProvisioningEntry (d : Driver) (key : JSValue)
  : option ProvisioningEntry :=
  find (fun e => strict_eq (dsk e) key) (provisioningList d).

Fixpoint upsert (e : ProvisioningEntry) (l : list ProvisioningEntry)
  : list ProvisioningEntry :=
  match l with
  | [] => [e]
  | x :: rest =>
      if strict_eq (dsk x) (dsk e) then e :: rest else x :: upsert e rest
  end.

(** Modelled from the spec: [controller.provisionSmartStartNode(entry)]
    validates the entry, then replaces the entry with the same DSK or
    appends. *)
Definition controller_provisionSmartStartNode (d : Driver)
    (e : ProvisioningEntry) : Completion unit * Driver :=
  match assertProvisioningEntry d e with
  | Some exn => (Throw exn, d)
  | None => (Normal tt, set_provisioningList d (upsert e (provisioningList d)))
  end.

(** Modelled from the spec:
    [controller.unprovisionSmartStartNode(dskOrNodeId)]; a string is a
    DSK, a number a node id. *)
Definition controller_unprovisionSmartStartNode (d : Driver)
    (key : JSValue) : Driver :=
  set_provisioningList d
    (List.filter (fun e =>
                    negb match key with
                         | JNum _ => strict_eq (nodeId e) key
                         | _ => strict_eq (dsk e) key
                         end) (provisioningList d)).

End ZWaveJS.
Export ZWaveJS.

(* ================================================================== *)
(** * manufacturer-proprietary.js *)
(* ================================================================== *)

Module ManufacturerProprietary.

(** [payloadHex.replace(/\s+/g, "")]. *)
Definition strip_whitespace (s : JSString) : JSString :=
  List.filter (fun c => negb (is_whitespace c)) s.

(** [/^[0-9a-fA-F]+$/.test(s)]. *)
Definition all_hex (s : JSString) : bool :=
  match s with
  | [] => false
  | _ => forallb is_hex s
  end.

(** [hexTo32ByteBuffer(payloadHex)].  A value that is not a string has
    no callable [replace]. *)
Definition hexTo32ByteBuffer (payloadHex : JSValue) : Completion Buffer :=
  match payloadHex with
  | JStr s =>
      let normalized := strip_whitespace s in
      if negb (all_hex normalized) then
        Throw (new_Error (msg "Payload must contain only hex characters 0-9, a-f"))
      else
        let buf := Buffer_from_hex normalized in
        if negb (length buf =? 32)%nat then
          Throw (new_Error
                   [Txt (str "vendorPayload must be exactly 32 bytes, got ");
                    Val (JNum (num_of_nat (length buf)))])
        else Normal buf
  | JUndefined | JNull =>
      Throw (mkExn TypeError
               [Txt (str "Cannot read properties of "); Val payloadHex;
                Txt (str " (reading 'replace')")])
  | _ => Throw (mkExn TypeError (msg "payloadHex.replace is not a function"))
  end.

(** [forceManufacturerProprietarySupport(node)]: the method of
    [ZWaveLock] and [_forceManufacturerProprietarySupport] of the
    client have the same body; [addCC] registers class 0x91. *)
Definition forceManufacturerProprietarySupport (node : ZWaveNode)
  : ZWaveNode :=
  if negb (node_addCC node) then node
  else
    let alreadySupported :=
      existsb (Z.eqb CC_ManufacturerProprietary) (node_supported node) in
    if negb alreadySupported
    then set_supported node (CC_ManufacturerProprietary :: node_supported node)
    else node.

(** [getManufacturerProprietaryAPI(node, nodeId, onSupervisionUpdate)]. *)
Definition getManufacturerProprietaryAPI (node : ZWaveNode)
  : option SendData :=
  match node_commandClasses_MP node with
  | None => None
  | Some base =>
      match withOptions base with
      | Some apiWithSupervision => Some apiWithSupervision
      | None => Some (sendData base)
      end
  end.

(** One element of [results]. *)
Record FrameResult := mkFrameResult {
  frameNumber : nat;
  fr_result : JSValue;
  fr_duration : option Z
}.

Record SendResult := mkSendResult {
  sr_nodeId : JSNum;
  sr_count : JSNum;
  sr_vendorPayloadHex : JSString;
  sr_manufacturerId : JSNum;
  sr_results : list FrameResult
}.

(** Steps 8 of [sendManufacturerProprietaryCustom] and the same two
    tests of [sendCustom]:
    [if (count <= 0) count = 1; if (count > 100) count = 100;]. *)
Definition clamp_count (count : JSNum) : JSNum :=
  let count := if num_le count (num_of_Z 0) then num_of_Z 1 else count in
  if num_gt count (num_of_Z 100) then num_of_Z 100 else count.

(** [for (let i = 0; i < count; i++) { ... await ccMP.sendData(...) ... }]
    with its [try]/[catch] that rethrows.  [mk] builds the element
    pushed to [results]; the node keeps the frames it was handed. *)
Fixpoint send_frames (fuel : nat) (ccMP : SendData) (manufacturerId : JSNum)
    (vendorPayload : Buffer) (count : JSNum)
    (mk : nat -> JSValue -> Z -> FrameResult)
    (i : nat) (results : list FrameResult) (node : ZWaveNode)
  : Completion (list FrameResult) * ZWaveNode :=
  match fuel with
  | O => (OutOfFuel, node)
  | S fuel' =>
      if num_lt (num_of_nat i) count then
        let outcome :=
          ccMP manufacturerId vendorPayload (length (node_frames node)) in
        let node' :=
          set_frames node (node_frames node ++ [(manufacturerId, vendorPayload)]) in
        match outcome with
        | Sent result duration =>
            send_frames fuel' ccMP manufacturerId vendorPayload count mk
              (S i) (results ++ [mk (S i) result duration]) node'
        | SendFailed error _ => (Throw error, node')
        end
      else (Normal results, node)
  end.

(** The loop runs after [clamp_count]: 100 sends and the final test. *)
Definition loop_bound : nat := 101.

(** The [context] of [createManufacturerProprietarySender]:
    [waitForDriverReady] is the outcome of waiting ([None]: the driver
    became ready). *)
Record Context := mkContext {
  ctx_driver : option Driver;
  ctx_driverReady : bool;
  ctx_waitForDriverReady : option Exn
}.

(** The driver once the node object found under [nodeId] has been
    changed by a call; its key is in the [Map] already. *)
Definition nodes_put (d : Driver) (nodeId : JSNum) (node : ZWaveNode)
  : Driver :=
  match nodeId with
  | Fin q => set_nodes d (<[Qfloor q := node]> (nodes d))
  | _ => d
  end.

(** [sendManufacturerProprietaryCustom({ nodeId = 2, vendorPayload,
    manufacturerId = 0x0000, count = 1 })]; an absent argument is
    [None], and so is a [vendorPayload] that is not a Buffer.  The
    second component is the driver after the call. *)
Definition sendManufacturerProprietaryCustom (context : Context)
    (nodeId : option JSNum) (vendorPayload : option Buffer)
    (manufacturerId : option JSNum) (count : option JSNum)
  : Completion SendResult * option Driver :=
  let nodeId := default (num_of_Z 2) nodeId in
  let manufacturerId := default (num_of_Z 0) manufacturerId in
  let count := default (num_of_Z 1) count in
  match ctx_driver context with
  | None => (Throw (new_Error (msg "Driver not started")), None)
  | Some drv =>
  match (if ctx_driverReady context then None
         else ctx_waitForDriverReady context) with
  | Some error => (Throw error, Some drv)
  | None =>
  match vendorPayload with
  | None => (Throw (new_Error (msg "vendorPayload must be a Buffer")), Some drv)
  | Some vendorPayload =>
  if negb (length vendorPayload =? 32)%nat then
    (Throw (new_Error
              [Txt (str "vendorPayload must be exactly 32 bytes, got ");
               Val (JNum (num_of_nat (length vendorPayload)))]), Some drv)
  else
  let payloadHex := Buffer_toString_hex vendorPayload in
  match nodes_get (nodes drv) nodeId with
  | None =>
      (Throw (new_Error [Txt (str "Node "); Val (JNum nodeId);
                         Txt (str " not found")]), Some drv)
  | Some node =>
  if negb (node_ready node) then
    (Throw (new_Error [Txt (str "Node "); Val (JNum nodeId);
                       Txt (str " is not ready yet")]), Some drv)
  else
  let node := forceManufacturerProprietarySupport node in
  match node_commandClasses_MP node with
  | None =>
      (Throw (new_Error
                [Txt (str "Node "); Val (JNum nodeId);
                 Txt (str " does not expose Manufacturer Proprietary CC (0x91)")]),
       Some (nodes_put drv nodeId node))
  | Some ccMP =>
  let count := clamp_count count in
  let '(outcome, node) :=
    send_frames loop_bound (sendData ccMP) manufacturerId vendorPayload count
      (fun n result _ => mkFrameResult n result None) 0 [] node in
  (results <- outcome ;;
   Normal (mkSendResult nodeId count payloadHex manufacturerId results),
   Some (nodes_put drv nodeId node))%js
  end end end end end.

End ManufacturerProprietary.
Export ManufacturerProprietary.

(* ================================================================== *)
(** * models/ZWaveLock.js *)
(* ================================================================== *)

Module Lock.

Record ZWaveLock := mkLock {
  node : ZWaveNode;                       (* this.node *)
  lock_nodeId : Z;                        (* this.nodeId *)
  _mpAPI : option SendData;
  _setupComplete : bool;
  ready_listener : bool                   (* the listener that initialize()
                                             leaves with node.once("ready") *)
}.

Definition set_node (l : ZWaveLock) (n : ZWaveNode) : ZWaveLock :=
  mkLock n (lock_nodeId l) (_mpAPI l) (_setupComplete l) (ready_listener l).

Definition set_mpAPI (l : ZWaveLock) (a : option SendData) : ZWaveLock :=
  mkLock (node l) (lock_nodeId l) a (_setupComplete l) (ready_listener l).

Definition set_setupComplete (l : ZWaveLock) (b : bool) : ZWaveLock :=
  mkLock (node l) (lock_nodeId l) (_mpAPI l) b (ready_listener l).

Definition set_ready_listener (l : ZWaveLock) (b : bool) : ZWaveLock :=
  mkLock (node l) (lock_nodeId l) (_mpAPI l) (_setupComplete l) b.

(** The fields as the constructor assigns them, before it calls
    [initialize()]. *)
Definition constructed (n : ZWaveNode) : ZWaveLock :=
  mkLock n (node_id n) None false false.

(** The test of the installed closure:
    [command.ccId === 0x91 || command instanceof ManufacturerProprietaryCC
     || command.constructor?.name === "ManufacturerProprietaryCC"]. *)
Definition isManufacturerProprietary (command : Command) : bool :=
  (ccId command =? 0x91)
  || cmd_instanceof_MPCC command
  || match cmd_constructor_name command with
     | Some n => streq n (str "ManufacturerProprietaryCC")
     | None => false
     end.

(** The [commandData] object built by the closure. *)
Definition commandData (nodeId : Z) (command : Command) : CommandData :=
  mkCommandData nodeId (cmd_manufacturerId command)
    (cmd_payload command)
    (match cmd_payload command with
     | Some p => js_or (JNum (num_of_nat (length p))) (JInt 0)
     | None => JInt 0
     end)
    (js_or (cmd_endpointIndex command) (JInt 0)).

(** Calling [node.handleCommand(command)]. *)
Fixpoint handleCommand (h : HandlerImpl) (command : Command) (bus : Bus)
  : JSValue * Bus :=
  match h with
  | Native result =>
      (result command, mkBus (emitted bus) (delivered bus ++ [command]))
  | Intercepting nodeId originalHandleCommand =>
      if isManufacturerProprietary command then
        (JUndefined,
         mkBus (emitted bus ++ [commandData nodeId command]) (delivered bus))
      else handleCommand originalHandleCommand command bus
  end.

(** [setupManufacturerProprietaryCommandHandler()]. *)
Definition setupManufacturerProprietaryCommandHandler (l : ZWaveLock)
  : ZWaveLock :=
  match node_handleCommand (node l) with
  | None => l
  | Some current =>
      if node_mpHandlerAttached (node l) then l
      else
        let originalHandleCommand := current in
        set_node l
          (set_handler (node l)
             (Intercepting (lock_nodeId l) originalHandleCommand) true)
  end.

(** [_initializeMPAPI()]. *)
Definition _initializeMPAPI (l : ZWaveLock) : ZWaveLock :=
  match _mpAPI l with
  | Some _ => l
  | None => set_mpAPI l (getManufacturerProprietaryAPI (node l))
  end.

(** [initialize()].  [configureManufacturerProprietarySecurity()],
    which it calls between the two other steps, writes the security
    class of class 0x91 in the library, catches every error, and
    touches none of the fields held here.  On a node that is not
    ready the call of [_initializeMPAPI] is left to a listener. *)
Definition initialize (l : ZWaveLock) : ZWaveLock :=
  if _setupComplete l then l
  else
    let l := set_node l (forceManufacturerProprietarySupport (node l)) in
    let l := setupManufacturerProprietaryCommandHandler l in
    let l :=
      if node_ready (node l) then _initializeMPAPI l
      else set_ready_listener l true in
    set_setupComplete l true.

(** [new ZWaveLock(node)]. *)
Definition new_ZWaveLock (n : ZWaveNode) : ZWaveLock :=
  initialize (constructed n).

(** The library marks the node ready and emits "ready": the listener
    left by [initialize()] runs, once. *)
Definition node_ready_event (l : ZWaveLock) : ZWaveLock :=
  let l := set_node l (set_ready (node l) true) in
  if ready_listener l then _initializeMPAPI (set_ready_listener l false)
  else l.

(** The method [getManufacturerProprietaryAPI()] of the lock. *)
Definition lock_getManufacturerProprietaryAPI (l : ZWaveLock)
  : option SendData * ZWaveLock :=
  if negb (node_ready (node l)) then (None, l)
  else
    let l := set_node l (forceManufacturerProprietarySupport (node l)) in
    let l := match _mpAPI l with None => _initializeMPAPI l | Some _ => l end in
    match _mpAPI l with
    | None =>
        match node_commandClasses_MP (node l) with
        | Some base => (Some (sendData base), l)
        | None => (None, l)
        end
    | Some api => (Some api, l)
    end.

(** The [payload] argument of [sendCustom]: a Buffer or any other
    value. *)
Inductive Payload :=
| PBuffer (b : Buffer)
| PValue (v : JSValue).

(** [sendCustom({ payload, manufacturerId = 0x0000, count = 1 })]. *)
Definition sendCustom (l : ZWaveLock) (payload : Payload)
    (manufacturerId : option JSNum) (count : option JSNum)
  : Completion SendResult * ZWaveLock :=
  let manufacturerId := default (num_of_Z 0) manufacturerId in
  let count := default (num_of_Z 1) count in
  if match payload with PBuffer _ => false | PValue v => js_not v end then
    (Throw (new_Error (msg "payload is required")), l)
  else if negb (node_ready (node l)) then
    (Throw (new_Error [Txt (str "Node "); Val (JInt (lock_nodeId l));
                       Txt (str " is not ready yet")]), l)
  else
  match
    match payload with
    | PBuffer b => Normal b
    | PValue (JStr s) => hexTo32ByteBuffer (JStr s)
    | PValue _ =>
        Throw (new_Error (msg "payload must be a Buffer or hex string"))
    end
  with
  | Throw e => (Throw e, l)
  | OutOfFuel => (OutOfFuel, l)
  | Normal vendorPayload =>
  if negb (length vendorPayload =? 32)%nat then
    (Throw (new_Error
              [Txt (str "vendorPayload must be exactly 32 bytes, got ");
               Val (JNum (num_of_nat (length vendorPayload)))]), l)
  else
  let count := clamp_count count in
  let l := set_node l (forceManufacturerProprietarySupport (node l)) in
  let '(ccMP, l) := lock_getManufacturerProprietaryAPI l in
  match ccMP with
  | None =>
      (Throw (new_Error
                [Txt (str "Node "); Val (JInt (lock_nodeId l));
                 Txt (str " does not expose Manufacturer Proprietary CC (0x91)")]),
       l)
  | Some ccMP =>
  let payloadHex := Buffer_toString_hex vendorPayload in
  let '(outcome, n) :=
    send_frames loop_bound ccMP manufacturerId vendorPayload count
      (fun n result duration => mkFrameResult n result (Some duration))
      0 [] (node l) in
  (results <- outcome ;;
   Normal (mkSendResult (num_of_Z (lock_nodeId l)) count payloadHex
             manufacturerId results),
   set_node l n)%js
  end end.

End Lock.

(* ================================================================== *)
(** * zwave-client.js *)
(* ================================================================== *)

Module Client.

Record ZWaveProvisioningClient := mkClient {
  port : JSValue;
  driver : option Driver;
  driverReady : bool;
  ready_listeners : nat                   (* listeners added by on("ready", ...) *)
}.

Definition set_driver (c : ZWaveProvisioningClient) (d : option Driver)
  : ZWaveProvisioningClient :=
  mkClient (port c) d (driverReady c) (ready_listeners c).

Definition set_driverReady (c : ZWaveProvisioningClient) (b : bool)
  : ZWaveProvisioningClient :=
  mkClient (port c) (driver c) b (ready_listeners c).

(** [client.on("ready", listener)]. *)
Definition on_ready (c : ZWaveProvisioningClient) : ZWaveProvisioningClient :=
  mkClient (port c) (driver c) (driverReady c) (S (ready_listeners c)).

(** Reading [this.driver.controller] when [this.driver] is [null]. *)
Definition no_driver : Exn :=
  mkExn TypeError (msg "Cannot read properties of null (reading 'controller')").

(** ** DSK normaliser *)

(** [String.prototype.toUpperCase], as far as the tests that follow
    can tell: [a]-[z] become [A]-[Z], the ligature U+FB00 becomes
    ["FF"]; the upper case of any other code unit contains, like the
    code unit itself, something outside [[0-9A-F]]. *)
Definition toUpperCase (s : JSString) : JSString :=
  flat_map (fun c =>
              if ((97 <=? c) && (c <=? 122))%N then [(c - 32)%N]
              else if (c =? 64256)%N then [70%N; 70%N]
              else [c]) s.

(** [dsk.replace(/[-\s]/g, "")]. *)
Definition strip_dashes (s : JSString) : JSString :=
  List.filter (fun c => negb ((c =? 45)%N || is_whitespace c)) s.

(** [/^[0-9]{n}$/.test(s)] and [/^[0-9A-F]{n}$/.test(s)]. *)
Definition is_decimal_of_length (n : nat) (s : JSString) : bool :=
  (length s =? n)%nat && forallb is_digit s.

Definition is_HEX_of_length (n : nat) (s : JSString) : bool :=
  (length s =? n)%nat && forallb (fun c => is_digit c || is_upper_hex c) s.

(** [s.match(/.{1,5}/g).join("-")] on a string without line
    terminators; [k] characters are left in the current group. *)
Fixpoint group5_from (k : nat) (s : JSString) : JSString :=
  match s with
  | [] => []
  | c :: rest =>
      match k with
      | O => 45%N :: c :: group5_from 4 rest
      | S k' => c :: group5_from k' rest
      end
  end.

Definition group5 (s : JSString) : JSString := group5_from 5 s.

(** [cleaned.substring(0, 32)] and
    [cleaned.substring(cleaned.length - 32)]. *)
Definition substring_first32 (s : JSString) : JSString := firstn 32 s.
Definition substring_last32 (s : JSString) : JSString :=
  skipn (length s - 32) s.

(** [normalizeDSK(dsk)]. *)
Definition normalizeDSK (dsk : JSValue) : JSValue :=
  match dsk with
  | JStr s =>
      if js_not dsk then dsk
      else
        let cleaned := toUpperCase (strip_dashes s) in
        if is_decimal_of_length 40 cleaned then JStr (group5 cleaned)
        else if is_HEX_of_length 32 cleaned then JStr (group5 cleaned)
        else if is_HEX_of_length 40 cleaned then
          let extracted := substring_first32 cleaned in
          if is_HEX_of_length 32 extracted then JStr (group5 extracted)
          else
            let extractedLast := substring_last32 cleaned in
            if is_HEX_of_length 32 extractedLast
            then JStr (group5 extractedLast)
            else dsk
        else dsk
  | _ => dsk
  end.

(** ** Provisioning entries *)

Definition set_dsk (e : ProvisioningEntry) (v : JSValue) : ProvisioningEntry :=
  mkEntry v (name e) (location e) (protocol e) (status e)
    (securityClasses e) (s2AccessControl e) (s2Authenticated e)
    (s2Unauthenticated e) (s0Legacy e) (supportedProtocols e)
    (manufacturerId e) (productType e) (productId e)
    (applicationVersion e) (nodeId e).

Definition set_status (e : ProvisioningEntry) (v : JSValue)
  : ProvisioningEntry :=
  mkEntry (dsk e) (name e) (location e) (protocol e) v
    (securityClasses e) (s2AccessControl e) (s2Authenticated e)
    (s2Unauthenticated e) (s0Legacy e) (supportedProtocols e)
    (manufacturerId e) (productType e) (productId e)
    (applicationVersion e) (nodeId e).

Definition set_protocol (e : ProvisioningEntry) (v : JSValue)
  : ProvisioningEntry :=
  mkEntry (dsk e) (name e) (location e) v (status e)
    (securityClasses e) (s2AccessControl e) (s2Authenticated e)
    (s2Unauthenticated e) (s0Legacy e) (supportedProtocols e)
    (manufacturerId e) (productType e) (productId e)
    (applicationVersion e) (nodeId e).

Definition set_securityClasses (e : ProvisioningEntry) (v : JSValue)
  : ProvisioningEntry :=
  mkEntry (dsk e) (name e) (location e) (protocol e) (status e)
    v (s2AccessControl e) (s2Authenticated e)
    (s2Unauthenticated e) (s0Legacy e) (supportedProtocols e)
    (manufacturerId e) (productType e) (productId e)
    (applicationVersion e) (nodeId e).

(** [v.key] for a value known to be neither [undefined] nor [null]. *)
Definition prop (v : JSValue) (key : string) : JSValue :=
  match get v key with
  | Normal x => x
  | _ => JUndefined
  end.

(** [x === true || x === "true"]. *)
Definition flag_set (x : JSValue) : bool :=
  strict_eq x (JBool true) || strict_eq x (JS_ "true").

(** [array.includes(n)] for a number [n] that is not [NaN]. *)
Definition includes_num (l : list JSValue) (n : Z) : bool :=
  existsb (fun x => strict_eq x (JInt n)) l.

(** [entry.supportedProtocols?.includes(Protocols.ZWaveLongRange)]:
    [undefined] (falsy) on a missing list, membership on an array,
    a search for the text ["1"] on a string, and a [TypeError] on
    anything else, which has no callable [includes]. *)
Definition includes_ZWaveLongRange (supportedProtocols : JSValue)
  : Completion bool :=
  match supportedProtocols with
  | JUndefined | JNull => Normal false
  | JArr l => Normal (existsb (fun x => strict_eq x Protocols_ZWaveLongRange) l)
  | JStr s => Normal (existsb (N.eqb 49) s)
  | _ =>
      Throw (mkExn TypeError
               (msg "entry.supportedProtocols?.includes is not a function"))
  end.

(** Push [n] unless the array has it. *)
Definition push_new (n : Z) (l : list JSValue) : list JSValue :=
  if negb (includes_num l n) then l ++ [JInt n] else l.

(** The security-class array computed by [provisionSmartStartNode]. *)
Definition securityClassesArray (entry : ProvisioningEntry) : list JSValue :=
  let sc := securityClasses entry in
  let fromProperty :=
    if truthy sc then
      match sc with
      | JArr l =>
          List.filter
            (fun x => match x with
                      | JNum _ =>
                          existsb (strict_eq x) [JInt 0; JInt 1; JInt 2; JInt 7]
                      | _ => false
                      end) l
      | JObj _ =>
          (if flag_set (prop sc "s2AccessControl") then [JInt 2] else [])
          ++ (if flag_set (prop sc "s2Authenticated") then [JInt 1] else [])
          ++ (if flag_set (prop sc "s2Unauthenticated") then [JInt 0] else [])
          ++ (if flag_set (prop sc "s0Legacy") then [JInt 7] else [])
      | _ => []
      end
    else [] in
  let a := fromProperty in
  let a := if flag_set (s2AccessControl entry) then push_new 2 a else a in
  let a := if flag_set (s2Authenticated entry) then push_new 1 a else a in
  let a := if flag_set (s2Unauthenticated entry) then push_new 0 a else a in
  let a := if flag_set (s0Legacy entry) then push_new 7 a else a in
  a.

(** [provisionSmartStartNode(entry)]: the entry object is updated in
    place and handed to the controller; the result carries the client
    after the call. *)
Definition provisionSmartStartNode (c : ZWaveProvisioningClient)
    (entry : ProvisioningEntry)
  : Completion ProvisioningEntry * ZWaveProvisioningClient :=
  if negb (driverReady c) then
    (Throw (new_Error (msg "Driver not ready")), c)
  else if js_not (dsk entry) then
    (Throw (new_Error (msg "DSK is required")), c)
  else
  let entry := set_dsk entry (normalizeDSK (dsk entry)) in
  match driver c with
  | None => (Throw no_driver, c)
  | Some drv =>
  let existing := getProvisioningEntry drv (dsk entry) in
  let isNew := match existing with None => true | Some _ => false end in
  match (if isNew then includes_ZWaveLongRange (supportedProtocols entry)
         else Normal false) with
  | Throw e => (Throw e, c)
  | OutOfFuel => (OutOfFuel, c)
  | Normal newLongRange =>
  let entry :=
    if newLongRange then set_status entry ProvisioningEntryStatus_Inactive
    else if strict_eq (status entry) (JBool true)
            || strict_eq (status entry) (JS_ "active")
    then set_status entry ProvisioningEntryStatus_Active
    else set_status entry ProvisioningEntryStatus_Inactive in
  let entry :=
    if is_string_type (protocol entry) then
      if strict_eq (protocol entry) (JS_ "ZWaveLongRange")
         || strict_eq (protocol entry) (JS_ "Z-Wave Long Range")
      then set_protocol entry Protocols_ZWaveLongRange
      else set_protocol entry Protocols_ZWave
    else if js_not (protocol entry) then set_protocol entry Protocols_ZWave
    else entry in
  let entry := set_securityClasses entry (JArr (securityClassesArray entry)) in
  let '(r, drv) := controller_provisionSmartStartNode drv entry in
  (_ <- r ;; Normal entry, set_driver c (Some drv))%js
  end end.

(** [updateProvisioningEntryStatus(dsk, active)]. *)
Definition updateProvisioningEntryStatus (c : ZWaveProvisioningClient)
    (dsk active : JSValue)
  : Completion ProvisioningEntry * ZWaveProvisioningClient :=
  if negb (driverReady c) then
    (Throw (new_Error (msg "Driver not ready")), c)
  else
  let normalizedDSK := normalizeDSK dsk in
  match driver c with
  | None => (Throw no_driver, c)
  | Some drv =>
  match getProvisioningEntry drv normalizedDSK with
  | None =>
      (Throw (new_Error [Txt (str "Provisioning entry not found for DSK: ");
                         Val normalizedDSK]), c)
  | Some entry =>
      let entry :=
        set_status entry
          (if truthy active then ProvisioningEntryStatus_Active
           else ProvisioningEntryStatus_Inactive) in
      let '(r, drv) := controller_provisionSmartStartNode drv entry in
      (_ <- r ;; Normal entry, set_driver c (Some drv))%js
  end end.

(** [unprovisionSmartStartNode(dskOrNodeId)]. *)
Definition unprovisionSmartStartNode (c : ZWaveProvisioningClient)
    (dskOrNodeId : JSValue)
  : Completion unit * ZWaveProvisioningClient :=
  if negb (driverReady c) then
    (Throw (new_Error (msg "Driver not ready")), c)
  else
  let normalized :=
    if is_string_type dskOrNodeId then normalizeDSK dskOrNodeId
    else dskOrNodeId in
  match driver c with
  | None => (Throw no_driver, c)
  | Some drv =>
      (Normal tt,
       set_driver c (Some (controller_unprovisionSmartStartNode drv normalized)))
  end.

(** The object [getProvisioningEntries] builds for one entry. *)
Inductive SecurityClassesObj :=
| Flags (s2AccessControl s2Authenticated s2Unauthenticated s0Legacy : bool)
| AsStored (v : JSValue)
| Empty.

Record DeviceInfo := mkDeviceInfo {
  di_id : Z;
  di_name : JSValue;
  di_status : JSValue;
  di_deviceConfig : option DeviceConfig
}.

Record EntryView := mkEntryView {
  ev_dsk : JSValue;
  ev_name : JSValue;
  ev_location : JSValue;
  ev_status : bool;
  ev_protocol : JSValue;
  ev_nodeId : JSValue;
  ev_securityClasses : SecurityClassesObj;
  ev_supportedProtocols : JSValue;
  ev_manufacturerId : JSValue;
  ev_productType : JSValue;
  ev_productId : JSValue;
  ev_applicationVersion : JSValue;
  ev_deviceInfo : option DeviceInfo
}.

Definition node_of_value (drv : Driver) (nodeId : JSValue)
  : option ZWaveNode :=
  match nodeId with
  | JNum n => nodes_get (nodes drv) n
  | _ => None
  end.

Definition entry_view (drv : Driver) (entry : ProvisioningEntry) : EntryView :=
  let node :=
    if truthy (nodeId entry) then node_of_value drv (nodeId entry) else None in
  let securityClassesObj :=
    match securityClasses entry with
    | JArr l =>
        Flags (includes_num l 2) (includes_num l 1) (includes_num l 0)
          (includes_num l 7)
    | JObj f => AsStored (JObj f)
    | _ => Empty
    end in
  mkEntryView (dsk entry) (js_or (name entry) (JS_ ""))
    (js_or (location entry) (JS_ ""))
    (strict_eq (status entry) ProvisioningEntryStatus_Active)
    (if strict_eq (protocol entry) Protocols_ZWaveLongRange
     then JS_ "ZWaveLongRange"
     else if strict_eq (protocol entry) Protocols_ZWave then JS_ "ZWave"
     else js_or (protocol entry) (JS_ "ZWave"))
    (js_or (nodeId entry) JNull)
    securityClassesObj
    (js_or (supportedProtocols entry) (JArr []))
    (manufacturerId entry) (productType entry) (productId entry)
    (applicationVersion entry)
    (match node with
     | Some node =>
         Some (mkDeviceInfo (node_id node) (node_name node)
                 (NodeStatus_name (node_status node))
                 (node_deviceConfig node))
     | None => None
     end).

(** [getProvisioningEntries()]. *)
Definition getProvisioningEntries (c : ZWaveProvisioningClient)
  : Completion (list EntryView) :=
  if negb (driverReady c) then Throw (new_Error (msg "Driver not ready"))
  else
    match driver c with
    | None => Throw no_driver
    | Some drv => Normal (map (entry_view drv) (provisioningList drv))
    end.

Record NodeInfo := mkNodeInfo {
  ni_id : Z;
  ni_name : Msg;
  ni_status : JSValue;
  ni_deviceConfig : option DeviceConfig
}.

Definition node_info (node : ZWaveNode) : NodeInfo :=
  mkNodeInfo (node_id node)
    (if truthy (node_name node) then [Val (node_name node)]
     else [Txt (str "Node "); Val (JInt (node_id node))])
    (js_or (NodeStatus_name (node_status node)) (JS_ "Unknown"))
    (node_deviceConfig node).

(** [getNodes()]: the nodes are listed as the [Map] is iterated, in
    the order in which they were inserted. *)
Definition getNodes (c : ZWaveProvisioningClient) : list NodeInfo :=
  match driver c with
  | Some drv =>
      if negb (driverReady c) then []
      else omap (fun id => node_info <$> nodes drv !! id) (nodes_order drv)
  | None => []
  end.

(** [getNode(nodeId)]. *)

Definition getNode (c : ZWaveProvisioningClient) (nodeId : JSNum)
  : option NodeInfo :=
  match driver c with
  | Some drv =>
      if negb (driverReady c) then None
      else
        match nodes_get (nodes drv) nodeId with
        | Some node => Some (node_info node)
        | None => None
        end
  | None => None
  end.

(** [setupManufacturerProprietaryCommandHandler(node)] of the client:
    the closure is the one of [ZWaveLock], with [node.id]. *)
Definition setupManufacturerProprietaryCommandHandler (node : ZWaveNode)
  : ZWaveNode :=
  match node_handleCommand node with
  | None => node
  | Some current =>
      if node_mpHandlerAttached node then node
      else set_handler node (Intercepting (node_id node) current) true
  end.

(** The listener of "driver ready": [driverReady] is set, the sender
    is created, and [setupControllerHandlers] prepares every node. *)
Definition on_driver_ready (c : ZWaveProvisioningClient)
  : ZWaveProvisioningClient :=
  let c := set_driverReady c true in
  match driver c with
  | Some drv =>
      set_driver c
        (Some (set_nodes drv
                 ((fun node =>
                     setupManufacturerProprietaryCommandHandler
                       (forceManufacturerProprietarySupport node))
                    <$> nodes drv)))
  | None => c
  end.

(** [sendManufacturerProprietaryCustom(options)]: the sender works on
    the client's driver and reads [driverReady] through its context.
    Under the handlers the flag is set; [wait] is the outcome of
    [waitForDriverReady()] otherwise. *)
Definition client_sendManufacturerProprietaryCustom
    (c : ZWaveProvisioningClient) (wait : option Exn)
    (nodeId : option JSNum) (vendorPayload : option Buffer)
    (manufacturerId : option JSNum) (count : option JSNum)
  : Completion SendResult * ZWaveProvisioningClient :=
  let '(r, drv) :=
    sendManufacturerProprietaryCustom
      (mkContext (driver c) (driverReady c) wait)
      nodeId vendorPayload manufacturerId count in
  (r, match drv with Some d => set_driver c (Some d) | None => c end).

(** [close()]. *)
Definition close (c : ZWaveProvisioningClient)
  : Completion unit * ZWaveProvisioningClient :=
  match driver c with
  | Some drv =>
      match destroy_outcome drv with
      | Some e => (Throw e, c)
      | None =>
          (Normal tt, set_driverReady (set_driver c (Some (set_destroyed drv))) false)
      end
  | None => (Normal tt, c)
  end.

(** [connect()]: [ensure] is the outcome of
    [ensureCustomDeviceConfig], [fresh] the driver object that
    [new Driver(port, options)] yields. *)
Definition connect (c : ZWaveProvisioningClient) (ensure : option Exn)
    (fresh : Driver) : Completion unit * ZWaveProvisioningClient :=
  match ensure with
  | Some e => (Throw e, c)
  | None =>
      let c := set_driver c (Some fresh) in
      match start_outcome fresh with
      | Some e => (Throw e, c)
      | None => (Normal tt, c)
      end
  end.

End Client.

(* ================================================================== *)
(** * plugins/ZWaveControllerWebsocket.js and server.js *)
(* ================================================================== *)

Module Router.
Import Client.

(** Conversions of the language that the handlers call and that are
    taken as given: [Number(s)] on a string, [Number(v)] on an array
    or object (ToPrimitive, which can throw, then ToNumber), and
    [parseInt(v)], [parseInt(v, 16)]. *)
Class Builtins := {
  StringToNumber : JSString -> JSNum;
  ObjectToNumber : JSValue -> Completion JSNum;
  parseInt : JSValue -> option Z -> Completion JSNum
}.

Section WithBuiltins.
Context `{Builtins}.

(** [Number(v)]. *)
Definition Number_ (v : JSValue) : Completion JSNum :=
  match v with
  | JUndefined => Normal NaN
  | JNull => Normal (num_of_Z 0)
  | JBool b => Normal (num_of_Z (if b then 1 else 0))
  | JNum n => Normal n
  | JStr s => Normal (StringToNumber s)
  | JArr _ | JObj _ => ObjectToNumber v
  end.

(** The number held by a value that passed [Number.isInteger]. *)
Definition number_value (v : JSValue) : JSNum :=
  match v with JNum n => n | _ => NaN end.

(** [Number.isInteger(v) ? v : Number(v) || fallback]. *)
Definition integer_or_Number (v : JSValue) (fallback : Z)
  : Completion JSNum :=
  if Number_isInteger v then Normal (number_value v)
  else
    (n <- Number_ v ;;
     Normal (if truthy (JNum n) then n else num_of_Z fallback))%js.

(** ** Messages to the client *)

Inductive ResponseData :=
| NoData
| Entries (l : list EntryView)
| Entry (e : EntryView)
| EntryAdded (e : ProvisioningEntry)
| StatusUpdated (dsk active : JSValue)
| EntryDeleted (dsk : JSValue)
| Nodes (l : list NodeInfo)
| NodeData (n : NodeInfo)
| Status (driverReady : JSValue) (port : JSValue) (connected : bool)
| Started (port : JSValue)
| CommandResult (r : SendResult).

Record Response := mkResponse {
  r_type : JSString;
  r_message : option Msg;
  r_data : ResponseData;
  r_requestId : JSValue
}.

Definition ERROR (m : Msg) : Response :=
  mkResponse (str "ERROR") (Some m) NoData JUndefined.

Definition reply (type : string) (data : ResponseData) : Response :=
  mkResponse (str type) None data JUndefined.

Definition with_requestId (r : Response) (requestId : JSValue) : Response :=
  mkResponse (r_type r) (r_message r) (r_data r) requestId.

(** The socket of the client that sent the message. *)
Record WebSocket := mkWebSocket { readyState : N }.

(** ** The process state *)

(** Client objects live in a heap: [server.js] and the plugin can hold
    the same object.  [ensureCustomDeviceConfig] and [new_Driver] are
    the environment: the outcome of preparing the configuration
    directory and the driver object obtained for a port. *)
Record World := mkWorld {
  heap : gmap nat ZWaveProvisioningClient;
  next_ref : nat;
  server_zwaveClient : option nat;        (* server.js: let zwaveClient *)
  server_currentPort : JSValue;           (* server.js: let currentPort *)
  zwaveClient : option nat;               (* this.zwaveClient *)
  currentPort : JSValue;                  (* this.currentPort *)
  initializeDriver : bool;                (* this.initializeDriver is set *)
  securityKeys : bool;                    (* this.securityKeys is set *)
  securityKeysLongRange : bool;
  ensureCustomDeviceConfig : option Exn;
  new_Driver : JSValue -> Driver;
  outbox : list Response                  (* frames sent on the socket *)
}.

Definition set_heap (w : World) (h : gmap nat ZWaveProvisioningClient) : World :=
  mkWorld h (next_ref w) (server_zwaveClient w) (server_currentPort w)
    (zwaveClient w) (currentPort w) (initializeDriver w) (securityKeys w)
    (securityKeysLongRange w) (ensureCustomDeviceConfig w) (new_Driver w)
    (outbox w).

Definition set_outbox (w : World) (o : list Response) : World :=
  mkWorld (heap w) (next_ref w) (server_zwaveClient w) (server_currentPort w)
    (zwaveClient w) (currentPort w) (initializeDriver w) (securityKeys w)
    (securityKeysLongRange w) (ensureCustomDeviceConfig w) (new_Driver w) o.

Definition set_server (w : World) (c : option nat) (p : JSValue) : World :=
  mkWorld (heap w) (next_ref w) c p
    (zwaveClient w) (currentPort w) (initializeDriver w) (securityKeys w)
    (securityKeysLongRange w) (ensureCustomDeviceConfig w) (new_Driver w)
    (outbox w).

Definition set_plugin (w : World) (c : option nat) (p : JSValue) : World :=
  mkWorld (heap w) (next_ref w) (server_zwaveClient w) (server_currentPort w)
    c p (initializeDriver w) (securityKeys w)
    (securityKeysLongRange w) (ensureCustomDeviceConfig w) (new_Driver w)
    (outbox w).

(** [new ZWaveProvisioningClient(port, options)]. *)
Definition alloc (w : World) (c : ZWaveProvisioningClient) : nat * World :=
  (next_ref w,
   mkWorld (<[next_ref w := c]> (heap w)) (S (next_ref w))
     (server_zwaveClient w) (server_currentPort w)
     (zwaveClient w) (currentPort w) (initializeDriver w) (securityKeys w)
     (securityKeysLongRange w) (ensureCustomDeviceConfig w) (new_Driver w)
     (outbox w)).

(** ** Asynchronous functions *)

(** An [async] function runs on the process state and completes or
    throws (its promise is rejected). *)
Definition M (A : Type) := World -> Completion A * World.

Definition ret {A} (a : A) : M A := fun w => (Normal a, w).

Definition bind {A B} (m : M A) (k : A -> M B) : M B :=
  fun w =>
    match m w with
    | (Normal a, w') => k a w'
    | (Throw e, w') => (Throw e, w')
    | (OutOfFuel, w') => (OutOfFuel, w')
    end.

Definition lift {A} (c : Completion A) : M A := fun w => (c, w).

(** [try { body } catch (error) { handler }]. *)
Definition try_catch {A} (body : M A) (handler : Exn -> M A) : M A :=
  fun w =>
    match body w with
    | (Throw e, w') => handler e w'
    | r => r
    end.

Definition get_world : M World := fun w => (Normal w, w).
Definition modify (f : World -> World) : M unit := fun w => (Normal tt, f w).

Local Notation "x <- m ;; k" := (bind m (fun x => k))
  (at level 100, m at next level, right associativity).
Local Notation "m ;;; k" := (bind m (fun _ => k))
  (at level 100, right associativity).

(** [sendToClient(client, message)] and
    [sendResponse(client, requestId, message)]. *)
Definition sendToClient (client : WebSocket) (message : Response) : M unit :=
  fun w =>
    if (readyState client =? 1)%N
    then (Normal tt, set_outbox w (outbox w ++ [message]))
    else (Normal tt, w).

Definition sendResponse (client : WebSocket) (requestId : JSValue)
    (message : Response) : M unit :=
  sendToClient client (with_requestId message requestId).

(** [this.zwaveClient], dereferenced. *)
Definition plugin_client (w : World) : option (nat * ZWaveProvisioningClient) :=
  match zwaveClient w with
  | Some r =>
      match heap w !! r with
      | Some c => Some (r, c)
      | None => None
      end
  | None => None
  end.

(** [this.zwaveClient && this.zwaveClient.driverReady]. *)
Definition ready_client (w : World) : option (nat * ZWaveProvisioningClient) :=
  match plugin_client w with
  | Some (r, c) => if driverReady c then Some (r, c) else None
  | None => None
  end.

(** A method call on the client object at [r], which is written back. *)
Definition on_client {A} (r : nat)
    (f : ZWaveProvisioningClient -> Completion A * ZWaveProvisioningClient)
    (c : ZWaveProvisioningClient) : M A :=
  fun w =>
    let '(res, c') := f c in
    (res, set_heap w (<[r := c']> (heap w))).

Definition not_ready : Response := ERROR (msg "Driver not ready").

(** The [catch] block shared by the handlers. *)
Definition report (client : WebSocket) (requestId : JSValue) (error : Exn)
  : M unit :=
  sendResponse client requestId (ERROR (exn_message error)).

Definition handleGetProvisioningEntries (client : WebSocket)
    (requestId : JSValue) : M unit :=
  try_catch
    (w <- get_world ;;
     match ready_client w with
     | None => sendResponse client requestId not_ready
     | Some (_, c) =>
         entries <- lift (getProvisioningEntries c) ;;
         sendResponse client requestId
           (reply "PROVISIONING_ENTRIES" (Entries entries))
     end)
    (report client requestId).

Definition handleGetProvisioningEntry (client : WebSocket) (data : JSValue)
    (requestId : JSValue) : M unit :=
  try_catch
    (w <- get_world ;;
     match ready_client w with
     | None => sendResponse client requestId not_ready
     | Some (_, c) =>
         entries <- lift (getProvisioningEntries c) ;;
         found <- lift match entries with
                       | [] => Normal None
                       | _ =>
                           (dsk <- get data "dsk" ;;
                            Normal (find (fun e => strict_eq (ev_dsk e) dsk)
                                      entries))%js
                       end ;;
         match found with
         | Some entry =>
             sendResponse client requestId
               (reply "PROVISIONING_ENTRY" (Entry entry))
         | None => sendResponse client requestId (ERROR (msg "Entry not found"))
         end
     end)
    (report client requestId).

(** The object-form flags the handler builds from the individually
    named ones. *)
Definition flags_object (entry : JSValue) : JSValue :=
  JObj [(str "s2AccessControl", JBool (flag_set (prop entry "s2AccessControl")));
        (str "s2Authenticated", JBool (flag_set (prop entry "s2Authenticated")));
        (str "s2Unauthenticated", JBool (flag_set (prop entry "s2Unauthenticated")));
        (str "s0Legacy", JBool (flag_set (prop entry "s0Legacy")))].

(** The [provisioningEntry] object literal of the handler. *)
Definition provisioningEntry_of (entry : JSValue) : ProvisioningEntry :=
  let protocol := js_or (prop entry "protocol") (JS_ "ZWave") in
  let sc := prop entry "securityClasses" in
  let securityClassesObj :=
    if truthy sc && is_object_type sc && negb (Array_isArray sc) then sc
    else flags_object entry in
  mkEntry (prop entry "dsk")
    (js_or (prop entry "name") (JS_ ""))
    (js_or (prop entry "location") (JS_ ""))
    protocol
    (if negb (strict_eq (prop entry "status") JUndefined)
     then prop entry "status" else JBool false)
    securityClassesObj
    (JBool (flag_set (prop entry "s2AccessControl")))
    (JBool (flag_set (prop entry "s2Authenticated")))
    (JBool (flag_set (prop entry "s2Unauthenticated")))
    (JBool (flag_set (prop entry "s0Legacy")))
    (js_or (prop entry "supportedProtocols") (JArr []))
    (prop entry "manufacturerId")
    (prop entry "productType")
    (prop entry "productId")
    (prop entry "applicationVersion")
    JUndefined.

Definition handleAddProvisioningEntry (client : WebSocket) (data : JSValue)
    (requestId : JSValue) : M unit :=
  try_catch
    (e <- lift (get data "entry") ;;
     let entry := js_or e data in
     dsk <- lift (get entry "dsk") ;;
     if js_not dsk then
       sendResponse client requestId (ERROR (msg "DSK is required"))
     else
       w <- get_world ;;
       match ready_client w with
       | None => sendResponse client requestId not_ready
       | Some (r, c) =>
           let provisioningEntry := provisioningEntry_of entry in
           provisioningEntry <-
             on_client r (fun c => provisionSmartStartNode c provisioningEntry) c ;;
           sendResponse client requestId
             (reply "PROVISIONING_ENTRY_ADDED" (EntryAdded provisioningEntry))
       end)
    (report client requestId).

Definition handleUpdateProvisioningEntryStatus (client : WebSocket)
    (data : JSValue) (requestId : JSValue) : M unit :=
  try_catch
    (w <- get_world ;;
     match ready_client w with
     | None => sendResponse client requestId not_ready
     | Some (r, c) =>
         dsk <- lift (get data "dsk") ;;
         active <- lift (get data "active") ;;
         if js_not dsk then
           sendResponse client requestId (ERROR (msg "dsk is required"))
         else if negb match typeof active with TBoolean => true | _ => false end
         then
           sendResponse client requestId (ERROR (msg "active must be a boolean"))
         else
           on_client r (fun c => updateProvisioningEntryStatus c dsk active) c ;;;
           sendResponse client requestId
             (reply "PROVISIONING_ENTRY_STATUS_UPDATED" (StatusUpdated dsk active))
     end)
    (report client requestId).

Definition handleDeleteProvisioningEntry (client : WebSocket)
    (data : JSValue) (requestId : JSValue) : M unit :=
  try_catch
    (w <- get_world ;;
     match ready_client w with
     | None => sendResponse client requestId not_ready
     | Some (r, c) =>
         dsk <- lift (get data "dsk") ;;
         if js_not dsk then
           sendResponse client requestId (ERROR (msg "dsk is required"))
         else
           on_client r (fun c => unprovisionSmartStartNode c dsk) c ;;;
           sendResponse client requestId
             (reply "PROVISIONING_ENTRY_DELETED" (EntryDeleted dsk))
     end)
    (report client requestId).

Definition handleGetNodes (client : WebSocket) (requestId : JSValue)
  : M unit :=
  try_catch
    (w <- get_world ;;
     match ready_client w with
     | None => sendResponse client requestId (reply "NODES" (Nodes []))
     | Some (_, c) =>
         let nodes := getNodes c in
         sendResponse client requestId (reply "NODES" (Nodes nodes))
     end)
    (report client requestId).

Definition handleGetNode (client : WebSocket) (data : JSValue)
    (requestId : JSValue) : M unit :=
  try_catch
    (w <- get_world ;;
     match ready_client w with
     | None => sendResponse client requestId not_ready
     | Some (_, c) =>
         raw <- lift (get data "nodeId") ;;
         nodeId <- lift (parseInt raw None) ;;
         match nodeId with
         | NaN => sendResponse client requestId (ERROR (msg "Invalid nodeId"))
         | _ =>
             match getNode c nodeId with
             | Some node =>
                 sendResponse client requestId (reply "NODE" (NodeData node))
             | None =>
                 sendResponse client requestId (ERROR (msg "Node not found"))
             end
         end
     end)
    (report client requestId).

Definition handleGetStatus (client : WebSocket) (requestId : JSValue)
  : M unit :=
  w <- get_world ;;
  sendResponse client requestId
    (reply "STATUS"
       (Status
          (match zwaveClient w with
           | Some _ =>
               match plugin_client w with
               | Some (_, c) => JBool (driverReady c)
               | None => JBool false
               end
           | None => JBool false
           end)
          (currentPort w)
          (match zwaveClient w with Some _ => true | None => false end))).

(** ** START *)

Definition default_port : JSValue := JS_ "/dev/tty.usbserial-DK0E7J3D".

(** [await client.close()] inside [try { } catch { console.error }]. *)
Definition close_quietly (r : option nat) : M unit :=
  match r with
  | Some r =>
      try_catch
        (w <- get_world ;;
         match heap w !! r with
         | Some c => on_client r close c
         | None => ret tt
         end)
        (fun _ => ret tt)
  | None => ret tt
  end.

(** [await client.connect()]. *)
Definition connect_ref (r : nat) : M unit :=
  w <- get_world ;;
  match heap w !! r with
  | Some c =>
      on_client r
        (fun c => connect c (ensureCustomDeviceConfig w) (new_Driver w (port c))) c
  | None => ret tt
  end.

(** [setupZWaveEventHandlers()]: the plugin adds its listeners to the
    client it holds; the listener of "ready" broadcasts
    [DRIVER_READY]. *)
Definition setupZWaveEventHandlers : M unit :=
  w <- get_world ;;
  match plugin_client w with
  | Some (r, c) => modify (fun w => set_heap w (<[r := on_ready c]> (heap w)))
  | None => ret tt
  end.

(** [setZWaveClient(client, port)]. *)
Definition setZWaveClient (r : nat) (port : JSValue) : M unit :=
  modify (fun w => set_plugin w (Some r) port) ;;;
  setupZWaveEventHandlers.

(** [initializeDriver(port)] of [server.js]. *)
Definition server_initializeDriver (port : JSValue) : M unit :=
  w <- get_world ;;
  close_quietly (server_zwaveClient w) ;;;
  w <- get_world ;;
  let '(r, w') := alloc w (mkClient port None false 0) in
  modify (fun _ => set_server w' (Some r) (server_currentPort w')) ;;;
  connect_ref r ;;;
  modify (fun w => set_server w (server_zwaveClient w) port) ;;;
  setZWaveClient r port.

Definition START_SUCCESS (port : JSValue) : Response :=
  reply "START_SUCCESS" (Started port).

Definition handleStart (client : WebSocket) (data : JSValue)
    (requestId : JSValue) : M unit :=
  try_catch
    (w <- get_world ;;
     match ready_client w with
     | Some _ =>
         sendResponse client requestId (ERROR (msg "Driver is already started"))
     | None =>
         p <- lift (get data "port") ;;
         let port := js_or (js_or p (currentPort w)) default_port in
         if initializeDriver w then
           server_initializeDriver port ;;;
           sendResponse client requestId (START_SUCCESS port)
         else if negb (securityKeys w) || negb (securityKeysLongRange w) then
           sendResponse client requestId
             (ERROR (msg "Security keys not configured"))
         else
           close_quietly (zwaveClient w) ;;;
           w <- get_world ;;
           let '(r, w') := alloc w (mkClient port None false 0) in
           modify (fun _ => set_plugin w' (Some r) (currentPort w')) ;;;
           setupZWaveEventHandlers ;;;
           connect_ref r ;;;
           modify (fun w => set_plugin w (zwaveClient w) port) ;;;
           sendResponse client requestId (START_SUCCESS port)
     end)
    (fun error =>
       sendResponse client requestId
         (ERROR (if msg_truthy (exn_message error) then exn_message error
                 else msg "Failed to start driver"))).

(** ** SEND_COMMAND *)

(** The three [const numeric...] of the handler. *)
Definition numericNodeId (nodeId : JSValue) : Completion JSNum :=
  integer_or_Number nodeId 2.

Definition numericManufacturerId (manufacturerId : JSValue)
  : Completion JSNum :=
  if Number_isInteger manufacturerId then Normal (number_value manufacturerId)
  else if negb (strict_eq manufacturerId JUndefined)
  then parseInt manufacturerId (Some 16)
  else Normal (num_of_Z 0).

Definition numericCount (count : JSValue) : Completion JSNum :=
  integer_or_Number count 1.

Definition handleSendCommand (client : WebSocket) (data : JSValue)
    (requestId : JSValue) : M unit :=
  try_catch
    (w <- get_world ;;
     match ready_client w with
     | None => sendResponse client requestId not_ready
     | Some (r, c) =>
         payloadHex <- lift (get data "payloadHex") ;;
         count <- lift (get data "count") ;;
         nodeId <- lift (get data "nodeId") ;;
         manufacturerId <- lift (get data "manufacturerId") ;;
         if js_not payloadHex then
           sendResponse client requestId (ERROR (msg "payloadHex is required"))
         else
           match hexTo32ByteBuffer payloadHex with
           | OutOfFuel => lift OutOfFuel
           | Throw error =>
               sendResponse client requestId
                 (ERROR (if msg_truthy (exn_message error)
                         then exn_message error
                         else msg "Invalid payloadHex format"))
           | Normal vendorPayload =>
               numericNodeId <- lift (numericNodeId nodeId) ;;
               numericManufacturerId <-
                 lift (numericManufacturerId manufacturerId) ;;
               numericCount <- lift (numericCount count) ;;
               result <-
                 on_client r
                   (fun c =>
                      client_sendManufacturerProprietaryCustom c None
                        (Some numericNodeId) (Some vendorPayload)
                        (Some numericManufacturerId) (Some numericCount)) c ;;
               sendResponse client requestId
                 (reply "COMMAND_RESULT" (CommandResult result))
           end
     end)
    (fun error =>
       sendResponse client requestId
         (ERROR (if msg_truthy (exn_message error) then exn_message error
                 else msg "Failed to send custom Manufacturer Proprietary"))).

(** ** Dispatch *)

(** An inbound frame: its text, and the value [JSON.parse] makes of it
    ([None]: the text is not JSON and [JSON.parse] throws). *)
Record Message := mkMessage {
  text : JSString;
  parsed : option JSValue
}.

Definition JSON_parse (message : Message) : Completion JSValue :=
  match parsed message with
  | Some v => Normal v
  | None => Throw (mkExn SyntaxError (msg "Unexpected token in JSON"))
  end.

Definition is_type (t : JSValue) (name : string) : bool :=
  strict_eq t (JS_ name).

Definition handleMessage (client : WebSocket) (message : Message) : M unit :=
  try_catch
    (data <- lift (JSON_parse message) ;;
     type <- lift (get data "type") ;;
     if js_not type then
       requestId <- lift (get data "requestId") ;;
       sendToClient client
         (with_requestId (ERROR (msg "Message must have a 'type' field"))
            requestId)
     else
       requestId <- lift (get data "requestId") ;;
       if is_type type "GET_PROVISIONING_ENTRIES" then
         handleGetProvisioningEntries client requestId
       else if is_type type "GET_PROVISIONING_ENTRY" then
         handleGetProvisioningEntry client data requestId
       else if is_type type "ADD_PROVISIONING_ENTRY" then
         handleAddProvisioningEntry client data requestId
       else if is_type type "UPDATE_PROVISIONING_ENTRY_STATUS" then
         handleUpdateProvisioningEntryStatus client data requestId
       else if is_type type "DELETE_PROVISIONING_ENTRY" then
         handleDeleteProvisioningEntry client data requestId
       else if is_type type "GET_NODES" then
         handleGetNodes client requestId
       else if is_type type "GET_NODE" then
         handleGetNode client data requestId
       else if is_type type "GET_STATUS" then
         handleGetStatus client requestId
       else if is_type type "START" then
         handleStart client data requestId
       else if is_type type "SEND_COMMAND" then
         handleSendCommand client data requestId
       else if is_type type "PING" then
         sendResponse client requestId (reply "PONG" NoData)
       else
         sendResponse client requestId
           (ERROR [Txt (str "Unknown message type: "); Val type]))
    (fun error =>
       data <- lift (JSON_parse message) ;;
       requestId <- lift (get data "requestId") ;;
       sendResponse client requestId (ERROR (exn_message error))).

(** ** Lifecycle *)

(** The driver lifecycle, read off the plugin's client. *)
Inductive DriverLifecycleState := Uninitialized | Starting | Ready | Stopped.

(** [Ready]: the client's [driverReady] flag is set.  [Starting]: the
    client's driver was started ([start()] resolved), is not
    destroyed, and has not signalled "driver ready" yet.  [Stopped]:
    the driver was destroyed.  [Uninitialized]: there is no client, or
    its driver never started. *)
Definition lifecycle (w : World) : DriverLifecycleState :=
  match plugin_client w with
  | None => Uninitialized
  | Some (_, c) =>
      if driverReady c then Ready
      else
        match driver c with
        | Some drv =>
            if destroyed drv then Stopped
            else match start_outcome drv with
                 | None => Starting
                 | Some _ => Uninitialized
                 end
        | None => Uninitialized
        end
  end.

(** [this.emit("ready")] with the listeners that the plugin added:
    each of them broadcasts [DRIVER_READY]. *)
Fixpoint emit_ready (listeners : nat) (client : WebSocket) : M unit :=
  match listeners with
  | O => ret tt
  | S n =>
      sendToClient client (reply "DRIVER_READY" NoData) ;;;
      emit_ready n client
  end.

(** The driver of the client object at [r] signals "driver ready":
    the client's listener runs and emits "ready" to the listeners the
    plugin added to this client object, whether or not the plugin
    still holds it. *)
Definition driver_ready_event (client : WebSocket) (r : nat) : M unit :=
  w <- get_world ;;
  match heap w !! r with
  | Some c =>
      modify (fun w => set_heap w (<[r := on_driver_ready c]> (heap w))) ;;;
      emit_ready (ready_listeners c) client
  | None => ret tt
  end.

End WithBuiltins.
End Router.

(* ================================================================== *)
(** * Vocabulary of the statements, and sample states *)
(* ================================================================== *)

Module Spec.
Import Client Router.
Local Open Scope string_scope.
Local Open Scope list_scope.

(** The checks of [sendManufacturerProprietaryCustom] that precede the
    count pass: the driver exists and is ready (or becomes ready), the
    payload has 32 bytes, the node exists, is ready and exposes the
    command class. *)
Definition reaches_loop (context : Context) (drv : Driver) (nodeId : JSNum)
    (vendorPayload : Buffer) (node : ZWaveNode) (ccMP : MPApi) : Prop :=
  ctx_driver context = Some drv /\
  (ctx_driverReady context = true \/ ctx_waitForDriverReady context = None) /\
  length vendorPayload = 32%nat /\
  nodes_get (nodes drv) nodeId = Some node /\
  node_ready node = true /\
  node_commandClasses_MP node = Some ccMP.

(** The device accepts every frame. *)
Definition accepts_all (ccMP : SendData) (m : JSNum) (p : Buffer) : Prop :=
  forall k, exists r d, ccMP m p k = Sent r d.

(** The device accepts [k] more frames and fails the one after them
    with [e]. *)
Definition fails_after (ccMP : SendData) (m : JSNum) (p : Buffer)
    (sentBefore k : nat) (e : Exn) : Prop :=
  (forall j, (j < k)%nat ->
             exists r t, ccMP m p (sentBefore + j)%nat = Sent r t) /\
  exists d, ccMP m p (sentBefore + k)%nat = SendFailed e d.

(** The frames a node was handed, in a driver. *)
Definition frames_of (drv : option Driver) (nodeId : JSNum)
  : list (JSNum * Buffer) :=
  match drv with
  | Some d =>
      match nodes_get (nodes d) nodeId with
      | Some n => node_frames n
      | None => []
      end
  | None => []
  end.

(** The checks of [ZWaveLock.sendCustom] that precede the count pass:
    the payload is a Buffer, or a hex string that [hexTo32ByteBuffer]
    decodes; it has 32 bytes; the node is ready and the lock finds
    the API of the command class. *)
Definition lock_reaches_loop (l : Lock.ZWaveLock) (payload : Lock.Payload)
    (vendorPayload : Buffer) (ccMP : SendData) (l1 : Lock.ZWaveLock) : Prop :=
  node_ready (Lock.node l) = true /\
  (payload = Lock.PBuffer vendorPayload \/
   exists s, payload = Lock.PValue (JStr s) /\
             hexTo32ByteBuffer (JStr s) = Normal vendorPayload) /\
  length vendorPayload = 32%nat /\
  Lock.lock_getManufacturerProprietaryAPI
    (Lock.set_node l (forceManufacturerProprietarySupport (Lock.node l))) =
  (Some ccMP, l1).

(** The number of indices [0, 1, 2, ...] below a count that is not
    [+Infinity]: the passes of [for (let i = 0; i < count; i++)]. *)
Definition passes (count : JSNum) : nat :=
  match count with
  | Fin q => Z.to_nat (Qceiling q)
  | _ => 0
  end.

(** The [active] flag of an entry, as [getProvisioningEntries] shows
    it ([status === ProvisioningEntryStatus.Active]). *)
Definition active (e : ProvisioningEntry) : bool :=
  strict_eq (status e) ProvisioningEntryStatus_Active.

(** The entry the controller of the plugin's client holds for a DSK. *)
Definition stored_entry (w : World) (key : JSValue)
  : option ProvisioningEntry :=
  match ready_client w with
  | Some (_, c) =>
      match driver c with
      | Some d => getProvisioningEntry d key
      | None => None
      end
  | None => None
  end.

(** The entry fields of a request: nested under [entry] or at top
    level ([data.entry || data]). *)
Definition entry_of (data : JSValue) : JSValue :=
  js_or (prop data "entry") data.

(** The controller takes every entry it is handed. *)
Definition accepts_entries (drv : Driver) : Prop :=
  forall e, assertProvisioningEntry drv e = None.

(** The security classes and the flags that name them. *)
Definition security_class_flags : list (Z * string) :=
  [(2, "s2AccessControl"); (1, "s2Authenticated");
   (0, "s2Unauthenticated"); (7, "s0Legacy")].

(** ** Sample states *)

Definition payload32 : Buffer := repeat 0%N 32.

(** A device that accepts every frame, and one that fails its third
    frame. *)
Definition accepting : SendData := fun _ _ _ => Sent JUndefined 5.

Definition timeout : Exn := new_Error (msg "Failed to send the command").

Definition failing_third : SendData :=
  fun _ _ k => if (k <? 2)%nat then Sent JUndefined 5 else SendFailed timeout 9.

Definition library_handler : HandlerImpl := Native (fun _ => JBool true).

Definition sample_node (id : Z) (api : SendData) : ZWaveNode :=
  mkNode id (JS_ "Lock") 4 true None true [] (Some (mkMPApi api None)) []
    (Some library_handler) false.

Definition sample_driver (api : SendData) : Driver :=
  mkDriver {[ 2 := sample_node 2 api ]} [2] [] (fun _ => None) None None
    false.

Definition sample_context (api : SendData) : Context :=
  mkContext (Some (sample_driver api)) true None.

(** ** The conversions of the language

    [parseInt] and [Number] as ECMAScript defines them, on the values
    that [JSON.parse] yields.  A numeric text is read exactly: the
    rounding of a long decimal to the nearest double is left out
    (texts of 2^1024 and more give an infinity and texts of 2^-1075
    and less give 0, as in the language).  A number of magnitude
    10^21 and more, or below 10^-6, is printed by the language in
    exponent notation, which is left out too: [parseInt] of such a
    number is taken to be [NaN]. *)

Fixpoint skip_whitespace (s : JSString) : JSString :=
  match s with
  | c :: rest => if is_whitespace c then skip_whitespace rest else s
  | [] => []
  end.

(** [String.prototype.trim]. *)
Definition trim (s : JSString) : JSString :=
  rev (skip_whitespace (rev (skip_whitespace s))).

(** The value of a digit of [parseInt]: [0-9], [a-z], [A-Z]. *)
Definition digit_value (c : codeunit) : option N :=
  if is_digit c then Some (c - 48)%N
  else if ((97 <=? c) && (c <=? 122))%N then Some (c - 87)%N
  else if ((65 <=? c) && (c <=? 90))%N then Some (c - 55)%N
  else None.

(** The longest prefix of digits below [base]: how many they are,
    their value in that base, and the rest of the text. *)
Fixpoint read_digits (base : N) (s : JSString) (n : nat) (acc : N)
  : nat * N * JSString :=
  match s with
  | c :: rest =>
      match digit_value c with
      | Some v =>
          if (v <? base)%N then read_digits base rest (S n) (acc * base + v)%N
          else (n, acc, s)
      | None => (n, acc, s)
      end
  | [] => (n, acc, [])
  end.

(** A leading [-] or [+]. *)
Definition read_sign (s : JSString) : bool * JSString :=
  match s with
  | 45%N :: rest => (true, rest)
  | 43%N :: rest => (false, rest)
  | _ => (false, s)
  end.

Definition ToInt32 (z : Z) : Z :=
  let m := (z mod 2 ^ 32)%Z in
  if (m <? 2 ^ 31)%Z then m else (m - 2 ^ 32)%Z.

(** [parseInt(string, radix)]: leading white space and a sign are
    skipped, [0x] is skipped for radix 16 or no radix, and the longest
    prefix of digits is read. *)
Definition parseInt_string (s : JSString) (radix : option Z) : JSNum :=
  let '(negative, s) := read_sign (skip_whitespace s) in
  let r := match radix with Some r => ToInt32 r | None => 0%Z end in
  if (negb (r =? 0) && ((r <? 2) || (36 <? r)))%Z then NaN
  else
    let '(base, s) :=
      match s with
      | 48%N :: x :: rest =>
          if ((r =? 0) || (r =? 16))%Z && ((x =? 120) || (x =? 88))%N
          then (16%Z, rest)
          else (if (r =? 0)%Z then 10%Z else r, s)
      | _ => (if (r =? 0)%Z then 10%Z else r, s)
      end in
    match read_digits (Z.to_N base) s 0 0 with
    | (O, _, _) => NaN
    | (_, v, _) => num_of_Z (if negative then - Z.of_N v else Z.of_N v)
    end.

(** The decimal digits of a natural number. *)
Fixpoint decimal_digits (fuel : nat) (n : N) (acc : JSString) : JSString :=
  match fuel with
  | O => acc
  | S fuel' =>
      let acc := (48 + n mod 10)%N :: acc in
      if (n <? 10)%N then acc else decimal_digits fuel' (n / 10)%N acc
  end.

Definition decimal (n : N) : JSString :=
  decimal_digits (S (N.to_nat (N.log2 n))) n [].

(** [parseInt(number, radix)]: the number is printed first, and of
    its text only the sign and the integer part can be read. *)
Definition parseInt_number (n : JSNum) (radix : option Z) : JSNum :=
  match n with
  | NaN => parseInt_string (str "NaN") radix
  | Infinity negative =>
      parseInt_string (str (if negative then "-Infinity" else "Infinity")) radix
  | Fin q =>
      let a := Qabs q in
      if Qeq_bool a 0 then parseInt_string (str "0") radix
      else if Qle_bool (1 # 1000000) a && negb (Qle_bool (inject_Z (10 ^ 21)) a)
      then
        parseInt_string
          ((if Qle_bool 0 q then [] else [45%N])
           ++ decimal (Z.to_N (Qfloor a))
           ++ (if q_is_integer q then [] else [46%N])) radix
      else NaN
  end.

(** The value of [10^e] times [m], as the language rounds it at the
    two ends of the range of doubles. *)
Definition scaled (negative : bool) (m : N) (e : Z) : JSNum :=
  let q := (inject_Z (Z.of_N m) * (if (0 <=? e)%Z then inject_Z (10 ^ e)
                                   else / inject_Z (10 ^ (- e))))%Q in
  if Qle_bool (inject_Z (2 ^ 1024 - 2 ^ 970)) q then Infinity negative
  else if Qle_bool q (/ inject_Z (2 ^ 1075)) then num_of_Z 0
  else Fin (Qred (if negative then - q else q)).

(** A text made of digits below [base] only, at least one. *)
Definition all_digits (base : N) (s : JSString) : JSNum :=
  match read_digits base s 0 0 with
  | (S _, v, []) => num_of_Z (Z.of_N v)
  | _ => NaN
  end.

(** StrDecimalLiteral without its sign: [Infinity], or digits with an
    optional fraction and an optional exponent. *)
Definition unsigned_decimal (negative : bool) (s : JSString) : JSNum :=
  if streq s (str "Infinity") then Infinity negative
  else
    let '(n1, int, rest) := read_digits 10 s 0 0 in
    let '(n2, mantissa, rest) :=
      match rest with
      | 46%N :: rest' => read_digits 10 rest' 0 int
      | _ => (O, int, rest)
      end in
    match (n1 + n2)%nat, rest with
    | O, _ => NaN
    | _, [] => scaled negative mantissa (- Z.of_nat n2)
    | _, c :: rest' =>
        if ((c =? 101) || (c =? 69))%N then
          let '(minus, digits) := read_sign rest' in
          match read_digits 10 digits 0 0 with
          | (S _, e, []) =>
              scaled negative mantissa
                ((if minus then - Z.of_N e else Z.of_N e) - Z.of_nat n2)
          | _ => NaN
          end
        else NaN
    end.

(** [Number(string)]: StringToNumber. *)
Definition Number_of_string (s : JSString) : JSNum :=
  match trim s with
  | [] => num_of_Z 0
  | 48%N :: x :: rest =>
      if ((x =? 120) || (x =? 88))%N then all_digits 16 rest
      else if ((x =? 111) || (x =? 79))%N then all_digits 8 rest
      else if ((x =? 98) || (x =? 66))%N then all_digits 2 rest
      else unsigned_decimal false (48%N :: x :: rest)
  | s' => let '(negative, s'') := read_sign s' in unsigned_decimal negative s''
  end.

(** Printing an object that [JSON.parse] built throws when the object
    has a member named [toString] (which is no function and hides the
    inherited one); printing an array prints its elements. *)
Fixpoint print_throws (v : JSValue) : bool :=
  match v with
  | JObj fields =>
      match own_property fields (str "toString") with
      | Some _ => true
      | None => false
      end
  | JArr items => existsb print_throws items
  | _ => false
  end.

Definition cannot_convert : Exn :=
  mkExn TypeError (msg "Cannot convert object to primitive value").

(** [Number(v)] on an array or object: the value is printed and the
    text is read.  An array of two elements and more prints with a
    comma, which no numeric text has; an element [undefined] or
    [null] prints as the empty text, and a number prints as a text
    that reads as that number. *)
Fixpoint Number_of_object (v : JSValue) : JSNum :=
  match v with
  | JArr [] => num_of_Z 0
  | JArr [x] =>
      match x with
      | JUndefined | JNull => num_of_Z 0
      | JBool _ => NaN
      | JNum n => n
      | JStr s => Number_of_string s
      | JArr _ | JObj _ => Number_of_object x
      end
  | _ => NaN
  end.

(** [parseInt(v, radix)] on an array or object: only the text of the
    first element can be read. *)
Fixpoint parseInt_object (v : JSValue) (radix : option Z) : JSNum :=
  match v with
  | JArr (x :: _) =>
      match x with
      | JUndefined | JNull => NaN
      | JBool b => parseInt_string (str (if b then "true" else "false")) radix
      | JNum n => parseInt_number n radix
      | JStr s => parseInt_string s radix
      | JArr _ | JObj _ => parseInt_object x radix
      end
  | JArr [] => NaN
  | _ => parseInt_string (str "[object Object]") radix
  end.

#[export] Instance conversions : Builtins := {
  StringToNumber := Number_of_string;
  ObjectToNumber v :=
    if print_throws v then Throw cannot_convert
    else Normal (Number_of_object v);
  parseInt v radix :=
    match v with
    | JUndefined => Normal (parseInt_string (str "undefined") radix)
    | JNull => Normal (parseInt_string (str "null") radix)
    | JBool b =>
        Normal (parseInt_string (str (if b then "true" else "false")) radix)
    | JNum n => Normal (parseInt_number n radix)
    | JStr s => Normal (parseInt_string s radix)
    | JArr _ | JObj _ =>
        if print_throws v then Throw cannot_convert
        else Normal (parseInt_object v radix)
    end
}.

Definition open_socket : WebSocket := mkWebSocket 1.

(** A lock with the fields its constructor assigns, before
    [initialize()] wraps the handler of its node; a vendor command
    and a command of the Basic class. *)
Definition sample_lock : Lock.ZWaveLock :=
  Lock.constructed (sample_node 2 accepting).

Definition vendor_command : Command :=
  mkCommand 0x91 true (Some (str "ManufacturerProprietaryCC")) (JInt 0)
    (Some [1%N; 2%N; 3%N]) JUndefined.

Definition basic_command : Command :=
  mkCommand 0x20 false (Some (str "BasicCCReport")) JUndefined None JUndefined.

Definition empty_bus : Bus := mkBus [] [].

(** The process right after [server.js] has run: no client yet. *)
Definition initial_world : World :=
  mkWorld ∅ 0 None default_port None default_port true true true None
    (fun _ => sample_driver accepting) [].

Definition request (fields : list (string * JSValue)) : JSValue :=
  JObj (map (fun kv => (str (fst kv), snd kv)) fields).

Definition frame (v : JSValue) : Message := mkMessage [] (Some v).

(** After a first [START]: the client is connected and its driver has
    not signalled "driver ready" yet. *)
Definition starting_world : World :=
  set_outbox
    (snd (handleStart open_socket (request [("type", JS_ "START")]) JUndefined
            initial_world)) [].

(** After the driver of that client has signalled "driver ready". *)
Definition ready_world : World :=
  set_outbox (snd (driver_ready_event open_socket 0 starting_world)) [].


Definition ready_client_object : ZWaveProvisioningClient :=
  on_driver_ready
    (mkClient default_port (Some (sample_driver accepting)) false 1).

Definition ready_driver : Driver :=
  match driver ready_client_object with
  | Some d => d
  | None => sample_driver accepting
  end.


Definition send_to_node_0 : JSValue :=
  request [("type", JS_ "SEND_COMMAND"); ("requestId", JS_ "r3");
           ("payloadHex", JStr (repeat 48%N 64)); ("nodeId", JInt 0)].

(** A [SEND_COMMAND] whose payload has 65 hexadecimal characters. *)
Definition send_65_characters : JSValue :=
  request [("type", JS_ "SEND_COMMAND"); ("requestId", JS_ "r7");
           ("payloadHex", JStr (repeat 48%N 65)); ("nodeId", JInt 2)].

(** Add-entry requests for one DSK: with Long Range among the
    supported protocols, without it, and with both forms of security
    flags. *)
Definition sample_dsk : JSString :=
  str "4425406861292921573332592570654719610214".

Definition add_long_range : JSValue :=
  request [("type", JS_ "ADD_PROVISIONING_ENTRY"); ("requestId", JS_ "r4");
           ("dsk", JStr sample_dsk); ("status", JBool true);
           ("supportedProtocols", JArr [JInt 0; JInt 1])].

Definition add_standard : JSValue :=
  request [("type", JS_ "ADD_PROVISIONING_ENTRY"); ("requestId", JS_ "r5");
           ("entry",
            request [("dsk", JStr sample_dsk); ("status", JBool true);
                     ("supportedProtocols", JArr [JInt 0])])].

Definition add_both_flag_forms : JSValue :=
  request [("type", JS_ "ADD_PROVISIONING_ENTRY"); ("requestId", JS_ "r6");
           ("dsk", JStr sample_dsk);
           ("securityClasses",
            request [("s2AccessControl", JBool true);
                     ("s2Authenticated", JBool false)]);
           ("s2AccessControl", JBool false);
           ("s2Authenticated", JS_ "true")].

End Spec.

(* ================================================================== *)
(** * Security keys and S2 bootstrapping
      (zwave-client.js and models/ZWaveController.js) *)
(* ================================================================== *)

Module SecurityKeys.

(** An object whose property values are Buffers, as the list of its
    own properties in insertion order. *)
Definition Buffers := list (JSString * Buffer).

(** [buffers[key]] and [buffers[key] = buffer]; a property that is
    assigned again keeps its place. *)
Definition buffers_get (buffers : Buffers) (key : JSString) : option Buffer :=
  match find (fun kv => streq (fst kv) key) buffers with
  | Some kv => Some (snd kv)
  | None => None
  end.

Fixpoint buffers_set (buffers : Buffers) (key : JSString) (buffer : Buffer)
  : Buffers :=
  match buffers with
  | [] => [(key, buffer)]
  | (k, v) :: rest =>
      if streq k key then (k, buffer) :: rest
      else (k, v) :: buffers_set rest key buffer
  end.

(** The loop of [convertSecurityKeys(keys)] (the function of
    zwave-client.js and the method [_convertSecurityKeys] of
    [ZWaveController] have the same body) over [Object.entries(keys)]:
    [if (value && typeof value === "string" && value.length === 32)],
    then [if (buffer.length === 16) buffers[key] = buffer]. *)
Fixpoint convertSecurityKeys_from (entries : list (JSString * JSValue))
    (buffers : Buffers) : Buffers :=
  match entries with
  | [] => buffers
  | (key, value) :: rest =>
      convertSecurityKeys_from rest
        match value with
        | JStr s =>
            if truthy value && (length s =? 32)%nat then
              let buffer := Buffer_from_hex s in
              if (length buffer =? 16)%nat then buffers_set buffers key buffer
              else buffers
            else buffers
        | _ => buffers
        end
  end.

Definition convertSecurityKeys (keys : list (JSString * JSValue)) : Buffers :=
  convertSecurityKeys_from keys [].

(** [securityClassToKey[securityClass]] for a number: the property
    name is the number's decimal text, which is one of ["0"], ["1"],
    ["2"], ["7"] for these four numbers only. *)
Definition securityClassToKey (securityClass : JSNum) : option JSString :=
  if num_eq securityClass (num_of_Z 0) then Some (str "S2_Unauthenticated")
  else if num_eq securityClass (num_of_Z 1) then Some (str "S2_Authenticated")
  else if num_eq securityClass (num_of_Z 2) then Some (str "S2_AccessControl")
  else if num_eq securityClass (num_of_Z 7) then Some (str "S0_Legacy")
  else None.

(** The object returned to the driver. *)
Record InclusionGrant := mkInclusionGrant {
  clientSideAuth : bool;
  granted_securityClasses : list JSNum
}.

(** [for (const securityClass of requested.securityClasses)]:
    [if (keyName && securityKeys?.[keyName]) granted.securityClasses.push(securityClass)]. *)
Fixpoint grant_from (securityKeys : Buffers) (requested : list JSNum)
    (granted : list JSNum) : list JSNum :=
  match requested with
  | [] => granted
  | securityClass :: rest =>
      grant_from securityKeys rest
        match securityClassToKey securityClass with
        | Some keyName =>
            match buffers_get securityKeys keyName with
            | Some _ => granted ++ [securityClass]
            | None => granted
            end
        | None => granted
        end
  end.

(** The callback [driverOptions.grantSecurityClasses] of [connect()]
    and of [ZWaveController.start()]; [requested] is
    [requested.securityClasses] when it is an array (of numbers, the
    driver's [SecurityClass] values), [None] otherwise. *)
Definition grantSecurityClasses (securityKeys : Buffers)
    (requested : option (list JSNum)) : InclusionGrant :=
  mkInclusionGrant false
    match requested with
    | Some securityClasses => grant_from securityKeys securityClasses []
    | None => []
    end.

(** [_getSecurityKeyName(securityClass)] of [ZWaveController] for a
    number: [mapping[securityClass] || null], [None] standing for
    [null]. *)
Definition _getSecurityKeyName (securityClass : JSNum) : option JSString :=
  if num_eq securityClass (num_of_Z 1) then Some (str "S2_Unauthenticated")
  else if num_eq securityClass (num_of_Z 2) then Some (str "S2_Authenticated")
  else if num_eq securityClass (num_of_Z 3) then Some (str "S2_AccessControl")
  else if num_eq securityClass (num_of_Z 7) then Some (str "S0_Legacy")
  else None.

End SecurityKeys.

(* ================================================================== *)
(** * More of models/ZWaveLock.js *)
(* ================================================================== *)

Module LockInfo.

(** The argument of [dskToString]: a string, a Buffer, a Uint8Array
    that is not a Buffer, or any other value. *)
Inductive Dsk :=
| DskString (s : JSString)
| DskBuffer (b : Buffer)
| DskUint8Array (b : Buffer)
| DskOther (v : JSValue).

(** [hex.match(/.{1,5}/g).join("-")]: [match] yields [null] for the
    empty string. *)
Definition hex_groups (hex : JSString) : Completion JSValue :=
  match hex with
  | [] =>
      Throw (mkExn TypeError
               (msg "Cannot read properties of null (reading 'join')"))
  | _ => Normal (JStr (Client.group5 hex))
  end.

(** [dskToString(dsk)] of [ZWaveLock] and of [ZWaveController]. *)
Definition dskToString (dsk : Dsk) : Completion JSValue :=
  match dsk with
  | DskString s => Normal (JStr s)
  | DskBuffer b => hex_groups (Buffer_toString_hex b)
  | DskUint8Array b => hex_groups (Buffer_toString_hex b)
  | DskOther v => Normal v
  end.

End LockInfo.

(** ** [sendRandom] *)

Module LockRandom.





End LockRandom.

(** ** Inbound traffic *)

Module Traffic.

(** The commands of one node, handled one after the other by its
    [handleCommand]. *)
Definition handleCommands (h : HandlerImpl) (commands : list Command)
    (bus : Bus) : Bus :=
  fold_left (fun bus command => snd (Lock.handleCommand h command bus))
    commands bus.

End Traffic.

(** ** Request and reply *)

Module Conversation.
Import Router.

(** A run from the state [before] completed and sent one more
    message, which carries the request id. *)
Definition answers (requestId : JSValue) (before : World)
    (run : Completion unit * World) : Prop :=
  exists r,
    fst run = Normal tt /\
    outbox (snd run) = outbox before ++ [with_requestId r requestId].

(** A run threw before anything was sent. *)
Definition throws_unanswered (before : World)
    (run : Completion unit * World) : Prop :=
  exists e, fst run = Throw e /\ outbox (snd run) = outbox before.

(** The body of a [try]: it answers once, or throws unanswered. *)
Definition orderly (requestId : JSValue) (body : M unit) : Prop :=
  forall w, answers requestId w (body w) \/ throws_unanswered w (body w).

(** A step that sends nothing and returns or throws. *)
Definition silent {A} (m : M A) : Prop :=
  forall w, fst (m w) <> OutOfFuel /\ outbox (snd (m w)) = outbox w.

(** The conversions taken as given return or throw. *)
Definition conversions_return `{Builtins} : Prop :=
  (forall v, ObjectToNumber v <> OutOfFuel) /\
  (forall v radix, parseInt v radix <> OutOfFuel).

End Conversation.

(** ** More sample states *)

Module Samples.
Import Client Router Spec.
Local Open Scope string_scope.
Local Open Scope list_scope.

(** [ready_world] after the entry of [add_standard] was added, the
    client of that world and its driver. *)
Definition provisioned_world : World :=
  set_outbox
    (snd (handleAddProvisioningEntry open_socket add_standard (JS_ "r5")
            ready_world)) [].

Definition provisioned_client : ZWaveProvisioningClient :=
  match heap provisioned_world !! 0%nat with
  | Some c => c
  | None => ready_client_object
  end.

Definition provisioned_driver : Driver :=
  match driver provisioned_client with
  | Some d => d
  | None => ready_driver
  end.

(** Requests that name the sample DSK as it was typed, without
    dashes. *)
Definition get_sample_entry : JSValue :=
  request [("type", JS_ "GET_PROVISIONING_ENTRY"); ("requestId", JS_ "r8");
           ("dsk", JStr sample_dsk)].

Definition deactivate_sample_entry : JSValue :=
  request [("type", JS_ "UPDATE_PROVISIONING_ENTRY_STATUS");
           ("requestId", JS_ "r9"); ("dsk", JStr sample_dsk);
           ("active", JBool false)].

Definition delete_sample_entry : JSValue :=
  request [("type", JS_ "DELETE_PROVISIONING_ENTRY");
           ("requestId", JS_ "r10"); ("dsk", JStr sample_dsk)].

(** The lock that [new ZWaveLock(node)] yields for the sample node. *)
Definition initialized_lock : Lock.ZWaveLock :=
  Lock.new_ZWaveLock (sample_node 2 accepting).

(** A lock built on a ready node that does not expose the class API
    yet, so that no API is cached; the node exposes it afterwards,
    with a plain [sendData] that fails and a supervised variant that
    accepts every frame. *)
Definition node_without_api : ZWaveNode :=
  mkNode 2 (JS_ "Lock") 4 true None true [] None [] (Some library_handler)
    false.

Definition with_api (n : ZWaveNode) (api : MPApi) : ZWaveNode :=
  mkNode (node_id n) (node_name n) (node_status n) (node_ready n)
    (node_deviceConfig n) (node_addCC n) (node_supported n) (Some api)
    (node_frames n) (node_handleCommand n) (node_mpHandlerAttached n).

Definition late_api_lock : Lock.ZWaveLock :=
  let l := Lock.new_ZWaveLock node_without_api in
  Lock.set_node l
    (with_api (Lock.node l)
       (mkMPApi (fun _ _ _ => SendFailed timeout 0) (Some accepting))).

End Samples.

(** ** Text *)

Module Text.

(** [parts.join(sep)] on an array of strings. *)
Fixpoint join (sep : JSString) (parts : list JSString) : JSString :=
  match parts with
  | [] => []
  | [p] => p
  | p :: rest => p ++ sep ++ join sep rest
  end.

End Text.

(** Tactics that run the handlers: the monad's operations are
    unfolded, and the tests on literal message types are computed. *)
Import Client Router Spec.

Ltac run :=
  unfold try_catch, bind, lift, get_world, modify, ret, sendResponse,
    sendToClient, on_client, report.

Ltac compute_tests :=
  repeat match goal with
         | |- context [is_type (JS_ ?a) ?b] =>
             let v := eval vm_compute in (is_type (JS_ a) b) in
             change (is_type (JS_ a) b) with v; cbv iota
         | |- context [js_not (JS_ ?a)] =>
             let v := eval vm_compute in (js_not (JS_ a)) in
             change (js_not (JS_ a)) with v; cbv iota
         end.

(** Tests on code units are decided by cases on the comparisons. *)
Ltac decide_ranges :=
  repeat match goal with
         | |- context [(?a <=? ?b)%N] => destruct (N.leb_spec a b); try lia
         | |- context [(?a <? ?b)%N] => destruct (N.ltb_spec a b); try lia
         | |- context [(?a =? ?b)%N] => destruct (N.eqb_spec a b); try lia
         end.

(* ================================================================== *)
(** * Properties *)
(* ================================================================== *)

Import Client Router Spec.
Local Open Scope string_scope.
Local Open Scope list_scope.

(** ** Strings and numbers *)

Lemma streq_refl (s : JSString) : streq s s = true.
Proof.
  induction s as [|c s IH]; simpl; [reflexivity|].
  rewrite N.eqb_refl. exact IH.
Qed.

Lemma streq_eq (a b : JSString) : streq a b = true <-> a = b.
Proof.
  split.
  - revert b. induction a as [|x a IH]; intros [|y b]; simpl; try discriminate.
    + reflexivity.
    + intros Hab. apply andb_true_iff in Hab as [Hxy Hrest].
      apply N.eqb_eq in Hxy. subst y. f_equal. apply IH. exact Hrest.
  - intros ->. apply streq_refl.
Qed.

Lemma strict_eq_string_refl (s : JSString) : strict_eq (JStr s) (JStr s) = true.
Proof. simpl. apply streq_refl. Qed.

(** Induction over a string two code units at a time, as
    [Buffer_from_hex] reads it. *)
Lemma pairs_ind (P : JSString -> Prop) :
  P [] -> (forall a, P [a]) -> (forall a b s, P s -> P (a :: b :: s)) ->
  forall s, P s.
Proof.
  intros Hnil Hone Hstep.
  fix IH 1. intros [|a [|b s]].
  - exact Hnil.
  - apply Hone.
  - apply Hstep. apply IH.
Qed.

Lemma hex_value_is_hex (c : codeunit) :
  is_hex c = true -> exists v, hex_value c = Some v.
Proof.
  unfold is_hex, hex_value. intros Hc.
  destruct (is_digit c); [eauto|].
  destruct (is_lower_hex c); [eauto|].
  destruct (is_upper_hex c); [eauto|discriminate].
Qed.

(** A hexadecimal character is its own low byte. *)
Lemma low_byte_of_hex (c : codeunit) : is_hex c = true -> low_byte c = c.
Proof.
  unfold is_hex, is_digit, is_lower_hex, is_upper_hex, low_byte. intros Hc.
  apply N.mod_small.
  repeat (apply orb_true_iff in Hc as [Hc|Hc]);
    apply andb_true_iff in Hc as [_ Hc]; apply N.leb_le in Hc; lia.
Qed.

(** A string of hexadecimal characters decodes to half as many bytes,
    an odd last character being dropped. *)
Lemma Buffer_from_hex_length (s : JSString) :
  forallb is_hex s = true ->
  length (Buffer_from_hex s) = Nat.div2 (length s).
Proof.
  induction s as [|a|a b s IH] using pairs_ind; intros Hs.
  - reflexivity.
  - reflexivity.
  - cbn [forallb] in Hs.
    apply andb_true_iff in Hs as [Ha Hs].
    apply andb_true_iff in Hs as [Hb Hs].
    destruct (hex_value_is_hex a Ha) as [x Hx].
    destruct (hex_value_is_hex b Hb) as [y Hy].
    cbn [Buffer_from_hex].
    rewrite (low_byte_of_hex a Ha), (low_byte_of_hex b Hb), Hx, Hy.
    cbn [length Nat.div2].
    f_equal. apply IH. exact Hs.
Qed.

(** ** Payload validation (C1) *)

(** Validation succeeds exactly on the texts whose characters, once
    white space is removed, are all hexadecimal and number 64 or 65;
    the buffer is the decoding of the first 64. *)
Lemma hexTo32ByteBuffer_succeeds_iff (s : JSString) (buf : Buffer) :
  hexTo32ByteBuffer (JStr s) = Normal buf <->
  forallb is_hex (strip_whitespace s) = true /\
  (length (strip_whitespace s) = 64 \/ length (strip_whitespace s) = 65)%nat /\
  buf = Buffer_from_hex (strip_whitespace s).
Proof.
  unfold hexTo32ByteBuffer, all_hex.
  set (n := strip_whitespace s).
  destruct n as [|c n'] eqn:En.
  - simpl. split; [discriminate|]. intros (_ & [Hl|Hl] & _); discriminate.
  - rewrite <- En. clear En c n'.
    destruct (forallb is_hex n) eqn:Hhex; cbn [negb].
    + pose proof (Buffer_from_hex_length n Hhex) as Hlen.
      destruct (length (Buffer_from_hex n) =? 32)%nat eqn:Hbuf; cbn [negb].
      * apply Nat.eqb_eq in Hbuf. rewrite Hbuf in Hlen.
        split.
        -- intros [= <-]. split; [reflexivity|]. split; [|reflexivity].
           assert (Hd : forall k, Nat.div2 k = 32%nat -> k = 64%nat \/ k = 65%nat).
           { intros k Hk. pose proof (Nat.div2_odd k) as Ho.
             rewrite Hk in Ho. destruct (Nat.odd k); cbn in Ho; lia. }
           apply Hd. symmetry. exact Hlen.
        -- intros (_ & _ & ->). reflexivity.
      * apply Nat.eqb_neq in Hbuf. split; [discriminate|].
        intros (_ & Hl & _). exfalso. apply Hbuf. rewrite Hlen.
        destruct Hl as [-> | ->]; reflexivity.
    + split; [discriminate|]. intros (Habs & _). discriminate.
Qed.

Lemma all_hex_false (s : JSString) (c : codeunit) :
  In c s -> is_hex c = false -> all_hex s = false.
Proof.
  intros Hin Hc. unfold all_hex. destruct s as [|d t]; [reflexivity|].
  apply not_true_is_false. intros Hall.
  rewrite forallb_forall in Hall. specialize (Hall c Hin). congruence.
Qed.

(** A character that is neither white space nor hexadecimal, at any
    position, makes validation throw. *)
Lemma hexTo32ByteBuffer_rejects_non_hex (s : JSString) (c : codeunit) :
  In c s -> is_whitespace c = false -> is_hex c = false ->
  hexTo32ByteBuffer (JStr s) =
  Throw (new_Error (msg "Payload must contain only hex characters 0-9, a-f")).
Proof.
  intros Hin Hws Hhex. unfold hexTo32ByteBuffer.
  assert (Hin' : In c (strip_whitespace s)).
  { unfold strip_whitespace. apply filter_In. split; [exact Hin|].
    rewrite Hws. reflexivity. }
  rewrite (all_hex_false _ c Hin' Hhex). reflexivity.
Qed.

(** C1 (code at the failing input): a payload of 65 hexadecimal
    characters passes validation; the last character is dropped and
    the first 64 are decoded to 32 bytes, and a [SEND_COMMAND] that
    carries it is answered with [COMMAND_RESULT]. *)
Theorem hexTo32ByteBuffer_accepts_65_hex_characters :
  hexTo32ByteBuffer (JStr (repeat 48%N 65)) = Normal (repeat 0%N 32) /\
  map r_type
    (outbox (snd (handleSendCommand open_socket send_65_characters (JS_ "r7")
                    ready_world))) = [str "COMMAND_RESULT"].
Proof. vm_compute. split; reflexivity. Qed.

(** ** The frame loop (C6, C7) *)

(** A payload that passes validation is a non-empty string. *)
Lemma validated_payload_truthy (payloadHex : JSValue) (b : Buffer) :
  hexTo32ByteBuffer payloadHex = Normal b -> js_not payloadHex = false.
Proof.
  destruct payloadHex; cbn [hexTo32ByteBuffer]; try discriminate.
  destruct s as [|c s]; [|reflexivity]. cbn. discriminate.
Qed.

Lemma node_frames_set_frames (n : ZWaveNode) (l : list (JSNum * Buffer)) :
  node_frames (set_frames n l) = l.
Proof. reflexivity. Qed.

Lemma set_frames_set_frames (n : ZWaveNode) (l1 l2 : list (JSNum * Buffer)) :
  set_frames (set_frames n l1) l2 = set_frames n l2.
Proof. reflexivity. Qed.

Lemma set_frames_same (n : ZWaveNode) : set_frames n (node_frames n) = n.
Proof. destruct n; reflexivity. Qed.

(** [i < n] on an index and an integer count. *)
Lemma num_lt_nat_Z (i : nat) (n : Z) :
  num_lt (num_of_nat i) (num_of_Z n) = true <-> (Z.of_nat i < n)%Z.
Proof.
  unfold num_lt, num_of_nat, num_of_Z.
  rewrite negb_true_iff, <- not_true_iff_false, Qle_bool_iff, <- Zle_Qle.
  lia.
Qed.

(** The test [i < count] can only pass for earlier indices too. *)
Lemma num_lt_nat_mono (i j : nat) (count : JSNum) :
  (i <= j)%nat ->
  num_lt (num_of_nat j) count = true -> num_lt (num_of_nat i) count = true.
Proof.
  intros Hij. destruct count as [|[]|q]; simpl; try congruence.
  rewrite !negb_true_iff, <- !not_true_iff_false, !Qle_bool_iff.
  intros Hj Hi. apply Hj. eapply Qle_trans; [exact Hi|].
  rewrite <- Zle_Qle. lia.
Qed.

(** The integer that an integer count is clamped to. *)
Lemma clamp_count_Z (z : Z) :
  clamp_count (num_of_Z z) = num_of_Z (Z.max 1 (Z.min 100 z)).
Proof.
  unfold clamp_count, num_gt.
  destruct (num_le (num_of_Z z) (num_of_Z 0)) eqn:Hle.
  - assert (Hz : (z <= 0)%Z).
    { unfold num_le, num_of_Z in Hle. apply Qle_bool_iff in Hle.
      rewrite <- Zle_Qle in Hle. exact Hle. }
    replace (Z.max 1 (Z.min 100 z)) with 1%Z by lia. reflexivity.
  - assert (Hz : (0 < z)%Z).
    { unfold num_le, num_of_Z in Hle.
      apply not_true_iff_false in Hle. rewrite Qle_bool_iff in Hle.
      rewrite <- Zle_Qle in Hle. lia. }
    destruct (num_lt (num_of_Z 100) (num_of_Z z)) eqn:Hgt.
    + assert (Hz' : (100 < z)%Z).
      { unfold num_lt, num_of_Z in Hgt. rewrite negb_true_iff in Hgt.
        apply not_true_iff_false in Hgt. rewrite Qle_bool_iff in Hgt.
        rewrite <- Zle_Qle in Hgt. lia. }
      replace (Z.max 1 (Z.min 100 z)) with 100%Z by lia. reflexivity.
    + assert (Hz' : (z <= 100)%Z).
      { unfold num_lt, num_of_Z in Hgt. rewrite negb_false_iff in Hgt.
        apply Qle_bool_iff in Hgt. rewrite <- Zle_Qle in Hgt. exact Hgt. }
      replace (Z.max 1 (Z.min 100 z)) with z by lia. reflexivity.
Qed.

(** Whatever the count, a clamped count is not above 100. *)
Lemma clamp_count_not_above_100 (count : JSNum) :
  num_gt (clamp_count count) (num_of_Z 100) = false.
Proof.
  unfold clamp_count.
  destruct (num_le count (num_of_Z 0)) eqn:Hle; [reflexivity|].
  destruct (num_gt count (num_of_Z 100)) eqn:Hgt; [reflexivity|exact Hgt].
Qed.

(** An index below a clamped count is below 100. *)
Lemma below_clamped_count (k : nat) (count : JSNum) :
  num_lt (num_of_nat k) (clamp_count count) = true -> (k < 100)%nat.
Proof.
  intros Hk. pose proof (clamp_count_not_above_100 count) as Hc.
  destruct (clamp_count count) as [|[]|q]; simpl in *; try discriminate.
  unfold num_gt, num_lt, num_of_Z in Hc. rewrite negb_false_iff in Hc.
  apply Qle_bool_iff in Hc.
  unfold num_of_nat, num_of_Z in Hk. rewrite negb_true_iff in Hk.
  apply not_true_iff_false in Hk. rewrite Qle_bool_iff in Hk.
  destruct (Nat.lt_ge_cases k 100) as [Hlt|Hge]; [exact Hlt|].
  exfalso. apply Hk. eapply Qle_trans; [exact Hc|].
  rewrite <- Zle_Qle. lia.
Qed.

(** When the device accepts every frame, the loop over an integer
    count [n] sends the frames [i+1 .. n] and returns as many
    results. *)
Lemma send_frames_all_sent (ccMP : SendData) (m : JSNum) (p : Buffer)
    (n : Z) (mk : nat -> JSValue -> Z -> FrameResult) :
  (forall k, exists r d, ccMP m p k = Sent r d) ->
  forall fuel i results node,
    (Z.to_nat n - i < fuel)%nat ->
    exists results',
      send_frames fuel ccMP m p (num_of_Z n) mk i results node =
      (Normal (results ++ results'),
       set_frames node (node_frames node ++ repeat (m, p) (Z.to_nat n - i)))
      /\ length results' = (Z.to_nat n - i)%nat.
Proof.
  intros Hdev. induction fuel as [|fuel IH]; intros i results node Hfuel.
  - lia.
  - cbn [send_frames].
    destruct (num_lt (num_of_nat i) (num_of_Z n)) eqn:Hlt.
    + apply num_lt_nat_Z in Hlt.
      destruct (Hdev (length (node_frames node))) as (r & d & ->).
      destruct (IH (S i) (results ++ [mk (S i) r d])
                  (set_frames node (node_frames node ++ [(m, p)])))
        as (rs & Hrun & Hlen); [lia|].
      exists (mk (S i) r d :: rs). split.
      * rewrite Hrun, node_frames_set_frames, set_frames_set_frames.
        rewrite <- !app_assoc. cbn [app].
        replace (Z.to_nat n - i)%nat with (S (Z.to_nat n - S i)) by lia.
        reflexivity.
      * cbn [length]. lia.
    + apply not_true_iff_false in Hlt. rewrite num_lt_nat_Z in Hlt.
      exists []. replace (Z.to_nat n - i)%nat with 0%nat by lia.
      cbn [repeat length]. rewrite !app_nil_r, set_frames_same. auto.
Qed.

(** When the first [k] frames are accepted and the next one fails, the
    loop stops there: it throws that frame's error after [k + 1]
    sends. *)
Lemma send_frames_first_failure (ccMP : SendData) (m : JSNum) (p : Buffer)
    (count : JSNum) (mk : nat -> JSValue -> Z -> FrameResult)
    (e : Exn) (d : Z) :
  forall k fuel i results node,
    (forall j, (j < k)%nat ->
               exists r t,
                 ccMP m p (length (node_frames node) + j)%nat = Sent r t) ->
    ccMP m p (length (node_frames node) + k)%nat = SendFailed e d ->
    num_lt (num_of_nat (i + k)%nat) count = true ->
    (k < fuel)%nat ->
    send_frames fuel ccMP m p count mk i results node =
    (Throw e,
     set_frames node (node_frames node ++ repeat (m, p) (S k))).
Proof.
  induction k as [|k IH]; intros fuel i results node Hok Hfail Hlt Hfuel.
  - destruct fuel as [|fuel]; [lia|]. cbn [send_frames].
    rewrite Nat.add_0_r in Hlt, Hfail. rewrite Hlt, Hfail. reflexivity.
  - destruct fuel as [|fuel]; [lia|]. cbn [send_frames].
    rewrite (num_lt_nat_mono i (i + S k)%nat count) by (lia || exact Hlt).
    destruct (Hok 0%nat) as (r & t & H0); [lia|].
    rewrite Nat.add_0_r in H0. rewrite H0.
    rewrite (IH fuel (S i) _ (set_frames node (node_frames node ++ [(m, p)]))).
    + rewrite node_frames_set_frames, set_frames_set_frames.
      rewrite <- app_assoc. reflexivity.
    + intros j Hj. rewrite node_frames_set_frames, length_app. cbn [length].
      destruct (Hok (S j)) as (r' & t' & Hj'); [lia|].
      exists r', t'. rewrite <- Hj'. f_equal. lia.
    + rewrite node_frames_set_frames, length_app. cbn [length].
      rewrite <- Hfail. f_equal. lia.
    + rewrite <- Hlt. do 2 f_equal. lia.
    + lia.
Qed.

Lemma force_keeps_frames (node : ZWaveNode) :
  node_frames (forceManufacturerProprietarySupport node) = node_frames node.
Proof.
  unfold forceManufacturerProprietarySupport.
  destruct (node_addCC node); [|reflexivity]. cbn [negb].
  destruct (existsb _ _); reflexivity.
Qed.

Lemma force_keeps_api (node : ZWaveNode) :
  node_commandClasses_MP (forceManufacturerProprietarySupport node) =
  node_commandClasses_MP node.
Proof.
  unfold forceManufacturerProprietarySupport.
  destruct (node_addCC node); [|reflexivity]. cbn [negb].
  destruct (existsb _ _); reflexivity.
Qed.

(** Up to the loop, a call that passes the checks reduces to the loop
    on the clamped count. *)
Lemma sendManufacturerProprietaryCustom_loop (context : Context)
    (drv : Driver) (nodeId : JSNum) (vendorPayload : Buffer)
    (node : ZWaveNode) (ccMP : MPApi) (m count : JSNum) :
  reaches_loop context drv nodeId vendorPayload node ccMP ->
  sendManufacturerProprietaryCustom context (Some nodeId) (Some vendorPayload)
    (Some m) (Some count) =
  let '(outcome, node') :=
    send_frames loop_bound (sendData ccMP) m vendorPayload (clamp_count count)
      (fun n result _ => mkFrameResult n result None) 0 []
      (forceManufacturerProprietarySupport node) in
  (cbind outcome
     (fun results =>
        Normal (mkSendResult nodeId (clamp_count count)
                  (Buffer_toString_hex vendorPayload) m results)),
   Some (nodes_put drv nodeId node')).
Proof.
  intros (Hdrv & Hready & Hlen & Hnode & Hnr & Hapi).
  unfold sendManufacturerProprietaryCustom.
  cbv beta iota zeta delta [default from_option id].
  rewrite Hdrv.
  assert (Hw : (if ctx_driverReady context then None
                else ctx_waitForDriverReady context) = None).
  { destruct Hready as [-> | ->]; [reflexivity|].
    destruct (ctx_driverReady context); reflexivity. }
  rewrite Hw, Hlen, Hnode, Hnr. cbn [Nat.eqb negb].
  rewrite force_keeps_api, Hapi. reflexivity.
Qed.


(** The sender stops at the first frame that fails. *)
Lemma sender_aborts_at_first_failure
    (context : Context) (drv : Driver) (nodeId : JSNum)
    (vendorPayload : Buffer) (node : ZWaveNode) (ccMP : MPApi)
    (m count : JSNum) (k : nat) (e : Exn) :
  reaches_loop context drv nodeId vendorPayload node ccMP ->
  fails_after (sendData ccMP) m vendorPayload (length (node_frames node)) k e ->
  num_lt (num_of_nat k) (clamp_count count) = true ->
  sendManufacturerProprietaryCustom context (Some nodeId) (Some vendorPayload)
    (Some m) (Some count) =
  (Throw e,
   Some (nodes_put drv nodeId
           (set_frames (forceManufacturerProprietarySupport node)
              (node_frames node ++ repeat (m, vendorPayload) (S k))))).
Proof.
  intros Hpre (Hok & d & Hfail) Hk.
  rewrite (sendManufacturerProprietaryCustom_loop _ _ _ _ _ _ _ _ Hpre).
  rewrite (send_frames_first_failure (sendData ccMP) m vendorPayload
             (clamp_count count) _ e d k).
  - rewrite force_keeps_frames. reflexivity.
  - rewrite force_keeps_frames. exact Hok.
  - rewrite force_keeps_frames. exact Hfail.
  - exact Hk.
  - pose proof (below_clamped_count k count Hk). unfold loop_bound. lia.
Qed.

Lemma sample_reaches_loop (api : SendData) :
  reaches_loop (sample_context api) (sample_driver api) (num_of_Z 2) payload32
    (sample_node 2 api) (mkMPApi api None).
Proof.
  unfold reaches_loop. repeat split; try reflexivity.
  left. reflexivity.
Qed.

(** *** The same loop in [ZWaveLock.sendCustom] *)

Lemma sendCustom_loop (l l1 : Lock.ZWaveLock) (b : Buffer) (ccMP : SendData)
    (m count : JSNum) :
  node_ready (Lock.node l) = true ->
  length b = 32%nat ->
  Lock.lock_getManufacturerProprietaryAPI
    (Lock.set_node l (forceManufacturerProprietarySupport (Lock.node l))) =
  (Some ccMP, l1) ->
  Lock.sendCustom l (Lock.PBuffer b) (Some m) (Some count) =
  let '(outcome, n) :=
    send_frames loop_bound ccMP m b (clamp_count count)
      (fun n result duration => mkFrameResult n result (Some duration))
      0 [] (Lock.node l1) in
  (cbind outcome
     (fun results =>
        Normal (mkSendResult (num_of_Z (Lock.lock_nodeId l1)) (clamp_count count)
                  (Buffer_toString_hex b) m results)),
   Lock.set_node l1 n).
Proof.
  intros Hready Hlen Hapi. unfold Lock.sendCustom.
  cbv beta iota zeta delta [default from_option id].
  rewrite Hready, Hlen. cbn [negb Nat.eqb]. rewrite Hapi. reflexivity.
Qed.

Lemma lock_api_keeps_frames (l l1 : Lock.ZWaveLock) (api : option SendData) :
  Lock.lock_getManufacturerProprietaryAPI l = (api, l1) ->
  node_frames (Lock.node l1) = node_frames (Lock.node l).
Proof.
  unfold Lock.lock_getManufacturerProprietaryAPI.
  destruct (node_ready (Lock.node l)); cbn [negb].
  - set (l' := Lock.set_node l _).
    assert (Hl' : node_frames (Lock.node l') = node_frames (Lock.node l))
      by apply force_keeps_frames.
    destruct (Lock._mpAPI l') eqn:Hapi.
    + rewrite Hapi. intros [= _ <-]. exact Hl'.
    + unfold Lock._initializeMPAPI. rewrite Hapi.
      cbn [Lock._mpAPI Lock.set_mpAPI Lock.node].
      destruct (getManufacturerProprietaryAPI (Lock.node l')).
      * intros [= _ <-]. exact Hl'.
      * destruct (node_commandClasses_MP (Lock.node l'));
          intros [= _ <-]; exact Hl'.
  - intros [= _ <-]. reflexivity.
Qed.

(** [sendCustom] clamps an integer count like the sender does. *)
Lemma sendCustom_clamps_integer_count (l l1 : Lock.ZWaveLock) (b : Buffer)
    (ccMP : SendData) (m : JSNum) (z : Z) :
  node_ready (Lock.node l) = true ->
  length b = 32%nat ->
  Lock.lock_getManufacturerProprietaryAPI
    (Lock.set_node l (forceManufacturerProprietarySupport (Lock.node l))) =
  (Some ccMP, l1) ->
  accepts_all ccMP m b ->
  exists result l',
    Lock.sendCustom l (Lock.PBuffer b) (Some m) (Some (num_of_Z z)) =
    (Normal result, l') /\
    sr_count result = num_of_Z (Z.max 1 (Z.min 100 z)) /\
    length (sr_results result) = Z.to_nat (Z.max 1 (Z.min 100 z)) /\
    node_frames (Lock.node l') =
    node_frames (Lock.node l)
    ++ repeat (m, b) (Z.to_nat (Z.max 1 (Z.min 100 z))).
Proof.
  intros Hready Hlen Hapi Hdev.
  rewrite (sendCustom_loop l l1 b ccMP m _ Hready Hlen Hapi), clamp_count_Z.
  destruct (send_frames_all_sent ccMP m b (Z.max 1 (Z.min 100 z))
              (fun k result duration => mkFrameResult k result (Some duration))
              Hdev loop_bound 0%nat [] (Lock.node l1))
    as (rs & Hrun & Hrs); [unfold loop_bound; lia|].
  rewrite Hrun. cbn [cbind app]. eexists _, _. split; [reflexivity|].
  cbn [sr_count sr_results Lock.node Lock.set_node].
  rewrite Nat.sub_0_r in *. rewrite node_frames_set_frames.
  rewrite (lock_api_keeps_frames _ _ _ Hapi). cbn [Lock.node Lock.set_node].
  rewrite force_keeps_frames. auto.
Qed.

(** [sendCustom] stops at the first frame that fails. *)
Lemma sendCustom_aborts_at_first_failure (l l1 : Lock.ZWaveLock) (b : Buffer)
    (ccMP : SendData) (m count : JSNum) (k : nat) (e : Exn) :
  node_ready (Lock.node l) = true ->
  length b = 32%nat ->
  Lock.lock_getManufacturerProprietaryAPI
    (Lock.set_node l (forceManufacturerProprietarySupport (Lock.node l))) =
  (Some ccMP, l1) ->
  fails_after ccMP m b (length (node_frames (Lock.node l))) k e ->
  num_lt (num_of_nat k) (clamp_count count) = true ->
  Lock.sendCustom l (Lock.PBuffer b) (Some m) (Some count) =
  (Throw e,
   Lock.set_node l1
     (set_frames (Lock.node l1)
        (node_frames (Lock.node l) ++ repeat (m, b) (S k)))).
Proof.
  intros Hready Hlen Hapi (Hok & d & Hfail) Hk.
  rewrite (sendCustom_loop l l1 b ccMP m _ Hready Hlen Hapi).
  assert (Hfr : node_frames (Lock.node l1) = node_frames (Lock.node l)).
  { rewrite (lock_api_keeps_frames _ _ _ Hapi). apply force_keeps_frames. }
  rewrite (send_frames_first_failure ccMP m b (clamp_count count) _ e d k).
  - rewrite Hfr. reflexivity.
  - rewrite Hfr. exact Hok.
  - rewrite Hfr. exact Hfail.
  - exact Hk.
  - pose proof (below_clamped_count k count Hk). unfold loop_bound. lia.
Qed.

(** *** The count, whatever number it is (C6) *)

(** The test [i < count] passes for the indices below [passes count]. *)
Lemma num_lt_nat_passes (i : nat) (count : JSNum) :
  count <> Infinity false ->
  num_lt (num_of_nat i) count = true <-> (i < passes count)%nat.
Proof.
  intros Hinf. destruct count as [|[]|q]; cbn [passes].
  - simpl. split; [discriminate|lia].
  - simpl. split; [discriminate|lia].
  - contradiction.
  - unfold num_lt, num_of_nat, num_of_Z.
    rewrite negb_true_iff, <- not_true_iff_false, Qle_bool_iff. split.
    + intros Hn.
      destruct (Z_lt_le_dec (Z.of_nat i) (Qceiling q)) as [Hlt|Hge]; [lia|].
      exfalso. apply Hn. eapply Qle_trans; [apply Qle_ceiling|].
      rewrite <- Zle_Qle. exact Hge.
    + intros Hlt Hle. apply Qceiling_resp_le in Hle.
      rewrite Qceiling_Z in Hle. lia.
Qed.

(** The two tests of the clamp, case by case. *)
Lemma clamp_count_cases (count : JSNum) :
  (num_le count (num_of_Z 0) = true -> clamp_count count = num_of_Z 1) /\
  (num_gt count (num_of_Z 100) = true -> clamp_count count = num_of_Z 100) /\
  (num_le count (num_of_Z 0) = false ->
   num_gt count (num_of_Z 100) = false -> clamp_count count = count).
Proof.
  unfold clamp_count. repeat split.
  - intros ->. reflexivity.
  - intros Hgt.
    assert (Hle : num_le count (num_of_Z 0) = false).
    { destruct count as [|[]|q]; try reflexivity; try discriminate.
      unfold num_gt, num_lt, num_le, num_of_Z in *.
      rewrite negb_true_iff in Hgt. apply not_true_iff_false in Hgt.
      apply not_true_iff_false. rewrite Qle_bool_iff in *.
      intros Hq. apply Hgt. eapply Qle_trans; [exact Hq|].
      rewrite <- Zle_Qle. lia. }
    rewrite Hle, Hgt. reflexivity.
  - intros -> ->. reflexivity.
Qed.

(** A count other than [NaN] is clamped into (0,100]. *)
Lemma clamp_count_range (count : JSNum) :
  count <> NaN ->
  num_lt (num_of_Z 0) (clamp_count count) = true /\
  num_le (clamp_count count) (num_of_Z 100) = true.
Proof.
  intros Hnan. unfold clamp_count.
  destruct count as [|[]|q]; [contradiction|split; reflexivity
                                |split; reflexivity|].
  unfold num_gt, num_le, num_lt, num_of_Z.
  destruct (Qle_bool q (inject_Z 0)) eqn:H0.
  - split; reflexivity.
  - destruct (Qle_bool q (inject_Z 100)) eqn:H100; cbn [negb].
    + rewrite H0, H100. split; reflexivity.
    + split; reflexivity.
Qed.

(** A count that is at most 0 or at least 1 is clamped into [1,100]. *)
Lemma clamp_count_at_least_1 (count : JSNum) :
  num_le count (num_of_Z 0) = true \/ num_le (num_of_Z 1) count = true ->
  num_le (num_of_Z 1) (clamp_count count) = true.
Proof.
  destruct (clamp_count_cases count) as (Hlow & Hhigh & Hmid).
  intros [Hle|Hge].
  - rewrite (Hlow Hle). reflexivity.
  - destruct (num_le count (num_of_Z 0)) eqn:Hle.
    + rewrite (Hlow eq_refl). reflexivity.
    + destruct (num_gt count (num_of_Z 100)) eqn:Hgt.
      * rewrite (Hhigh eq_refl). reflexivity.
      * rewrite (Hmid eq_refl eq_refl). exact Hge.
Qed.

(** A fraction between 0 and 1 is not changed, and the loop makes one
    pass for it. *)
Lemma clamp_count_fraction (count : JSNum) :
  num_lt (num_of_Z 0) count = true -> num_lt count (num_of_Z 1) = true ->
  clamp_count count = count /\ passes count = 1%nat /\
  num_le (num_of_Z 1) (clamp_count count) = false.
Proof.
  intros H0 H1.
  destruct count as [|[]|q]; try discriminate.
  unfold num_lt, num_of_Z in H0, H1.
  rewrite negb_true_iff in H0, H1.
  assert (Hc : clamp_count (Fin q) = Fin q).
  { unfold clamp_count, num_gt, num_le, num_lt, num_of_Z. rewrite H0.
    assert (H100 : Qle_bool q (inject_Z 100) = true).
    { apply Qle_bool_iff. apply not_true_iff_false in H1.
      rewrite Qle_bool_iff in H1. apply Qnot_le_lt in H1.
      apply Qlt_le_weak. eapply Qlt_trans; [exact H1|].
      rewrite <- Zlt_Qlt. lia. }
    rewrite H100. reflexivity. }
  rewrite Hc. split; [reflexivity|]. split.
  - cbn [passes].
    apply not_true_iff_false in H0, H1. rewrite Qle_bool_iff in H0, H1.
    apply Qnot_le_lt in H0, H1.
    assert (Hup : (0 < Qceiling q)%Z).
    { destruct (Z_lt_le_dec 0 (Qceiling q)) as [Hlt|Hge]; [exact Hlt|].
      exfalso. apply (Qlt_not_le _ _ H0).
      eapply Qle_trans; [apply Qle_ceiling|]. rewrite <- Zle_Qle. exact Hge. }
    assert (Hdown : (Qceiling q <= 1)%Z).
    { apply Qlt_le_weak in H1. apply Qceiling_resp_le in H1.
      rewrite Qceiling_Z in H1. exact H1. }
    lia.
  - unfold num_le, num_of_Z. exact H1.
Qed.

Lemma clamp_count_finite (count : JSNum) : clamp_count count <> Infinity false.
Proof.
  intros Heq. pose proof (clamp_count_not_above_100 count) as H.
  rewrite Heq in H. discriminate.
Qed.

(** The loop makes between 1 and 100 passes, and none for [NaN]. *)
Lemma passes_of_clamped_count (count : JSNum) :
  (passes (clamp_count count) <= 100)%nat /\
  (count <> NaN -> (1 <= passes (clamp_count count))%nat) /\
  (count = NaN -> passes (clamp_count count) = 0%nat).
Proof.
  split; [|split].
  - destruct (le_lt_dec (passes (clamp_count count)) 100) as [Hle|Hlt];
      [exact Hle|].
    apply (num_lt_nat_passes 100 _ (clamp_count_finite count)) in Hlt.
    apply below_clamped_count in Hlt. lia.
  - intros Hnan. destruct (clamp_count_range count Hnan) as [Hpos _].
    change (num_of_Z 0) with (num_of_nat 0) in Hpos.
    apply (num_lt_nat_passes 0 _ (clamp_count_finite count)) in Hpos. lia.
  - intros ->. reflexivity.
Qed.

(** When the device accepts every frame, the loop makes all its passes:
    it sends [passes count] frames, counted from [i], and returns as
    many results. *)
Lemma send_frames_all_passes (ccMP : SendData) (m : JSNum) (p : Buffer)
    (count : JSNum) (mk : nat -> JSValue -> Z -> FrameResult) :
  count <> Infinity false ->
  (forall k, exists r d, ccMP m p k = Sent r d) ->
  forall fuel i results node,
    (passes count - i < fuel)%nat ->
    exists results',
      send_frames fuel ccMP m p count mk i results node =
      (Normal (results ++ results'),
       set_frames node (node_frames node ++ repeat (m, p) (passes count - i)))
      /\ length results' = (passes count - i)%nat.
Proof.
  intros Hfin Hdev. induction fuel as [|fuel IH]; intros i results node Hfuel.
  - lia.
  - cbn [send_frames].
    destruct (num_lt (num_of_nat i) count) eqn:Hlt.
    + apply (num_lt_nat_passes i count Hfin) in Hlt.
      destruct (Hdev (length (node_frames node))) as (r & d & ->).
      destruct (IH (S i) (results ++ [mk (S i) r d])
                  (set_frames node (node_frames node ++ [(m, p)])))
        as (rs & Hrun & Hlen); [lia|].
      exists (mk (S i) r d :: rs). split.
      * rewrite Hrun, node_frames_set_frames, set_frames_set_frames.
        rewrite <- !app_assoc. cbn [app].
        replace (passes count - i)%nat with (S (passes count - S i)) by lia.
        reflexivity.
      * cbn [length]. lia.
    + apply not_true_iff_false in Hlt.
      rewrite (num_lt_nat_passes i count Hfin) in Hlt.
      exists []. replace (passes count - i)%nat with 0%nat by lia.
      cbn [repeat length]. rewrite !app_nil_r, set_frames_same. auto.
Qed.

(** A call of the sender that passes the checks, on a device that
    accepts the frames, completes for every count. *)
Lemma sender_completes (context : Context) (drv : Driver) (nodeId : JSNum)
    (vendorPayload : Buffer) (node : ZWaveNode) (ccMP : MPApi)
    (m count : JSNum) :
  reaches_loop context drv nodeId vendorPayload node ccMP ->
  accepts_all (sendData ccMP) m vendorPayload ->
  exists result drv',
    sendManufacturerProprietaryCustom context (Some nodeId)
      (Some vendorPayload) (Some m) (Some count) =
    (Normal result, Some drv') /\
    sr_count result = clamp_count count /\
    length (sr_results result) = passes (clamp_count count) /\
    drv' = nodes_put drv nodeId
             (set_frames (forceManufacturerProprietarySupport node)
                (node_frames node
                 ++ repeat (m, vendorPayload) (passes (clamp_count count)))).
Proof.
  intros Hpre Hdev.
  rewrite (sendManufacturerProprietaryCustom_loop _ _ _ _ _ _ _ _ Hpre).
  destruct (passes_of_clamped_count count) as (Hle & _).
  destruct (send_frames_all_passes (sendData ccMP) m vendorPayload
              (clamp_count count)
              (fun k result _ => mkFrameResult k result None)
              (clamp_count_finite count) Hdev
              loop_bound 0%nat [] (forceManufacturerProprietarySupport node))
    as (rs & Hrun & Hlen); [unfold loop_bound; lia|].
  rewrite Hrun. cbn [cbind app].
  eexists _, _. split; [reflexivity|]. cbn [sr_count sr_results].
  rewrite Nat.sub_0_r in Hlen. rewrite force_keeps_frames, Nat.sub_0_r.
  auto.
Qed.

(** A hex string that [hexTo32ByteBuffer] decodes is sent like the
    Buffer it decodes to. *)
Lemma sendCustom_hex_string (l : Lock.ZWaveLock) (s : JSString) (b : Buffer)
    (m count : option JSNum) :
  hexTo32ByteBuffer (JStr s) = Normal b ->
  Lock.sendCustom l (Lock.PValue (JStr s)) m count =
  Lock.sendCustom l (Lock.PBuffer b) m count.
Proof.
  intros Hb. unfold Lock.sendCustom.
  rewrite (validated_payload_truthy _ _ Hb), Hb. reflexivity.
Qed.

(** Up to the loop, a call of [sendCustom] that passes the checks
    reduces to the loop on the clamped count. *)
Lemma sendCustom_reaches_loop (l l1 : Lock.ZWaveLock) (payload : Lock.Payload)
    (b : Buffer) (ccMP : SendData) (m count : JSNum) :
  lock_reaches_loop l payload b ccMP l1 ->
  Lock.sendCustom l payload (Some m) (Some count) =
  let '(outcome, n) :=
    send_frames loop_bound ccMP m b (clamp_count count)
      (fun n result duration => mkFrameResult n result (Some duration))
      0 [] (Lock.node l1) in
  (cbind outcome
     (fun results =>
        Normal (mkSendResult (num_of_Z (Lock.lock_nodeId l1)) (clamp_count count)
                  (Buffer_toString_hex b) m results)),
   Lock.set_node l1 n).
Proof.
  intros (Hready & Hpayload & Hlen & Hapi).
  destruct Hpayload as [-> | (s & -> & Hs)].
  - exact (sendCustom_loop l l1 b ccMP m count Hready Hlen Hapi).
  - rewrite (sendCustom_hex_string l s b _ _ Hs).
    exact (sendCustom_loop l l1 b ccMP m count Hready Hlen Hapi).
Qed.

Lemma lock_reaches_loop_frames (l l1 : Lock.ZWaveLock) (payload : Lock.Payload)
    (b : Buffer) (ccMP : SendData) :
  lock_reaches_loop l payload b ccMP l1 ->
  node_frames (Lock.node l1) = node_frames (Lock.node l).
Proof.
  intros (_ & _ & _ & Hapi).
  rewrite (lock_api_keeps_frames _ _ _ Hapi). apply force_keeps_frames.
Qed.

(** A call of [sendCustom] that passes the checks, on a device that
    accepts the frames, completes for every count. *)
Lemma sendCustom_completes (l l1 : Lock.ZWaveLock) (payload : Lock.Payload)
    (b : Buffer) (ccMP : SendData) (m count : JSNum) :
  lock_reaches_loop l payload b ccMP l1 ->
  accepts_all ccMP m b ->
  exists result l',
    Lock.sendCustom l payload (Some m) (Some count) = (Normal result, l') /\
    sr_count result = clamp_count count /\
    length (sr_results result) = passes (clamp_count count) /\
    node_frames (Lock.node l') =
    node_frames (Lock.node l) ++ repeat (m, b) (passes (clamp_count count)).
Proof.
  intros Hpre Hdev.
  rewrite (sendCustom_reaches_loop l l1 payload b ccMP m count Hpre).
  destruct (passes_of_clamped_count count) as (Hle & _).
  destruct (send_frames_all_passes ccMP m b (clamp_count count)
              (fun k result duration => mkFrameResult k result (Some duration))
              (clamp_count_finite count) Hdev
              loop_bound 0%nat [] (Lock.node l1))
    as (rs & Hrun & Hrs); [unfold loop_bound; lia|].
  rewrite Hrun. cbn [cbind app]. eexists _, _. split; [reflexivity|].
  cbn [sr_count sr_results Lock.node Lock.set_node].
  rewrite Nat.sub_0_r in *. rewrite node_frames_set_frames.
  rewrite (lock_reaches_loop_frames _ _ _ _ _ Hpre). auto.
Qed.

(** [sendCustom] stops at the first frame that fails, for a Buffer and
    for a hex string. *)
Lemma sendCustom_stops_at_first_failure (l l1 : Lock.ZWaveLock)
    (payload : Lock.Payload) (b : Buffer) (ccMP : SendData)
    (m count : JSNum) (k : nat) (e : Exn) :
  lock_reaches_loop l payload b ccMP l1 ->
  fails_after ccMP m b (length (node_frames (Lock.node l))) k e ->
  num_lt (num_of_nat k) (clamp_count count) = true ->
  Lock.sendCustom l payload (Some m) (Some count) =
  (Throw e,
   Lock.set_node l1
     (set_frames (Lock.node l1)
        (node_frames (Lock.node l) ++ repeat (m, b) (S k)))).
Proof.
  intros (Hready & Hpayload & Hlen & Hapi) Hdev Hk.
  destruct Hpayload as [-> | (s & -> & Hs)].
  - exact (sendCustom_aborts_at_first_failure l l1 b ccMP m count k e
             Hready Hlen Hapi Hdev Hk).
  - rewrite (sendCustom_hex_string l s b _ _ Hs).
    exact (sendCustom_aborts_at_first_failure l l1 b ccMP m count k e
             Hready Hlen Hapi Hdev Hk).
Qed.

(** C6 (amended): the count of the custom vendor-command send, in
    [sendManufacturerProprietaryCustom] and in [ZWaveLock.sendCustom],
    is only compared with 0 and with 100.  For every count, integer
    or not: a count of at most 0 becomes 1, a count above 100 becomes
    100, and any other count, [NaN] and the fractions included, stays
    as it is.  So every count other than [NaN] ends in (0,100], and
    in [1,100] when it is at most 0 or at least 1; an integer [z]
    becomes max(1, min(100, z)); a fraction strictly between 0 and 1
    stays below 1.  The loop makes one pass for each index 0, 1, 2,
    ... below the clamped count: between 1 and 100 passes for every
    count other than [NaN] (one for a fraction between 0 and 1) and
    none for [NaN].  With a device that accepts the frames, a call
    that passes its other checks completes without an error for every
    count, reports the clamped count and has attempted exactly that
    many frames.  The inputs -5, 0, 1, 100, 101, 1000 give 1, 1, 1,
    100, 100, 100 frames; the inputs 2.5, 100.5, -0.5, +Infinity,
    -Infinity, 0.5 and [NaN] give 3, 100, 1, 100, 1, 1 and 0. *)
Theorem custom_send_clamps_count (count : JSNum)
    (context : Context) (drv : Driver) (nodeId : JSNum)
    (vendorPayload : Buffer) (node : ZWaveNode) (ccMP : MPApi) (m : JSNum)
    (l l1 : Lock.ZWaveLock) (payload : Lock.Payload) (lockAPI : SendData) :
  let clamped := clamp_count count in
  (num_le count (num_of_Z 0) = true -> clamped = num_of_Z 1) /\
  (num_gt count (num_of_Z 100) = true -> clamped = num_of_Z 100) /\
  (num_le count (num_of_Z 0) = false ->
   num_gt count (num_of_Z 100) = false -> clamped = count) /\
  (count <> NaN ->
   num_lt (num_of_Z 0) clamped = true /\
   num_le clamped (num_of_Z 100) = true) /\
  (num_le count (num_of_Z 0) = true \/ num_le (num_of_Z 1) count = true ->
   num_le (num_of_Z 1) clamped = true) /\
  (num_lt (num_of_Z 0) count = true -> num_lt count (num_of_Z 1) = true ->
   clamped = count /\ passes clamped = 1%nat /\
   num_le (num_of_Z 1) clamped = false) /\
  (forall z : Z, clamp_count (num_of_Z z) = num_of_Z (Z.max 1 (Z.min 100 z)) /\
                 passes (clamp_count (num_of_Z z)) =
                 Z.to_nat (Z.max 1 (Z.min 100 z))) /\
  (forall i : nat,
     num_lt (num_of_nat i) clamped = true <-> (i < passes clamped)%nat) /\
  (passes clamped <= 100)%nat /\
  (count <> NaN -> (1 <= passes clamped)%nat) /\
  (count = NaN -> clamped = NaN /\ passes clamped = 0%nat) /\
  (reaches_loop context drv nodeId vendorPayload node ccMP ->
   accepts_all (sendData ccMP) m vendorPayload ->
   exists result drv',
     sendManufacturerProprietaryCustom context (Some nodeId)
       (Some vendorPayload) (Some m) (Some count) =
     (Normal result, Some drv') /\
     sr_count result = clamped /\
     length (sr_results result) = passes clamped /\
     drv' = nodes_put drv nodeId
              (set_frames (forceManufacturerProprietarySupport node)
                 (node_frames node
                  ++ repeat (m, vendorPayload) (passes clamped)))) /\
  (lock_reaches_loop l payload vendorPayload lockAPI l1 ->
   accepts_all lockAPI m vendorPayload ->
   exists result l',
     Lock.sendCustom l payload (Some m) (Some count) = (Normal result, l') /\
     sr_count result = clamped /\
     length (sr_results result) = passes clamped /\
     node_frames (Lock.node l') =
     node_frames (Lock.node l) ++ repeat (m, vendorPayload) (passes clamped)) /\
  map (fun z => passes (clamp_count (num_of_Z z))) [-5; 0; 1; 100; 101; 1000]%Z
  = [1; 1; 1; 100; 100; 100]%nat /\
  map (fun c => (clamp_count c, passes (clamp_count c)))
    [Fin (5 # 2); Fin (201 # 2); Fin (- 1 # 2); Infinity false; Infinity true;
     Fin (1 # 2); NaN]
  = [(Fin (5 # 2), 3%nat); (num_of_Z 100, 100%nat); (num_of_Z 1, 1%nat);
     (num_of_Z 100, 100%nat); (num_of_Z 1, 1%nat); (Fin (1 # 2), 1%nat);
     (NaN, 0%nat)].
Proof.
  intros clamped. subst clamped.
  destruct (clamp_count_cases count) as (Hlow & Hhigh & Hmid).
  destruct (passes_of_clamped_count count) as (Hle & Hge & Hnan).
  split; [exact Hlow|]. split; [exact Hhigh|]. split; [exact Hmid|].
  split; [exact (clamp_count_range count)|].
  split; [exact (clamp_count_at_least_1 count)|].
  split.
  { intros H0 H1. destruct (clamp_count_fraction count H0 H1) as (Hc & Hp & Hb).
    rewrite Hc at 2. auto. }
  split.
  { intros z. rewrite clamp_count_Z. split; [reflexivity|].
    cbn [passes num_of_Z]. now rewrite Qceiling_Z. }
  split; [exact (fun i => num_lt_nat_passes i _ (clamp_count_finite count))|].
  split; [exact Hle|]. split; [exact Hge|].
  split; [intros ->; split; reflexivity|].
  split; [exact (sender_completes context drv nodeId vendorPayload node ccMP
                   m count)|].
  split; [exact (sendCustom_completes l l1 payload vendorPayload lockAPI
                   m count)|].
  split; reflexivity.
Qed.

Lemma custom_send_clamps_count_witness :
  exists result drv' lock_result l',
    sendManufacturerProprietaryCustom (sample_context accepting)
      (Some (num_of_Z 2)) (Some payload32) (Some (num_of_Z 0))
      (Some (Fin (5 # 2))) = (Normal result, Some drv') /\
    sr_count result = Fin (5 # 2) /\
    length (sr_results result) = 3%nat /\
    Lock.sendCustom Samples.initialized_lock
      (Lock.PValue (JStr (repeat 48%N 64))) (Some (num_of_Z 0))
      (Some (Fin (5 # 2))) = (Normal lock_result, l') /\
    sr_count lock_result = Fin (5 # 2) /\
    length (sr_results lock_result) = 3%nat /\
    node_frames (Lock.node l') = repeat (num_of_Z 0, payload32) 3.
Proof.
  assert (Hdev : accepts_all accepting (num_of_Z 0) payload32).
  { intros k. exists JUndefined, 5. reflexivity. }
  pose (l1 := snd (Lock.lock_getManufacturerProprietaryAPI
                     (Lock.set_node Samples.initialized_lock
                        (forceManufacturerProprietarySupport
                           (Lock.node Samples.initialized_lock))))).
  assert (Hlock : lock_reaches_loop Samples.initialized_lock
                    (Lock.PValue (JStr (repeat 48%N 64))) payload32 accepting
                    l1).
  { split; [reflexivity|]. split; [|split; reflexivity].
    right. exists (repeat 48%N 64). split; reflexivity. }
  destruct (custom_send_clamps_count (Fin (5 # 2))
              (sample_context accepting) (sample_driver accepting)
              (num_of_Z 2) payload32 (sample_node 2 accepting)
              (mkMPApi accepting None) (num_of_Z 0)
              Samples.initialized_lock l1
              (Lock.PValue (JStr (repeat 48%N 64))) accepting)
    as (_ & _ & _ & _ & _ & _ & _ & _ & _ & _ & _ & Hsender & Hlocks & _ & _).
  destruct (Hsender (sample_reaches_loop accepting) Hdev)
    as (result & drv' & Hrun & Hcount & Hlen & _).
  destruct (Hlocks Hlock Hdev) as (lresult & l' & Hlrun & Hlcount & Hllen & Hfr).
  exists result, drv', lresult, l'.
  split; [exact Hrun|]. split; [exact Hcount|]. split; [exact Hlen|].
  split; [exact Hlrun|]. split; [exact Hlcount|]. split; [exact Hllen|].
  exact Hfr.
Defined.

(** C6 (the claim as stated fails): a count of [NaN] passes both tests
    unchanged and no frame is attempted; a count of one half stays
    one half, outside [1,100], and one frame is attempted. *)
Lemma count_outside_range_is_not_clamped :
  clamp_count NaN = NaN /\
  fst (sendManufacturerProprietaryCustom (sample_context accepting)
         (Some (num_of_Z 2)) (Some payload32) (Some (num_of_Z 0)) (Some NaN)) =
  Normal (mkSendResult (num_of_Z 2) NaN (Buffer_toString_hex payload32)
            (num_of_Z 0) []) /\
  frames_of
    (snd (sendManufacturerProprietaryCustom (sample_context accepting)
            (Some (num_of_Z 2)) (Some payload32) (Some (num_of_Z 0))
            (Some NaN))) (num_of_Z 2) = [] /\
  clamp_count (Fin (1 # 2)) = Fin (1 # 2) /\
  num_le (num_of_Z 1) (Fin (1 # 2)) = false /\
  length
    (frames_of
       (snd (sendManufacturerProprietaryCustom (sample_context accepting)
               (Some (num_of_Z 2)) (Some payload32) (Some (num_of_Z 0))
               (Some (Fin (1 # 2))))) (num_of_Z 2)) = 1%nat.
Proof. vm_compute. repeat split; reflexivity. Qed.

(** C7: when the device accepts [k] frames and fails the next one,
    the call throws that frame's error; [k + 1] frames were handed to
    the device, one after the other, none after the failure, and the
    completion carries no result of the frames sent.  This holds for
    [sendManufacturerProprietaryCustom] and for [ZWaveLock.sendCustom],
    whether its payload is a Buffer or a hex string. *)
Theorem custom_send_aborts_at_first_failure
    (context : Context) (drv : Driver) (nodeId : JSNum)
    (vendorPayload : Buffer) (node : ZWaveNode) (ccMP : MPApi)
    (m count : JSNum) (k : nat) (e : Exn)
    (l l1 : Lock.ZWaveLock) (payload : Lock.Payload) (lockAPI : SendData) :
  (reaches_loop context drv nodeId vendorPayload node ccMP ->
   fails_after (sendData ccMP) m vendorPayload (length (node_frames node)) k e ->
   num_lt (num_of_nat k) (clamp_count count) = true ->
   sendManufacturerProprietaryCustom context (Some nodeId) (Some vendorPayload)
     (Some m) (Some count) =
   (Throw e,
    Some (nodes_put drv nodeId
            (set_frames (forceManufacturerProprietarySupport node)
               (node_frames node ++ repeat (m, vendorPayload) (S k)))))) /\
  (lock_reaches_loop l payload vendorPayload lockAPI l1 ->
   fails_after lockAPI m vendorPayload (length (node_frames (Lock.node l))) k e ->
   num_lt (num_of_nat k) (clamp_count count) = true ->
   Lock.sendCustom l payload (Some m) (Some count) =
   (Throw e,
    Lock.set_node l1
      (set_frames (Lock.node l1)
         (node_frames (Lock.node l) ++ repeat (m, vendorPayload) (S k))))).
Proof.
  split.
  - exact (sender_aborts_at_first_failure context drv nodeId vendorPayload
             node ccMP m count k e).
  - exact (sendCustom_stops_at_first_failure l l1 payload vendorPayload
             lockAPI m count k e).
Qed.

Lemma custom_send_aborts_at_first_failure_witness :
  let lock := Lock.new_ZWaveLock (sample_node 2 failing_third) in
  sendManufacturerProprietaryCustom (sample_context failing_third)
    (Some (num_of_Z 2)) (Some payload32) (Some (num_of_Z 0))
    (Some (num_of_Z 5)) =
  (Throw timeout,
   Some (nodes_put (sample_driver failing_third) (num_of_Z 2)
           (set_frames
              (forceManufacturerProprietarySupport (sample_node 2 failing_third))
              (repeat (num_of_Z 0, payload32) 3)))) /\
  fst (Lock.sendCustom lock (Lock.PBuffer payload32) (Some (num_of_Z 0))
         (Some (num_of_Z 5))) = Throw timeout /\
  node_frames
    (Lock.node
       (snd (Lock.sendCustom lock (Lock.PBuffer payload32) (Some (num_of_Z 0))
               (Some (num_of_Z 5))))) = repeat (num_of_Z 0, payload32) 3.
Proof.
  intros lock.
  assert (Hdev : fails_after failing_third (num_of_Z 0) payload32 0 2 timeout).
  { split.
    - intros j Hj. exists JUndefined, 5. unfold failing_third.
      destruct j as [|[|j]]; [reflexivity|reflexivity|lia].
    - exists 9. reflexivity. }
  pose (l1 := snd (Lock.lock_getManufacturerProprietaryAPI
                     (Lock.set_node lock
                        (forceManufacturerProprietarySupport
                           (Lock.node lock))))).
  assert (Hlock : lock_reaches_loop lock (Lock.PBuffer payload32) payload32
                    failing_third l1).
  { split; [reflexivity|]. split; [left; reflexivity|split; reflexivity]. }
  destruct (custom_send_aborts_at_first_failure
              (sample_context failing_third) (sample_driver failing_third)
              (num_of_Z 2) payload32 (sample_node 2 failing_third)
              (mkMPApi failing_third None) (num_of_Z 0) (num_of_Z 5) 2 timeout
              lock l1 (Lock.PBuffer payload32) failing_third)
    as (Hsender & Hlocks).
  split; [exact (Hsender (sample_reaches_loop failing_third) Hdev eq_refl)|].
  rewrite (Hlocks Hlock Hdev eq_refl). split; reflexivity.
Defined.

(** *** The lock and its node's "ready" *)

(** A lock built on a node that is not ready yet caches no API and
    leaves a listener; when the node signals "ready" the listener
    caches the API of the node, and a second signal changes
    nothing. *)
Lemma lock_caches_api_when_node_is_ready (n : ZWaveNode) :
  node_ready n = false ->
  let l := Lock.new_ZWaveLock n in
  Lock._mpAPI l = None /\ Lock.ready_listener l = true /\
  Lock._setupComplete l = true /\
  Lock._mpAPI (Lock.node_ready_event l) = getManufacturerProprietaryAPI n /\
  node_ready (Lock.node (Lock.node_ready_event l)) = true /\
  Lock.node_ready_event (Lock.node_ready_event l) = Lock.node_ready_event l.
Proof.
  intros Hready l. subst l.
  unfold Lock.new_ZWaveLock, Lock.initialize, Lock.constructed.
  cbn [Lock._setupComplete Lock.set_node Lock.node].
  set (l1 := Lock.setupManufacturerProprietaryCommandHandler _).
  assert (Hl1 : node_ready (Lock.node l1) = false /\
                Lock._mpAPI l1 = None /\ Lock.ready_listener l1 = false /\
                node_commandClasses_MP (Lock.node l1) =
                node_commandClasses_MP n).
  { subst l1. unfold Lock.setupManufacturerProprietaryCommandHandler.
    cbn [Lock.node Lock.lock_nodeId].
    assert (Hforce : node_ready (forceManufacturerProprietarySupport n) = false
                     /\ node_commandClasses_MP
                          (forceManufacturerProprietarySupport n) =
                        node_commandClasses_MP n).
    { unfold forceManufacturerProprietarySupport.
      destruct (node_addCC n); [|now split]. cbn [negb].
      destruct (existsb _ _); now split. }
    destruct Hforce as [Hr Hc].
    destruct (node_handleCommand _); [|now repeat split].
    destruct (node_mpHandlerAttached _); now repeat split. }
  destruct Hl1 as (Hr & Hapi & Hlistener & Hcc). rewrite Hr.
  unfold Lock.node_ready_event.
  cbn [Lock._mpAPI Lock.ready_listener Lock._setupComplete Lock.set_node
         Lock.set_setupComplete Lock.set_ready_listener Lock.node
         Lock.lock_nodeId].
  unfold Lock._initializeMPAPI.
  cbn [Lock._mpAPI Lock.ready_listener Lock._setupComplete Lock.set_node
         Lock.set_setupComplete Lock.set_ready_listener Lock.node
         Lock.set_mpAPI Lock.lock_nodeId].
  rewrite Hapi.
  cbn [Lock._mpAPI Lock.ready_listener Lock._setupComplete Lock.set_node
         Lock.set_setupComplete Lock.set_ready_listener Lock.node
         Lock.set_mpAPI Lock.lock_nodeId].
  repeat split.
  unfold getManufacturerProprietaryAPI. cbn [set_ready node_commandClasses_MP].
  now rewrite Hcc.
Qed.

(** ** The command interceptor (C9) *)

(** Attaching a second time changes nothing. *)
Lemma setup_idempotent (l : Lock.ZWaveLock) :
  Lock.setupManufacturerProprietaryCommandHandler
    (Lock.setupManufacturerProprietaryCommandHandler l) =
  Lock.setupManufacturerProprietaryCommandHandler l.
Proof.
  set (l1 := Lock.setupManufacturerProprietaryCommandHandler l).
  assert (Hl1 : node_handleCommand (Lock.node l1) = None \/
                node_mpHandlerAttached (Lock.node l1) = true).
  { subst l1. unfold Lock.setupManufacturerProprietaryCommandHandler.
    destruct (node_handleCommand (Lock.node l)) as [h|] eqn:Hh; [|auto].
    destruct (node_mpHandlerAttached (Lock.node l)) eqn:Ha; auto. }
  unfold Lock.setupManufacturerProprietaryCommandHandler at 1.
  destruct Hl1 as [-> | Ha]; [reflexivity|].
  rewrite Ha. destruct (node_handleCommand (Lock.node l1)); reflexivity.
Qed.

(** C9 (amended): once the interceptor is attached to a node that has
    a command handler, a command that is recognised as vendor-class
    (its class identifier is 0x91, or it is an instance of the vendor
    command class, or its constructor bears that class's name) is
    published as an event and does not reach the original handler;
    every other command is handled by the original handler, with the
    same result and the same effects. *)
Theorem interceptor_diverts_vendor_class (l : Lock.ZWaveLock)
    (original : HandlerImpl) (command : Command) (bus : Bus) :
  node_handleCommand (Lock.node l) = Some original ->
  node_mpHandlerAttached (Lock.node l) = false ->
  let l' := Lock.setupManufacturerProprietaryCommandHandler l in
  exists installed,
    node_handleCommand (Lock.node l') = Some installed /\
    node_mpHandlerAttached (Lock.node l') = true /\
    (ccId command = 0x91 \/ cmd_instanceof_MPCC command = true \/
     cmd_constructor_name command = Some (str "ManufacturerProprietaryCC") ->
     Lock.handleCommand installed command bus =
     (JUndefined,
      mkBus (emitted bus
             ++ [mkCommandData (Lock.lock_nodeId l)
                   (cmd_manufacturerId command) (cmd_payload command)
                   (match cmd_payload command with
                    | Some p => JNum (num_of_nat (length p))
                    | None => JInt 0
                    end)
                   (js_or (cmd_endpointIndex command) (JInt 0))])
        (delivered bus))) /\
    (ccId command <> 0x91 ->
     cmd_instanceof_MPCC command = false ->
     cmd_constructor_name command <> Some (str "ManufacturerProprietaryCC") ->
     Lock.handleCommand installed command bus =
     Lock.handleCommand original command bus).
Proof.
  intros Hh Ha l'. subst l'.
  unfold Lock.setupManufacturerProprietaryCommandHandler. rewrite Hh, Ha.
  cbn [Lock.node Lock.set_node node_handleCommand node_mpHandlerAttached
       set_handler].
  eexists. split; [reflexivity|]. split; [reflexivity|].
  cbn [Lock.handleCommand]. split.
  - intros Hvendor.
    assert (Hrecognised : Lock.isManufacturerProprietary command = true).
    { unfold Lock.isManufacturerProprietary.
      destruct Hvendor as [Hcc|[Hinst|Hname]].
      - rewrite Hcc. reflexivity.
      - rewrite Hinst. now rewrite orb_true_r.
      - rewrite Hname, streq_refl. now rewrite orb_true_r. }
    rewrite Hrecognised.
    unfold Lock.commandData. do 4 f_equal.
    destruct (cmd_payload command) as [p|]; [|reflexivity].
    unfold js_or. destruct (truthy _) eqn:Ht; [reflexivity|].
    destruct p; [reflexivity|]. discriminate Ht.
  - intros Hcc Hinst Hname. unfold Lock.isManufacturerProprietary.
    apply Z.eqb_neq in Hcc. rewrite Hcc, Hinst.
    cbn [orb].
    destruct (cmd_constructor_name command) as [n|]; [|reflexivity].
    destruct (streq n (str "ManufacturerProprietaryCC")) eqn:Hn; [|reflexivity].
    apply streq_eq in Hn. subst n. contradiction.
Qed.

Lemma interceptor_diverts_vendor_class_witness :
  node_handleCommand (Lock.node sample_lock) = Some library_handler /\
  node_mpHandlerAttached (Lock.node sample_lock) = false /\
  exists installed,
    node_handleCommand
      (Lock.node (Lock.setupManufacturerProprietaryCommandHandler sample_lock)) =
    Some installed /\
    Lock.handleCommand installed vendor_command empty_bus =
    (JUndefined,
     mkBus [mkCommandData 2 (JInt 0) (Some [1%N; 2%N; 3%N]) (JInt 3) (JInt 0)] []) /\
    Lock.handleCommand installed basic_command empty_bus =
    (JBool true, mkBus [] [basic_command]).
Proof.
  split; [reflexivity|]. split; [reflexivity|].
  destruct (interceptor_diverts_vendor_class sample_lock library_handler
              vendor_command empty_bus eq_refl eq_refl)
    as (installed & Hi & _ & Hvendor & _).
  destruct (interceptor_diverts_vendor_class sample_lock library_handler
              basic_command empty_bus eq_refl eq_refl)
    as (installed' & Hi' & _ & _ & Hother).
  exists installed. split; [exact Hi|]. split.
  - apply Hvendor. left. reflexivity.
  - assert (Heq : installed' = installed) by congruence.
    rewrite <- Heq. rewrite Hother; [reflexivity|discriminate|reflexivity|discriminate].
Defined.

(** C9 (counterexample to the claim as stated): a command whose class
    identifier is 0x20, not 0x91, and whose constructor bears the name
    of the vendor command class is not passed through.  The installed
    handler publishes an event and returns nothing, where the original
    handler would have received the command. *)
Lemma command_of_another_class_is_diverted :
  let command :=
    mkCommand 0x20 false (Some (str "ManufacturerProprietaryCC")) JUndefined
      None JUndefined in
  ccId command <> 0x91 /\
  exists installed,
    node_handleCommand
      (Lock.node (Lock.setupManufacturerProprietaryCommandHandler sample_lock)) =
    Some installed /\
    Lock.handleCommand installed command empty_bus =
    (JUndefined, mkBus [mkCommandData 2 JUndefined None (JInt 0) (JInt 0)] []) /\
    Lock.handleCommand library_handler command empty_bus =
    (JBool true, mkBus [] [command]).
Proof.
  cbv zeta. split; [discriminate|].
  eexists. split; [reflexivity|]. split; reflexivity.
Qed.

(** ** The router *)

(** Where one property can be read, every property can. *)
Lemma get_prop (v x : JSValue) (k k' : string) :
  get v k = Normal x -> get v k' = Normal (prop v k').
Proof.
  unfold prop. destruct v; cbn [get]; try discriminate; intros _;
    try reflexivity.
  destruct (own_property fields (str k')); reflexivity.
Qed.

Lemma get_prop_eq (v x : JSValue) (k : string) :
  get v k = Normal x -> prop v k = x.
Proof. unfold prop. intros ->. reflexivity. Qed.

(** C5 (code at the failing input): a frame that is not JSON makes
    [JSON.parse] throw in the [try] block and again in the [catch]
    block, so the promise of [handleMessage] is rejected and nothing
    is sent to the client; the frame [null] fares the same, on reading
    a property of [null]. *)
Theorem handleMessage_sends_nothing_for_malformed_frame `{Builtins}
    (client : WebSocket) (text : JSString) (w : World) :
  handleMessage client (mkMessage text None) w =
  (Throw (mkExn SyntaxError (msg "Unexpected token in JSON")), w) /\
  handleMessage client (mkMessage text (Some JNull)) w =
  (Throw (mkExn TypeError
            [Txt (str "Cannot read properties of "); Val JNull;
             Txt (str " (reading '"); Txt (str "requestId"); Txt (str "')")]),
   w).
Proof. split; reflexivity. Qed.

(** C8 (amended): while the driver is not ready, [GET_NODES] is
    answered with [NODES] and an empty array; the other provisioning
    and node requests are answered with the not-ready error, except
    that an add-entry request without a DSK is answered with the
    missing-DSK error, which is tested first. *)
Theorem requests_while_not_ready `{Builtins}
    (client : WebSocket) (message : Message) (data requestId : JSValue)
    (w : World) :
  readyState client = 1%N ->
  ready_client w = None ->
  parsed message = Some data ->
  get data "requestId" = Normal requestId ->
  let answer r :=
    (Normal tt, set_outbox w (outbox w ++ [with_requestId r requestId])) in
  (prop data "type" = JS_ "GET_NODES" ->
   handleMessage client message w = answer (reply "NODES" (Nodes []))) /\
  (forall t,
     In t ["GET_PROVISIONING_ENTRIES"; "GET_PROVISIONING_ENTRY";
           "UPDATE_PROVISIONING_ENTRY_STATUS"; "DELETE_PROVISIONING_ENTRY";
           "GET_NODE"; "SEND_COMMAND"] ->
     prop data "type" = JS_ t ->
     handleMessage client message w = answer not_ready) /\
  (prop data "type" = JS_ "ADD_PROVISIONING_ENTRY" ->
   handleMessage client message w =
   answer (if truthy (prop (js_or (prop data "entry") data) "dsk")
           then not_ready else ERROR (msg "DSK is required"))).
Proof.
  intros Hopen Hnot Hparsed Hreq answer. subst answer.
  assert (Hget : forall k, get data k = Normal (prop data k))
    by (intros k; exact (get_prop _ _ _ k Hreq)).
  assert (Hrid : prop data "requestId" = requestId)
    by (exact (get_prop_eq _ _ _ Hreq)).
  split; [|split].
  - intros Htype. unfold handleMessage. run. unfold JSON_parse.
    rewrite Hparsed, !Hget, Htype, Hrid. compute_tests.
    unfold handleGetNodes. run. rewrite Hnot, Hopen. reflexivity.
  - intros t Hin Htype. unfold handleMessage. run. unfold JSON_parse.
    rewrite Hparsed, !Hget, Htype, Hrid.
    cbn [In] in Hin.
    destruct Hin as [<-|[<-|[<-|[<-|[<-|[<-|[]]]]]]]; compute_tests.
    + unfold handleGetProvisioningEntries. run. rewrite Hnot, Hopen. reflexivity.
    + unfold handleGetProvisioningEntry. run. rewrite Hnot, Hopen. reflexivity.
    + unfold handleUpdateProvisioningEntryStatus. run.
      rewrite Hnot, Hopen. reflexivity.
    + unfold handleDeleteProvisioningEntry. run. rewrite Hnot, Hopen. reflexivity.
    + unfold handleGetNode. run. rewrite Hnot, Hopen. reflexivity.
    + unfold handleSendCommand. run. rewrite Hnot, Hopen. reflexivity.
  - intros Htype. unfold handleMessage. run. unfold JSON_parse.
    rewrite Hparsed, !Hget, Htype, Hrid. compute_tests.
    unfold handleAddProvisioningEntry. run. rewrite Hget.
    set (entry := js_or (prop data "entry") data).
    assert (Hentry : get entry "dsk" = Normal (prop entry "dsk")).
    { subst entry. unfold js_or.
      destruct (truthy (prop data "entry")) eqn:Ht; [|apply Hget].
      unfold prop at 2.
      destruct (prop data "entry"); cbn [get truthy] in *; try discriminate;
        try reflexivity.
      destruct (own_property fields (str "dsk")); reflexivity. }
    rewrite Hentry. unfold js_not.
    destruct (truthy (prop entry "dsk")); cbn [negb].
    + rewrite Hnot, Hopen. reflexivity.
    + rewrite Hopen. reflexivity.
Qed.

Lemma requests_while_not_ready_witness :
  readyState open_socket = 1%N /\
  ready_client initial_world = None /\
  handleMessage open_socket
    (frame (request [("type", JS_ "GET_NODES"); ("requestId", JS_ "r1")]))
    initial_world =
  (Normal tt,
   set_outbox initial_world
     [with_requestId (reply "NODES" (Nodes [])) (JS_ "r1")]).
Proof.
  split; [reflexivity|]. split; [reflexivity|].
  apply (requests_while_not_ready open_socket
           (frame (request [("type", JS_ "GET_NODES"); ("requestId", JS_ "r1")]))
           (request [("type", JS_ "GET_NODES"); ("requestId", JS_ "r1")])
           (JS_ "r1") initial_world eq_refl eq_refl eq_refl eq_refl).
  reflexivity.
Defined.

(** C8 (the claim as stated fails): before any [START], an add-entry
    request that carries no DSK is answered with the missing-DSK
    error, not with the not-ready error. *)
Lemma add_without_dsk_while_not_ready :
  lifecycle initial_world = Uninitialized /\
  ready_client initial_world = None /\
  outbox
    (snd (handleMessage open_socket
            (frame (request [("type", JS_ "ADD_PROVISIONING_ENTRY");
                             ("requestId", JS_ "r1");
                             ("name", JS_ "Front door")]))
            initial_world)) =
  [with_requestId (ERROR (msg "DSK is required")) (JS_ "r1")].
Proof. vm_compute. repeat split; reflexivity. Qed.

(** ** START (C4) *)

Lemma lifecycle_Ready (w : World) :
  lifecycle w = Ready <-> exists r c, ready_client w = Some (r, c).
Proof.
  unfold lifecycle, ready_client.
  destruct (plugin_client w) as [[r c]|].
  - destruct (driverReady c).
    + split; eauto.
    + split.
      * destruct (driver c) as [drv|]; [|discriminate].
        destruct (destroyed drv); [discriminate|].
        destruct (start_outcome drv); discriminate.
      * intros (? & ? & ?). discriminate.
  - split; [discriminate|]. intros (? & ? & ?). discriminate.
Qed.

(** A [START] request issued while the driver is ready fails with the
    already-started error, and nothing but the reply changes: the
    client, its driver and the ports stay as they were. *)
Lemma start_while_ready_is_rejected (client : WebSocket)
    (data requestId : JSValue) (w : World) :
  readyState client = 1%N ->
  lifecycle w = Ready ->
  handleStart client data requestId w =
  (Normal tt,
   set_outbox w
     (outbox w
      ++ [with_requestId (ERROR (msg "Driver is already started")) requestId])).
Proof.
  intros Hopen Hready. apply lifecycle_Ready in Hready as (r & c & Hrc).
  unfold handleStart. run. rewrite Hrc, Hopen. reflexivity.
Qed.

(** The failing input of C4, run: while the driver is starting, a
    second [START] is answered with [START_SUCCESS]; the client that
    was connecting is closed, its driver destroyed, and a new client
    takes its place, in the plugin and in the server. *)
Lemma start_while_starting_restarts :
  lifecycle starting_world = Starting /\
  zwaveClient starting_world = Some 0%nat /\
  let w := snd (handleStart open_socket (request [("type", JS_ "START")])
                  (JS_ "r2") starting_world) in
  map r_type (outbox w) = [str "START_SUCCESS"] /\
  (driver <$> heap w !! 0%nat) =
  Some (Some (set_destroyed (sample_driver accepting))) /\
  zwaveClient w = Some 1%nat /\
  server_zwaveClient w = Some 1%nat.
Proof. vm_compute. repeat split; reflexivity. Qed.

(** The client that a second [START] replaced keeps the listener the
    plugin added to it: when its driver signals "driver ready" after
    all, [DRIVER_READY] is broadcast although the client the plugin
    holds is not ready. *)
Lemma replaced_client_still_announces :
  let w := snd (handleStart open_socket (request [("type", JS_ "START")])
                  (JS_ "r2") starting_world) in
  let w' := snd (driver_ready_event open_socket 0 (set_outbox w [])) in
  zwaveClient w = Some 1%nat /\
  map r_type (outbox w') = [str "DRIVER_READY"] /\
  lifecycle w' = Starting.
Proof. vm_compute. repeat split; reflexivity. Qed.

(** ** GET_NODES *)

(** When the keys of the [Map] are listed once each, [getNodes] of a
    ready client lists each node once, in the order of the keys. *)
Lemma getNodes_lists_the_nodes (c : ZWaveProvisioningClient) (drv : Driver) :
  driver c = Some drv -> driverReady c = true ->
  (forall id, In id (nodes_order drv) -> is_Some (nodes drv !! id)) ->
  length (getNodes c) = length (nodes_order drv) /\
  forall i id,
    nth_error (nodes_order drv) i = Some id ->
    exists node,
      nodes drv !! id = Some node /\
      nth_error (getNodes c) i = Some (node_info node).
Proof.
  intros Hdrv Hready. unfold getNodes. rewrite Hdrv, Hready. cbn [negb].
  induction (nodes_order drv) as [|k order IH]; intros Hkeys.
  - split; [reflexivity|]. intros [|i] id; discriminate.
  - destruct (Hkeys k (or_introl eq_refl)) as [node Hnode].
    destruct IH as [Hlen Hnth]; [intros id Hid; apply Hkeys; now right|].
    cbn [omap list_omap]. rewrite Hnode. cbn [fmap option_fmap option_map].
    split; [cbn [length]; now rewrite Hlen|].
    intros [|i] id Hi.
    + injection Hi as <-. exists node. split; [exact Hnode|reflexivity].
    + exact (Hnth i id Hi).
Qed.

(** ** The conversions of the language *)

(** [parseInt] with radix 16 reads a text with or without the [0x]
    prefix and stops at the first character that is no digit;
    [Number] reads a whole text or gives [NaN]. *)
Lemma conversions_on_sample_texts :
  map (fun s => parseInt (JS_ s) (Some 16%Z))
    ["0x0086"; "0086"; "86"; " 0X86 "; "86 units"; "units"; ""]
  = map Normal [num_of_Z 134; num_of_Z 134; num_of_Z 134; num_of_Z 134;
                num_of_Z 134; NaN; NaN] /\
  map (fun s => parseInt (JS_ s) None) ["12"; "12.7"; "-3"; "0x10"; "x"]
  = map Normal [num_of_Z 12; num_of_Z 12; num_of_Z (-3); num_of_Z 16; NaN] /\
  map (fun s => Number_ (JS_ s)) [""; " 7 "; "0x10"; "1e2"; "7 units"]
  = map Normal [num_of_Z 0; num_of_Z 7; num_of_Z 16; num_of_Z 100; NaN] /\
  Number_ (JS_ "2.5") = Normal (Fin (5 # 2)) /\
  Number_ (JArr [JS_ "7"]) = Normal (num_of_Z 7) /\
  Number_ (JArr [JInt 1; JInt 2]) = Normal NaN /\
  Number_ (JObj [(str "toString", JNull)]) = Throw cannot_convert.
Proof. vm_compute. repeat split; reflexivity. Qed.

(** ** SEND_COMMAND (C10) *)

Lemma ready_client_inv (w : World) (r : nat) (c : ZWaveProvisioningClient) :
  ready_client w = Some (r, c) ->
  zwaveClient w = Some r /\ heap w !! r = Some c /\ driverReady c = true.
Proof.
  unfold ready_client, plugin_client.
  destruct (zwaveClient w) as [r'|]; [|discriminate].
  destruct (heap w !! r') as [c'|] eqn:Hh; [|discriminate].
  destruct (driverReady c') eqn:Hr; [|discriminate].
  intros [= <- <-]. auto.
Qed.

(** An absent [nodeId] is one of the values that select node 2. *)
Lemma absent_nodeId_selects_node_2 `{Builtins} :
  numericNodeId JUndefined = Normal (num_of_Z 2).
Proof. reflexivity. Qed.




(** ** Provisioning entries (C2, C3) *)

(** After an upsert, the entry is found under its own DSK. *)
Lemma find_upsert (e : ProvisioningEntry) (l : list ProvisioningEntry) :
  strict_eq (dsk e) (dsk e) = true ->
  find (fun x => strict_eq (dsk x) (dsk e)) (upsert e l) = Some e.
Proof.
  intros Hrefl. induction l as [|x l IH]; cbn [upsert find].
  - rewrite Hrefl. reflexivity.
  - destruct (strict_eq (dsk x) (dsk e)) eqn:Hx; cbn [find].
    + rewrite Hrefl. reflexivity.
    + rewrite Hx. exact IH.
Qed.

(** The normaliser maps strings to strings. *)
Lemma normalizeDSK_string (s : JSString) :
  exists s', normalizeDSK (JStr s) = JStr s'.
Proof.
  unfold normalizeDSK.
  destruct (js_not (JStr s)); [eauto|].
  repeat match goal with
         | |- context [if ?b then _ else _] => destruct b
         end; eauto.
Qed.

(** A value with a string property is an object: all of its
    properties can be read. *)
Lemma prop_string_get (v : JSValue) (k : string) (s : JSString) :
  prop v k = JStr s -> forall k', get v k' = Normal (prop v k').
Proof.
  intros Hk k'. destruct v; try discriminate Hk.
  unfold prop. cbn [get]. destruct (own_property fields (str k')); reflexivity.
Qed.

(** What [provisionSmartStartNode] stores for an entry with a string
    DSK, when the controller accepts it.  [newLongRange] is the value
    of [isNew && entry.supportedProtocols?.includes(...)]. *)
Lemma provisionSmartStartNode_stores (c : ZWaveProvisioningClient)
    (drv : Driver) (entry : ProvisioningEntry) (s : JSString)
    (newLongRange : bool) :
  driverReady c = true ->
  driver c = Some drv ->
  accepts_entries drv ->
  dsk entry = JStr s -> s <> [] ->
  match getProvisioningEntry drv (normalizeDSK (JStr s)) with
  | None => includes_ZWaveLongRange (supportedProtocols entry)
  | Some _ => Normal false
  end = Normal newLongRange ->
  exists stored,
    provisionSmartStartNode c entry =
    (Normal stored,
     set_driver c
       (Some (set_provisioningList drv (upsert stored (provisioningList drv)))))
    /\ dsk stored = normalizeDSK (JStr s)
    /\ status stored =
       (if newLongRange then ProvisioningEntryStatus_Inactive
        else if strict_eq (status entry) (JBool true)
                || strict_eq (status entry) (JS_ "active")
        then ProvisioningEntryStatus_Active
        else ProvisioningEntryStatus_Inactive)
    /\ securityClasses stored = JArr (securityClassesArray entry)
    /\ getProvisioningEntry
         (set_provisioningList drv (upsert stored (provisioningList drv)))
         (normalizeDSK (JStr s)) = Some stored.
Proof.
  intros Hready Hdrv Haccept Hdsk Hs Hnew.
  unfold provisionSmartStartNode.
  rewrite Hready, Hdsk, Hdrv. cbn [negb].
  assert (Hnot : js_not (JStr s) = false) by (destruct s; [contradiction|reflexivity]).
  rewrite Hnot. cbn [dsk set_dsk].
  destruct (normalizeDSK_string s) as (s' & Hs').
  assert (Hnew' :
            (if match getProvisioningEntry drv (normalizeDSK (JStr s)) with
                | None => true | Some _ => false end
             then includes_ZWaveLongRange (supportedProtocols entry)
             else Normal false) = Normal newLongRange).
  { destruct (getProvisioningEntry drv (normalizeDSK (JStr s))); exact Hnew. }
  cbv zeta. cbn [supportedProtocols set_dsk dsk]. rewrite Hnew'.
  cbn [status set_dsk].
  set (st := strict_eq (status entry) (JBool true)
             || strict_eq (status entry) (JS_ "active")).
  assert (Hfind : forall stored,
             dsk stored = normalizeDSK (JStr s) ->
             getProvisioningEntry
               (set_provisioningList drv (upsert stored (provisioningList drv)))
               (normalizeDSK (JStr s)) = Some stored).
  { intros stored He. unfold getProvisioningEntry.
    cbn [provisioningList set_provisioningList].
    rewrite <- He. apply find_upsert. rewrite He, Hs'.
    apply strict_eq_string_refl. }
  unfold controller_provisionSmartStartNode.
  destruct newLongRange, st;
    cbn [protocol status dsk set_status set_dsk set_protocol];
    destruct (is_string_type (protocol entry));
    try destruct (strict_eq (protocol entry) (JS_ "ZWaveLongRange")
                  || strict_eq (protocol entry) (JS_ "Z-Wave Long Range"));
    try destruct (js_not (protocol entry));
    rewrite Haccept; cbn [cbind];
    (eexists; split; [reflexivity|];
     split; [reflexivity|]; split; [reflexivity|]; split; [reflexivity|];
     apply Hfind; reflexivity).
Qed.

(** A request whose entry has a string DSK is an object, and so is
    the entry. *)
Lemma entry_of_get (data : JSValue) (s : JSString) :
  prop (entry_of data) "dsk" = JStr s ->
  (forall k, get data k = Normal (prop data k)) /\
  (forall k, get (entry_of data) k = Normal (prop (entry_of data) k)).
Proof.
  intros Hdsk. split; [|exact (prop_string_get _ _ _ Hdsk)].
  unfold entry_of, js_or in Hdsk.
  destruct (truthy (prop data "entry")) eqn:Ht.
  - intros k. destruct data; try discriminate Ht.
    unfold prop. cbn [get]. destruct (own_property fields (str k)); reflexivity.
  - exact (prop_string_get _ _ _ Hdsk).
Qed.

Lemma ready_client_after_update (w : World) (r : nat)
    (c c' : ZWaveProvisioningClient) (o : list Response) :
  ready_client w = Some (r, c) ->
  driverReady c' = true ->
  ready_client (set_outbox (set_heap w (<[r := c']> (heap w))) o) =
  Some (r, c').
Proof.
  intros Hrc Hc'. apply ready_client_inv in Hrc as (Hz & _ & _).
  unfold ready_client, plugin_client.
  cbn [zwaveClient heap set_outbox set_heap]. rewrite Hz.
  rewrite lookup_insert_eq, Hc'. reflexivity.
Qed.

(** An add-entry request with a string DSK, on a ready driver whose
    controller accepts the entry: the entry computed by
    [provisionSmartStartNode] is stored and reported. *)
Lemma handleAddProvisioningEntry_stores (client : WebSocket)
    (data requestId : JSValue) (w : World) (r : nat)
    (c : ZWaveProvisioningClient) (drv : Driver) (s : JSString)
    (newLongRange : bool) :
  readyState client = 1%N ->
  ready_client w = Some (r, c) ->
  driver c = Some drv ->
  accepts_entries drv ->
  prop (entry_of data) "dsk" = JStr s -> s <> [] ->
  match getProvisioningEntry drv (normalizeDSK (JStr s)) with
  | None =>
      includes_ZWaveLongRange
        (js_or (prop (entry_of data) "supportedProtocols") (JArr []))
  | Some _ => Normal false
  end = Normal newLongRange ->
  exists stored drv',
    let c' := set_driver c (Some drv') in
    let w' :=
      set_outbox (set_heap w (<[r := c']> (heap w)))
        (outbox w
         ++ [with_requestId
               (reply "PROVISIONING_ENTRY_ADDED" (EntryAdded stored))
               requestId]) in
    handleAddProvisioningEntry client data requestId w = (Normal tt, w') /\
    ready_client w' = Some (r, c') /\
    accepts_entries drv' /\
    stored_entry w' (normalizeDSK (JStr s)) = Some stored /\
    status stored =
      (if newLongRange then ProvisioningEntryStatus_Inactive
       else if strict_eq (status (provisioningEntry_of (entry_of data)))
                 (JBool true)
               || strict_eq (status (provisioningEntry_of (entry_of data)))
                    (JS_ "active")
       then ProvisioningEntryStatus_Active
       else ProvisioningEntryStatus_Inactive) /\
    securityClasses stored =
      JArr (securityClassesArray (provisioningEntry_of (entry_of data))).
Proof.
  intros Hopen Hrc Hdrv Haccept Hdsk Hs Hnew.
  destruct (entry_of_get data s Hdsk) as (Hdata & Hentry).
  pose proof (ready_client_inv _ _ _ Hrc) as (_ & _ & Hready).
  destruct (provisionSmartStartNode_stores c drv
              (provisioningEntry_of (entry_of data)) s newLongRange
              Hready Hdrv Haccept Hdsk Hs Hnew)
    as (stored & Hrun & Hkey & Hstatus & Hclasses & Hfound).
  exists stored, (set_provisioningList drv (upsert stored (provisioningList drv))).
  cbv zeta.
  assert (Hrc' :
            ready_client
              (set_outbox
                 (set_heap w
                    (<[r := set_driver c
                              (Some (set_provisioningList drv
                                       (upsert stored (provisioningList drv))))]>
                       (heap w)))
                 (outbox w
                  ++ [with_requestId
                        (reply "PROVISIONING_ENTRY_ADDED" (EntryAdded stored))
                        requestId])) =
            Some (r, set_driver c
                       (Some (set_provisioningList drv
                                (upsert stored (provisioningList drv)))))).
  { apply (ready_client_after_update w r c); [exact Hrc|exact Hready]. }
  split; [|split; [exact Hrc'|split; [exact Haccept|split]]].
  - unfold handleAddProvisioningEntry. run. rewrite Hdata.
    fold (entry_of data). rewrite Hentry, Hdsk.
    assert (Hnot : js_not (JStr s) = false)
      by (destruct s; [contradiction|reflexivity]).
    rewrite Hnot, Hrc, Hrun, Hopen. reflexivity.
  - unfold stored_entry. rewrite Hrc'. exact Hfound.
  - auto.
Qed.

Lemma flag_set_JBool (b : bool) : flag_set (JBool b) = b.
Proof. destruct b; reflexivity. Qed.

(** The array computed from an object-form set of flags and the
    individually named flags holds a class exactly when one of the two
    sets the flag, and holds nothing but the four classes. *)
Lemma securityClassesArray_union (entry : JSValue)
    (fields : list (JSString * JSValue)) :
  prop entry "securityClasses" = JObj fields ->
  let classes := securityClassesArray (provisioningEntry_of entry) in
  (forall n key,
     In (n, key) security_class_flags ->
     includes_num classes n =
     flag_set (prop (JObj fields) key) || flag_set (prop entry key)) /\
  forallb (fun x => existsb (strict_eq x) [JInt 0; JInt 1; JInt 2; JInt 7])
    classes = true.
Proof.
  intros Hsc classes. subst classes.
  unfold securityClassesArray, provisioningEntry_of.
  cbn [securityClasses s2AccessControl s2Authenticated s2Unauthenticated
       s0Legacy].
  rewrite Hsc.
  cbn [truthy is_object_type typeof Array_isArray andb negb].
  rewrite !flag_set_JBool.
  assert (Hcases :
            forall o2 o1 o0 o7 i2 i1 i0 i7 : bool,
              let classes :=
                let a := (if o2 then [JInt 2] else [])
                         ++ (if o1 then [JInt 1] else [])
                         ++ (if o0 then [JInt 0] else [])
                         ++ (if o7 then [JInt 7] else []) in
                let a := if i2 then push_new 2 a else a in
                let a := if i1 then push_new 1 a else a in
                let a := if i0 then push_new 0 a else a in
                if i7 then push_new 7 a else a in
              includes_num classes 2 = o2 || i2 /\
              includes_num classes 1 = o1 || i1 /\
              includes_num classes 0 = o0 || i0 /\
              includes_num classes 7 = o7 || i7 /\
              forallb (fun x => existsb (strict_eq x)
                                  [JInt 0; JInt 1; JInt 2; JInt 7])
                classes = true).
  { intros o2 o1 o0 o7 i2 i1 i0 i7.
    destruct o2, o1, o0, o7, i2, i1, i0, i7; vm_compute; auto. }
  specialize (Hcases (flag_set (prop (JObj fields) "s2AccessControl"))
                (flag_set (prop (JObj fields) "s2Authenticated"))
                (flag_set (prop (JObj fields) "s2Unauthenticated"))
                (flag_set (prop (JObj fields) "s0Legacy"))
                (flag_set (prop entry "s2AccessControl"))
                (flag_set (prop entry "s2Authenticated"))
                (flag_set (prop entry "s2Unauthenticated"))
                (flag_set (prop entry "s0Legacy"))).
  cbv zeta in Hcases. destruct Hcases as (H2 & H1 & H0 & H7 & Hall).
  split; [|exact Hall].
  intros n key Hin. cbn [In security_class_flags] in Hin.
  destruct Hin as [[= <- <-]|[[= <- <-]|[[= <- <-]|[[= <- <-]|[]]]]];
    assumption.
Qed.

(** C2: on a ready driver whose controller accepts the entries, an
    add-entry request for a DSK that has no entry and that lists Long
    Range among the supported protocols stores an inactive entry,
    whatever status it asks for; adding an entry for the same DSK
    again with status [true] stores an active entry (the entry being
    there, the protocols it lists are not consulted). *)
Theorem add_entry_long_range_policy (client : WebSocket)
    (data1 data2 requestId1 requestId2 : JSValue) (w : World) (r : nat)
    (c : ZWaveProvisioningClient) (drv : Driver) (s s2 : JSString) :
  readyState client = 1%N ->
  ready_client w = Some (r, c) ->
  driver c = Some drv ->
  accepts_entries drv ->
  prop (entry_of data1) "dsk" = JStr s -> s <> [] ->
  getProvisioningEntry drv (normalizeDSK (JStr s)) = None ->
  includes_ZWaveLongRange
    (js_or (prop (entry_of data1) "supportedProtocols") (JArr [])) =
  Normal true ->
  prop (entry_of data2) "dsk" = JStr s2 -> s2 <> [] ->
  normalizeDSK (JStr s2) = normalizeDSK (JStr s) ->
  includes_ZWaveLongRange
    (js_or (prop (entry_of data2) "supportedProtocols") (JArr [])) =
  Normal false ->
  prop (entry_of data2) "status" = JBool true ->
  exists stored1 w1 stored2 w2,
    handleAddProvisioningEntry client data1 requestId1 w = (Normal tt, w1) /\
    outbox w1 =
    outbox w
    ++ [with_requestId (reply "PROVISIONING_ENTRY_ADDED" (EntryAdded stored1))
          requestId1] /\
    stored_entry w1 (normalizeDSK (JStr s)) = Some stored1 /\
    active stored1 = false /\
    handleAddProvisioningEntry client data2 requestId2 w1 = (Normal tt, w2) /\
    outbox w2 =
    outbox w1
    ++ [with_requestId (reply "PROVISIONING_ENTRY_ADDED" (EntryAdded stored2))
          requestId2] /\
    stored_entry w2 (normalizeDSK (JStr s)) = Some stored2 /\
    active stored2 = true.
Proof.
  intros Hopen Hrc Hdrv Haccept Hdsk1 Hs Hnew Hlr Hdsk2 Hs2 Hsame _ Hstatus.
  destruct (handleAddProvisioningEntry_stores client data1 requestId1 w r c
              drv s true Hopen Hrc Hdrv Haccept Hdsk1 Hs)
    as (stored1 & drv1 & Hrun1 & Hrc1 & Haccept1 & Hfound1 & Hstatus1 & _).
  { rewrite Hnew. exact Hlr. }
  cbv zeta in Hrun1, Hrc1, Hfound1.
  set (w1 := set_outbox _ _) in Hrun1, Hrc1, Hfound1.
  assert (Hexisting :
            getProvisioningEntry drv1 (normalizeDSK (JStr s2)) = Some stored1).
  { rewrite Hsame. unfold stored_entry in Hfound1. rewrite Hrc1 in Hfound1.
    exact Hfound1. }
  destruct (handleAddProvisioningEntry_stores client data2 requestId2 w1 r
              (set_driver c (Some drv1)) drv1 s2 false Hopen Hrc1 eq_refl
              Haccept1 Hdsk2 Hs2)
    as (stored2 & drv2 & Hrun2 & Hrc2 & _ & Hfound2 & Hstatus2 & _).
  { rewrite Hexisting. reflexivity. }
  cbv zeta in Hrun2, Hrc2, Hfound2.
  exists stored1, w1, stored2. eexists.
  split; [exact Hrun1|]. split; [reflexivity|]. split; [exact Hfound1|].
  split; [unfold active; rewrite Hstatus1; reflexivity|].
  split; [exact Hrun2|]. split; [reflexivity|].
  split; [rewrite <- Hsame; exact Hfound2|].
  unfold active. rewrite Hstatus2.
  unfold provisioningEntry_of. cbn [status]. rewrite Hstatus. reflexivity.
Qed.

(** C3: when an add-entry request carries both an object-form set of
    security-class flags and individually named flags, the stored
    array of security classes includes a class exactly when one of the
    two forms sets its flag ([true] or ["true"]), and nothing but the
    four classes. *)
Theorem security_classes_are_the_union (client : WebSocket)
    (data requestId : JSValue) (w : World) (r : nat)
    (c : ZWaveProvisioningClient) (drv : Driver) (s : JSString)
    (fields : list (JSString * JSValue)) (longRange : bool) :
  readyState client = 1%N ->
  ready_client w = Some (r, c) ->
  driver c = Some drv ->
  accepts_entries drv ->
  prop (entry_of data) "dsk" = JStr s -> s <> [] ->
  includes_ZWaveLongRange
    (js_or (prop (entry_of data) "supportedProtocols") (JArr [])) =
  Normal longRange ->
  prop (entry_of data) "securityClasses" = JObj fields ->
  exists stored classes w',
    handleAddProvisioningEntry client data requestId w = (Normal tt, w') /\
    outbox w' =
    outbox w
    ++ [with_requestId (reply "PROVISIONING_ENTRY_ADDED" (EntryAdded stored))
          requestId] /\
    stored_entry w' (normalizeDSK (JStr s)) = Some stored /\
    securityClasses stored = JArr classes /\
    (forall n key,
       In (n, key) security_class_flags ->
       includes_num classes n =
       flag_set (prop (JObj fields) key)
       || flag_set (prop (entry_of data) key)) /\
    forallb (fun x => existsb (strict_eq x) [JInt 0; JInt 1; JInt 2; JInt 7])
      classes = true.
Proof.
  intros Hopen Hrc Hdrv Haccept Hdsk Hs Hlr Hsc.
  destruct (handleAddProvisioningEntry_stores client data requestId w r c drv s
              (match getProvisioningEntry drv (normalizeDSK (JStr s)) with
               | None => longRange
               | Some _ => false
               end) Hopen Hrc Hdrv Haccept Hdsk Hs)
    as (stored & drv' & Hrun & _ & _ & Hfound & _ & Hclasses).
  { destruct (getProvisioningEntry drv (normalizeDSK (JStr s)));
      [reflexivity|exact Hlr]. }
  cbv zeta in Hrun, Hfound.
  destruct (securityClassesArray_union (entry_of data) fields Hsc)
    as (Hunion & Honly).
  exists stored, (securityClassesArray (provisioningEntry_of (entry_of data))).
  eexists. split; [exact Hrun|]. split; [reflexivity|].
  split; [exact Hfound|]. split; [exact Hclasses|].
  split; [exact Hunion|exact Honly].
Qed.

Lemma ready_driver_accepts : accepts_entries ready_driver.
Proof. intros e. reflexivity. Qed.

Lemma sample_dsk_not_empty : sample_dsk <> [].
Proof. discriminate. Qed.

Lemma add_entry_long_range_policy_witness :
  ready_client ready_world = Some (0%nat, ready_client_object) /\
  prop (entry_of add_long_range) "status" = JBool true /\
  includes_ZWaveLongRange
    (js_or (prop (entry_of add_long_range) "supportedProtocols") (JArr [])) =
  Normal true /\
  includes_ZWaveLongRange
    (js_or (prop (entry_of add_standard) "supportedProtocols") (JArr [])) =
  Normal false /\
  exists stored1 w1 stored2 w2,
    handleAddProvisioningEntry open_socket add_long_range (JS_ "r4")
      ready_world = (Normal tt, w1) /\
    outbox w1 =
    outbox ready_world
    ++ [with_requestId (reply "PROVISIONING_ENTRY_ADDED" (EntryAdded stored1))
          (JS_ "r4")] /\
    stored_entry w1 (normalizeDSK (JStr sample_dsk)) = Some stored1 /\
    active stored1 = false /\
    handleAddProvisioningEntry open_socket add_standard (JS_ "r5") w1 =
    (Normal tt, w2) /\
    outbox w2 =
    outbox w1
    ++ [with_requestId (reply "PROVISIONING_ENTRY_ADDED" (EntryAdded stored2))
          (JS_ "r5")] /\
    stored_entry w2 (normalizeDSK (JStr sample_dsk)) = Some stored2 /\
    active stored2 = true.
Proof.
  split; [reflexivity|]. split; [reflexivity|].
  split; [reflexivity|]. split; [reflexivity|].
  apply (add_entry_long_range_policy open_socket add_long_range add_standard
           (JS_ "r4") (JS_ "r5") ready_world 0%nat ready_client_object
           ready_driver sample_dsk sample_dsk);
    first [ exact ready_driver_accepts
          | exact sample_dsk_not_empty
          | vm_compute; reflexivity ].
Defined.

Lemma security_classes_are_the_union_witness :
  ready_client ready_world = Some (0%nat, ready_client_object) /\
  prop (entry_of add_both_flag_forms) "securityClasses" =
  request [("s2AccessControl", JBool true); ("s2Authenticated", JBool false)] /\
  exists stored classes w',
    handleAddProvisioningEntry open_socket add_both_flag_forms (JS_ "r6")
      ready_world = (Normal tt, w') /\
    stored_entry w' (normalizeDSK (JStr sample_dsk)) = Some stored /\
    securityClasses stored = JArr classes /\
    includes_num classes 2 = true /\
    includes_num classes 1 = true /\
    includes_num classes 0 = false /\
    includes_num classes 7 = false.
Proof.
  split; [reflexivity|]. split; [reflexivity|].
  destruct (security_classes_are_the_union open_socket add_both_flag_forms
              (JS_ "r6") ready_world 0%nat ready_client_object ready_driver
              sample_dsk
              [(str "s2AccessControl", JBool true);
               (str "s2Authenticated", JBool false)] false
              eq_refl eq_refl eq_refl ready_driver_accepts eq_refl
              sample_dsk_not_empty eq_refl eq_refl)
    as (stored & classes & w' & Hrun & _ & Hfound & Hclasses & Hunion & _).
  exists stored, classes, w'.
  split; [exact Hrun|]. split; [exact Hfound|]. split; [exact Hclasses|].
  split; [rewrite (Hunion 2 "s2AccessControl"); [reflexivity|cbn; auto]|].
  split; [rewrite (Hunion 1 "s2Authenticated"); [reflexivity|cbn; auto]|].
  split; [rewrite (Hunion 0 "s2Unauthenticated"); [reflexivity|cbn; auto]|].
  rewrite (Hunion 7 "s0Legacy"); [reflexivity|cbn; auto].
Defined.

(** ** Frames without a type *)

(** A frame that parses to a value other than [null] and has no
    (truthy) [type] is answered with the request-format error, which
    echoes the [requestId] of the frame. *)
Lemma handleMessage_missing_type `{Builtins} (client : WebSocket)
    (message : Message) (data type requestId : JSValue) (w : World) :
  readyState client = 1%N ->
  parsed message = Some data ->
  get data "type" = Normal type ->
  truthy type = false ->
  get data "requestId" = Normal requestId ->
  handleMessage client message w =
  (Normal tt,
   set_outbox w
     (outbox w
      ++ [with_requestId (ERROR (msg "Message must have a 'type' field"))
            requestId])).
Proof.
  intros Hopen Hparsed Htype Hfalsy Hrid.
  unfold handleMessage. run. unfold JSON_parse, js_not.
  rewrite Hparsed, Htype, Hfalsy, Hrid, Hopen. reflexivity.
Qed.

(* ================================================================== *)
(** * Further properties of the sources *)
(* ================================================================== *)

(** ** The DSK normaliser *)

(** The characters of a cleaned DSK: [[0-9A-F]]. *)
Lemma HEX_not_stripped (s : JSString) :
  forallb (fun c => is_digit c || is_upper_hex c) s = true ->
  strip_dashes s = s /\ toUpperCase s = s.
Proof.
  induction s as [|c s IH]; [auto|]. cbn [forallb]. intros Hs.
  apply andb_true_iff in Hs as [Hc Hs]. destruct (IH Hs) as [IH1 IH2].
  assert (Hrange : (48 <= c <= 57 \/ 65 <= c <= 70)%N).
  { unfold is_digit, is_upper_hex in Hc.
    apply orb_true_iff in Hc as [Hc|Hc]; apply andb_true_iff in Hc as [H1 H2];
      apply N.leb_le in H1, H2; lia. }
  split.
  - unfold strip_dashes. cbn [List.filter].
    assert (Hkeep : negb ((c =? 45)%N || is_whitespace c) = true).
    { unfold is_whitespace.
      repeat match goal with
             | |- context [(?a <=? ?b)%N] =>
                 destruct (N.leb_spec a b); try lia
             | |- context [(?a =? ?b)%N] =>
                 destruct (N.eqb_spec a b); try lia
             end; reflexivity. }
    rewrite Hkeep. f_equal. exact IH1.
  - unfold toUpperCase. cbn [flat_map].
    assert (Hcase : ((97 <=? c) && (c <=? 122))%N = false).
    { destruct (N.leb_spec 97 c); [lia|reflexivity]. }
    assert (Hlig : (c =? 64256)%N = false) by (apply N.eqb_neq; lia).
    rewrite Hcase, Hlig. cbn [app]. f_equal. exact IH2.
Qed.

(** Grouping inserts dashes only. *)
Lemma strip_dashes_group5_from (k : nat) (s : JSString) :
  strip_dashes (group5_from k s) = strip_dashes s.
Proof.
  revert k. induction s as [|c s IH]; intros k; [reflexivity|].
  destruct k as [|k]; cbn [group5_from].
  - unfold strip_dashes. cbn [List.filter].
    change (negb ((45 =? 45)%N || is_whitespace 45%N)) with false. cbv iota.
    fold (strip_dashes (group5_from 4 s)). fold (strip_dashes s).
    rewrite IH. reflexivity.
  - unfold strip_dashes. cbn [List.filter].
    fold (strip_dashes (group5_from k s)). fold (strip_dashes s).
    rewrite IH. reflexivity.
Qed.

Lemma cleaned_group5 (c : JSString) :
  forallb (fun c => is_digit c || is_upper_hex c) c = true ->
  toUpperCase (strip_dashes (group5 c)) = c.
Proof.
  intros Hc. unfold group5. rewrite strip_dashes_group5_from.
  destruct (HEX_not_stripped c Hc) as [-> ->]. reflexivity.
Qed.

Lemma digits_are_HEX (s : JSString) :
  forallb is_digit s = true ->
  forallb (fun c => is_digit c || is_upper_hex c) s = true.
Proof.
  induction s as [|c s IH]; [auto|]. cbn [forallb]. intros Hs.
  apply andb_true_iff in Hs as [-> Hs]. rewrite (IH Hs). reflexivity.
Qed.

(** A grouped 40-digit or 32-character DSK is a fixed point. *)
Lemma normalizeDSK_canonical (c : JSString) :
  is_decimal_of_length 40 c || is_HEX_of_length 32 c = true ->
  normalizeDSK (JStr (group5 c)) = JStr (group5 c).
Proof.
  intros Hshape.
  assert (HHEX : forallb (fun c => is_digit c || is_upper_hex c) c = true).
  { apply orb_true_iff in Hshape as [Hd|Hh].
    - apply andb_true_iff in Hd as [_ Hd]. now apply digits_are_HEX.
    - now apply andb_true_iff in Hh as [_ Hh]. }
  unfold normalizeDSK.
  assert (Hne : js_not (JStr (group5 c)) = false).
  { destruct c as [|c0 c]; [discriminate Hshape|reflexivity]. }
  rewrite Hne. cbv zeta. rewrite (cleaned_group5 c HHEX).
  destruct (is_decimal_of_length 40 c); [reflexivity|].
  cbn [orb] in Hshape. rewrite Hshape. reflexivity.
Qed.

Lemma firstn_32_of_HEX_40 (c : JSString) :
  is_HEX_of_length 40 c = true ->
  is_HEX_of_length 32 (substring_first32 c) = true.
Proof.
  unfold is_HEX_of_length, substring_first32. intros Hc.
  apply andb_true_iff in Hc as [Hlen Hc]. apply Nat.eqb_eq in Hlen.
  apply andb_true_iff. split.
  - apply Nat.eqb_eq. rewrite length_firstn. lia.
  - rewrite <- (firstn_skipn 32 c), forallb_app in Hc.
    now apply andb_true_iff in Hc as [Hc _].
Qed.

(** X1. Normalising a DSK twice gives what normalising it once gives,
    for every value: a recognised DSK is brought to a form that the
    normaliser recognises and leaves alone, and every other value is
    returned as it is. *)
Theorem normalizeDSK_idempotent (dsk : JSValue) :
  normalizeDSK (normalizeDSK dsk) = normalizeDSK dsk.
Proof.
  destruct dsk as [| |b|n|s|a|o]; try reflexivity.
  remember (normalizeDSK (JStr s)) as r eqn:Hr.
  unfold normalizeDSK in Hr.
  destruct (js_not (JStr s)) eqn:Hempty.
  { subst r. unfold normalizeDSK. now rewrite Hempty. }
  cbv zeta in Hr. set (cleaned := toUpperCase (strip_dashes s)) in Hr.
  destruct (is_decimal_of_length 40 cleaned) eqn:Hd.
  { subst r. apply normalizeDSK_canonical. now rewrite Hd. }
  destruct (is_HEX_of_length 32 cleaned) eqn:Hh.
  { subst r. apply normalizeDSK_canonical. now rewrite Hh, orb_true_r. }
  destruct (is_HEX_of_length 40 cleaned) eqn:Hh40.
  - rewrite (firstn_32_of_HEX_40 cleaned Hh40) in Hr. subst r.
    apply normalizeDSK_canonical.
    now rewrite (firstn_32_of_HEX_40 cleaned Hh40), orb_true_r.
  - subst r. unfold normalizeDSK. rewrite Hempty. cbv zeta.
    fold cleaned. now rewrite Hd, Hh, Hh40.
Qed.

(** X2. A DSK of 40 hexadecimal characters that are not all decimal
    digits is cut to its first 32 characters: the fallback on the last
    32 characters is never taken, and the original value is never
    returned for such an input. *)
Theorem normalizeDSK_hex40_keeps_prefix (s : JSString) :
  is_HEX_of_length 40 (toUpperCase (strip_dashes s)) = true ->
  is_decimal_of_length 40 (toUpperCase (strip_dashes s)) = false ->
  normalizeDSK (JStr s)
  = JStr (group5 (firstn 32 (toUpperCase (strip_dashes s)))).
Proof.
  intros Hh40 Hd. unfold normalizeDSK.
  assert (Hne : js_not (JStr s) = false).
  { destruct s as [|c0 s]; [discriminate Hh40|reflexivity]. }
  rewrite Hne. cbv zeta. rewrite Hd, Hh40.
  assert (Hh32 : is_HEX_of_length 32 (toUpperCase (strip_dashes s)) = false).
  { unfold is_HEX_of_length in *. apply andb_true_iff in Hh40 as [Hlen _].
    apply Nat.eqb_eq in Hlen. rewrite Hlen. reflexivity. }
  rewrite Hh32, (firstn_32_of_HEX_40 _ Hh40). reflexivity.
Qed.

(** ** Hexadecimal text of a Buffer *)

Lemma hex_digit_lower (n : N) :
  (n < 16)%N ->
  hex_value (hex_digit n) = Some n /\
  is_digit (hex_digit n) || is_lower_hex (hex_digit n) = true.
Proof.
  intros Hn. unfold hex_value, hex_digit, is_digit, is_lower_hex.
  destruct (N.ltb_spec n 10); decide_ranges; cbn [andb orb];
    split; try reflexivity; f_equal; lia.
Qed.

Lemma Buffer_toString_hex_lower (b : Buffer) :
  Forall (fun x => (x < 256)%N) b ->
  forallb (fun c => is_digit c || is_lower_hex c) (Buffer_toString_hex b) = true
  /\ length (Buffer_toString_hex b) = (2 * length b)%nat
  /\ Buffer_from_hex (Buffer_toString_hex b) = b.
Proof.
  induction 1 as [|x b Hx Hb IH]; [repeat split|].
  destruct IH as (IH1 & IH2 & IH3).
  assert (Hhi : (x / 16 < 16)%N) by (apply N.Div0.div_lt_upper_bound; lia).
  assert (Hlo : (x mod 16 < 16)%N) by (apply N.mod_lt; lia).
  destruct (hex_digit_lower _ Hhi) as [Hv1 Hc1].
  destruct (hex_digit_lower _ Hlo) as [Hv2 Hc2].
  unfold Buffer_toString_hex in *. cbn [flat_map app forallb length].
  cbn [Buffer_from_hex].
  rewrite (low_byte_of_hex (hex_digit (x / 16))),
    (low_byte_of_hex (hex_digit (x mod 16)));
    [|unfold is_hex; now rewrite Hc2|unfold is_hex; now rewrite Hc1].
  rewrite Hv1, Hv2, Hc1, Hc2, IH1, IH2, IH3.
  repeat split; [lia|]. f_equal. rewrite (N.div_mod x 16) at 3; lia.
Qed.

Lemma lower_is_hex (s : JSString) :
  forallb (fun c => is_digit c || is_lower_hex c) s = true ->
  forallb is_hex s = true.
Proof.
  induction s as [|c s IH]; [auto|]. cbn [forallb]. intros Hs.
  apply andb_true_iff in Hs as [Hc Hs]. rewrite (IH Hs).
  unfold is_hex. rewrite Hc. reflexivity.
Qed.

Lemma hex_has_no_whitespace (s : JSString) :
  forallb is_hex s = true -> strip_whitespace s = s /\ strip_dashes s = s.
Proof.
  induction s as [|c s IH]; [auto|]. cbn [forallb]. intros Hs.
  apply andb_true_iff in Hs as [Hc Hs]. destruct (IH Hs) as [IH1 IH2].
  assert (Hrange : (48 <= c <= 57 \/ 65 <= c <= 70 \/ 97 <= c <= 102)%N).
  { unfold is_hex, is_digit, is_lower_hex, is_upper_hex in Hc.
    repeat (apply orb_true_iff in Hc as [Hc|Hc]);
      apply andb_true_iff in Hc as [H1 H2]; apply N.leb_le in H1, H2; lia. }
  assert (Hws : is_whitespace c = false).
  { unfold is_whitespace. decide_ranges; reflexivity. }
  unfold strip_whitespace, strip_dashes. cbn [List.filter]. rewrite Hws.
  assert (Hdash : (c =? 45)%N = false) by (apply N.eqb_neq; lia).
  rewrite Hdash. cbn [negb orb].
  fold (strip_whitespace s). fold (strip_dashes s). now rewrite IH1, IH2.
Qed.

(** X3. The hexadecimal text that a send reports for its payload
    ([vendorPayloadHex], [payload.toString("hex")]) is accepted by the
    payload validator and decodes to the same 32 bytes. *)
Theorem hexTo32ByteBuffer_reads_back_reported_payload (payload : Buffer) :
  Forall (fun x => (x < 256)%N) payload ->
  length payload = 32%nat ->
  hexTo32ByteBuffer (JStr (Buffer_toString_hex payload)) = Normal payload.
Proof.
  intros Hbytes Hlen.
  destruct (Buffer_toString_hex_lower payload Hbytes) as (Hlower & Hl & Hback).
  apply lower_is_hex in Hlower.
  destruct (hex_has_no_whitespace _ Hlower) as [Hws _].
  apply hexTo32ByteBuffer_succeeds_iff. rewrite Hws.
  repeat split; [exact Hlower|left; lia|now symmetry].
Qed.

Lemma hexTo32ByteBuffer_reads_back_reported_payload_witness :
  hexTo32ByteBuffer (JStr (Buffer_toString_hex payload32)) = Normal payload32.
Proof.
  apply (hexTo32ByteBuffer_reads_back_reported_payload payload32).
  - unfold payload32. repeat constructor.
  - reflexivity.
Defined.

Lemma normalizeDSK_hex40_keeps_prefix_witness :
  normalizeDSK (JS_ "abcde-abcde-abcde-abcde-abcde-abcde-abcde-abcde")
  = JS_ "ABCDE-ABCDE-ABCDE-ABCDE-ABCDE-ABCDE-AB".
Proof.
  exact (normalizeDSK_hex40_keeps_prefix
           (str "abcde-abcde-abcde-abcde-abcde-abcde-abcde-abcde")
           eq_refl eq_refl).
Defined.

(** ** [dskToString] *)

Lemma toUpperCase_lower_hex (s : JSString) :
  forallb (fun c => is_digit c || is_lower_hex c) s = true ->
  length (toUpperCase s) = length s /\
  forallb (fun c => is_digit c || is_upper_hex c) (toUpperCase s) = true.
Proof.
  induction s as [|c s IH]; [auto|]. cbn [forallb]. intros Hs.
  apply andb_true_iff in Hs as [Hc Hs]. destruct (IH Hs) as [IH1 IH2].
  assert (Hrange : (48 <= c <= 57 \/ 97 <= c <= 102)%N).
  { unfold is_digit, is_lower_hex in Hc.
    apply orb_true_iff in Hc as [Hc|Hc]; apply andb_true_iff in Hc as [H1 H2];
      apply N.leb_le in H1, H2; lia. }
  unfold toUpperCase in *. cbn [flat_map].
  destruct ((97 <=? c) && (c <=? 122))%N eqn:Hcase.
  - cbn [app length forallb]. rewrite IH1, IH2.
    apply andb_true_iff in Hcase as [H1 H2]. apply N.leb_le in H1, H2.
    split; [reflexivity|]. unfold is_digit, is_upper_hex.
    decide_ranges; reflexivity.
  - assert (Hlig : (c =? 64256)%N = false) by (apply N.eqb_neq; lia).
    rewrite Hlig. cbn [app length forallb]. rewrite IH1, IH2.
    split; [reflexivity|].
    assert (Hd : is_digit c = true).
    { unfold is_digit. apply andb_false_iff in Hcase.
      decide_ranges; try reflexivity;
        destruct Hcase as [Hcase|Hcase]; apply N.leb_gt in Hcase; lia. }
    now rewrite Hd.
Qed.

(** X4. [dskToString] of a Buffer fails exactly for the empty Buffer
    (with a TypeError).  For any other Buffer, and for a Uint8Array
    with the same bytes, it yields the lower-case hexadecimal text of
    the bytes, two characters a byte, cut into groups of five that
    are joined by dashes; removing the dashes gives that text back,
    and the bytes can be read back from it. *)
Theorem dskToString_of_buffer (b : Buffer) :
  Forall (fun x => (x < 256)%N) b ->
  (b = [] ->
   LockInfo.dskToString (LockInfo.DskBuffer b) =
   Throw (mkExn TypeError
            (msg "Cannot read properties of null (reading 'join')"))) /\
  (b <> [] ->
   let hex := Buffer_toString_hex b in
   LockInfo.dskToString (LockInfo.DskBuffer b) = Normal (JStr (group5 hex)) /\
   LockInfo.dskToString (LockInfo.DskUint8Array b)
   = Normal (JStr (group5 hex)) /\
   forallb (fun c => is_digit c || is_lower_hex c) hex = true /\
   length hex = (2 * length b)%nat /\
   strip_dashes (group5 hex) = hex /\
   Buffer_from_hex hex = b).
Proof.
  intros Hbytes. split.
  - intros ->. reflexivity.
  - intros Hne hex. subst hex.
    destruct (Buffer_toString_hex_lower b Hbytes) as (Hlower & Hl & Hback).
    assert (Hstrip : strip_dashes (group5 (Buffer_toString_hex b))
                     = Buffer_toString_hex b).
    { unfold group5. rewrite strip_dashes_group5_from.
      now apply hex_has_no_whitespace, lower_is_hex. }
    unfold LockInfo.dskToString, LockInfo.hex_groups.
    destruct (Buffer_toString_hex b) eqn:Hhex.
    + destruct b; [congruence|discriminate Hl].
    + repeat split; assumption.
Qed.

Lemma dskToString_of_buffer_witness :
  LockInfo.dskToString (LockInfo.DskBuffer [0xDE; 0xAD; 0xBE]%N)
  = Normal (JS_ "deadb-e") /\
  Buffer_from_hex (str "deadbe") = [0xDE; 0xAD; 0xBE]%N.
Proof.
  destruct (dskToString_of_buffer [0xDE; 0xAD; 0xBE]%N) as [_ H].
  - repeat constructor.
  - destruct H as (Hbuffer & _ & _ & _ & _ & Hback); [discriminate|].
    split; [exact Hbuffer|exact Hback].
Defined.

(** X5. The lock's text of a 16-byte DSK is recognised by the client's
    normaliser, which keeps the grouping and changes the hexadecimal
    letters to upper case. *)
Theorem normalizeDSK_of_dskToString (b : Buffer) :
  Forall (fun x => (x < 256)%N) b ->
  length b = 16%nat ->
  exists s,
    LockInfo.dskToString (LockInfo.DskBuffer b) = Normal (JStr s) /\
    normalizeDSK (JStr s)
    = JStr (group5 (toUpperCase (Buffer_toString_hex b))).
Proof.
  intros Hbytes Hlen.
  destruct (Buffer_toString_hex_lower b Hbytes) as (Hlower & Hl & _).
  exists (group5 (Buffer_toString_hex b)). split.
  - unfold LockInfo.dskToString, LockInfo.hex_groups.
    destruct (Buffer_toString_hex b); [now rewrite Hlen in Hl|reflexivity].
  - destruct (toUpperCase_lower_hex _ Hlower) as [Hlu HHEX].
    unfold normalizeDSK.
    assert (Hne : js_not (JStr (group5 (Buffer_toString_hex b))) = false).
    { destruct (Buffer_toString_hex b); [now rewrite Hlen in Hl|reflexivity]. }
    rewrite Hne. cbv zeta.
    replace (strip_dashes (group5 (Buffer_toString_hex b)))
      with (Buffer_toString_hex b).
    2:{ unfold group5. rewrite strip_dashes_group5_from. symmetry.
        now apply hex_has_no_whitespace, lower_is_hex. }
    assert (Hd : is_decimal_of_length 40 (toUpperCase (Buffer_toString_hex b))
                 = false).
    { unfold is_decimal_of_length. now rewrite Hlu, Hl, Hlen. }
    assert (Hh : is_HEX_of_length 32 (toUpperCase (Buffer_toString_hex b))
                 = true).
    { unfold is_HEX_of_length. now rewrite Hlu, Hl, Hlen, HHEX. }
    now rewrite Hd, Hh.
Qed.

Lemma normalizeDSK_of_dskToString_witness :
  exists s,
    LockInfo.dskToString (LockInfo.DskBuffer (repeat 0xAB%N 16))
    = Normal (JStr s) /\
    normalizeDSK (JStr s) = JS_ "ABABA-BABAB-ABABA-BABAB-ABABA-BABAB-AB".
Proof.
  destruct (normalizeDSK_of_dskToString (repeat 0xAB%N 16)) as (s & Hs & Hn).
  - repeat constructor.
  - reflexivity.
  - exists s. split; [exact Hs|exact Hn].
Defined.

(** ** Security keys *)

Import SecurityKeys.

Lemma hex_value_Some (c : codeunit) (v : N) :
  hex_value c = Some v -> is_hex c = true.
Proof.
  unfold hex_value, is_hex.
  destruct (is_digit c); [reflexivity|].
  destruct (is_lower_hex c); [reflexivity|].
  destruct (is_upper_hex c); [reflexivity|discriminate].
Qed.

(** Decoding stops at the first pair whose low bytes are not both
    hexadecimal digits. *)
Lemma Buffer_from_hex_full (s : JSString) :
  Nat.even (length s) = true ->
  length (Buffer_from_hex s) = Nat.div2 (length s) ->
  forallb (fun c => is_hex (low_byte c)) s = true.
Proof.
  induction s as [|a|a b s IH] using pairs_ind; [reflexivity|discriminate|].
  cbn [length Nat.even Nat.div2 Buffer_from_hex forallb]. intros Heven.
  destruct (hex_value (low_byte a)) as [x|] eqn:Ha; [|discriminate].
  destruct (hex_value (low_byte b)) as [y|] eqn:Hb; [|discriminate].
  cbn [length]. intros Hlen.
  rewrite (hex_value_Some _ x Ha), (hex_value_Some _ y Hb).
  apply IH; [exact Heven|lia].
Qed.

Lemma Buffer_from_hex_low_bytes (s : JSString) :
  forallb (fun c => is_hex (low_byte c)) s = true ->
  length (Buffer_from_hex s) = Nat.div2 (length s).
Proof.
  induction s as [|a|a b s IH] using pairs_ind; intros Hs;
    [reflexivity|reflexivity|].
  cbn [forallb] in Hs.
  apply andb_true_iff in Hs as [Ha Hs].
  apply andb_true_iff in Hs as [Hb Hs].
  destruct (hex_value_is_hex _ Ha) as [x Hx].
  destruct (hex_value_is_hex _ Hb) as [y Hy].
  cbn [Buffer_from_hex]. rewrite Hx, Hy. cbn [length Nat.div2].
  f_equal. apply IH. exact Hs.
Qed.

Lemma key_decodes_iff (s : JSString) :
  length s = 32%nat ->
  (length (Buffer_from_hex s) =? 16)%nat
  = forallb (fun c => is_hex (low_byte c)) s.
Proof.
  intros Hlen. destruct (forallb (fun c => is_hex (low_byte c)) s) eqn:Hhex.
  - apply Nat.eqb_eq. rewrite (Buffer_from_hex_low_bytes s Hhex), Hlen.
    reflexivity.
  - apply Nat.eqb_neq. intros H16.
    rewrite Buffer_from_hex_full in Hhex; [discriminate| |];
      rewrite Hlen; [reflexivity|exact H16].
Qed.

Lemma buffers_get_set (buffers : Buffers) (key key' : JSString) (b : Buffer) :
  buffers_get (buffers_set buffers key b) key' =
  if streq key key' then Some b else buffers_get buffers key'.
Proof.
  induction buffers as [|[k v] rest IH]; unfold buffers_get in *.
  - cbn [buffers_set find fst snd]. now destruct (streq key key').
  - cbn [buffers_set]. destruct (streq k key) eqn:Hk.
    + apply streq_eq in Hk. subst k. cbn [find fst snd].
      now destruct (streq key key').
    + cbn [find fst snd]. destruct (streq k key') eqn:Hk'.
      * destruct (streq key key') eqn:Hkk; [|reflexivity].
        apply streq_eq in Hk', Hkk. subst. now rewrite streq_refl in Hk.
      * exact IH.
Qed.

Lemma streq_false (a b : JSString) : a <> b -> streq a b = false.
Proof.
  intros Hne. destruct (streq a b) eqn:H; [|reflexivity].
  now apply streq_eq in H.
Qed.

Lemma convertSecurityKeys_from_get (entries : list (JSString * JSValue)) :
  forall buffers : Buffers,
    List.NoDup (map fst entries) ->
    (forall k, In k (map fst entries) -> buffers_get buffers k = None) ->
    forall key b,
      buffers_get (convertSecurityKeys_from entries buffers) key = Some b <->
      buffers_get buffers key = Some b \/
      exists s, In (key, JStr s) entries /\ length s = 32%nat /\
                forallb (fun c => is_hex (low_byte c)) s = true /\ b = Buffer_from_hex s.
Proof.
  induction entries as [|[key0 value] rest IH]; intros buffers Hnodup Hfresh key b.
  - cbn [convertSecurityKeys_from]. split; [auto|].
    intros [H|(s & [] & _)]. exact H.
  - cbn [map fst] in Hnodup, Hfresh. inversion Hnodup as [|? ? Hnotin Hrest]; subst.
    cbn [convertSecurityKeys_from].
    set (buffers' := match value with JStr s => _ | _ => buffers end).
    assert (Hstep : forall k v,
               buffers_get buffers' k = Some v <->
               buffers_get buffers k = Some v \/
               exists s, (key0, value) = (k, JStr s) /\ length s = 32%nat /\
                         forallb (fun c => is_hex (low_byte c)) s = true /\ v = Buffer_from_hex s).
    { intros k v. subst buffers'.
      destruct value as [| |x|x|s|x|x];
        try (split; [auto|]; intros [H|(s' & Heq & _)];
             [exact H|discriminate Heq]).
      destruct (truthy (JStr s) && (length s =? 32)%nat) eqn:Htest.
      - apply andb_true_iff in Htest as [_ Hlen]. apply Nat.eqb_eq in Hlen.
        rewrite (key_decodes_iff s Hlen).
        destruct (forallb (fun c => is_hex (low_byte c)) s) eqn:Hhex.
        + rewrite buffers_get_set. destruct (streq key0 k) eqn:Hk.
          * apply streq_eq in Hk. subst k. split.
            -- intros [= <-]. right. now exists s.
            -- intros [H|(s' & [= <-] & _ & _ & ->)]; [|reflexivity].
               rewrite Hfresh in H; [discriminate|now left].
          * split; [auto|]. intros [H|(s' & [= <- _] & _)]; [exact H|].
            now rewrite streq_refl in Hk.
        + split; [auto|]. intros [H|(s' & [= _ <-] & _ & Hhex' & _)];
            [exact H|congruence].
      - split; [auto|]. intros [H|(s' & [= _ <-] & Hlen & _)]; [exact H|].
        apply andb_false_iff in Htest as [Ht|Ht].
        + destruct s; [discriminate Hlen|discriminate Ht].
        + apply Nat.eqb_neq in Ht. contradiction. }
    rewrite IH; [|exact Hrest|].
    + rewrite Hstep. split.
      * intros [[H|(s & [= <- ->] & Hs)]|(s & Hin & Hs)]; [now left| |].
        -- right. exists s. split; [now left|exact Hs].
        -- right. exists s. split; [now right|exact Hs].
      * intros [H|(s & [[= <- ->]|Hin] & Hs)]; [now left; left| |].
        -- left. right. now exists s.
        -- right. now exists s.
    + intros k Hk. destruct (buffers_get buffers' k) as [v|] eqn:Hget;
        [|reflexivity].
      apply Hstep in Hget as [Hget|(s & Heq & _)].
      * rewrite Hfresh in Hget; [discriminate|now right].
      * inversion Heq; subst. contradiction.
Qed.

(** X6. After conversion a key name holds a Buffer exactly when its
    configured value is a string of exactly 32 code units each of
    which has a hexadecimal digit for its low byte, and the Buffer is
    the 16 bytes that these low bytes spell.  So every string of 32
    hexadecimal characters is kept, and so is a string of 32 other
    characters with such low bytes (U+0430 reads as the digit 0);
    every other value (a shorter or longer string, one with white
    space, a value that is not a string) is dropped without an
    error. *)
Theorem convertSecurityKeys_keeps_well_formed_keys
    (keys : list (JSString * JSValue)) (name : JSString) (b : Buffer) :
  List.NoDup (map fst keys) ->
  (buffers_get (convertSecurityKeys keys) name = Some b <->
   exists s, In (name, JStr s) keys /\ length s = 32%nat /\
             forallb (fun c => is_hex (low_byte c)) s = true /\
             b = Buffer_from_hex s) /\
  (buffers_get (convertSecurityKeys keys) name = Some b -> length b = 16%nat).
Proof.
  intros Hnodup.
  assert (Hiff := convertSecurityKeys_from_get keys [] Hnodup
                    (fun _ _ => eq_refl) name b).
  fold (convertSecurityKeys keys) in Hiff.
  assert (Hvalid : buffers_get (convertSecurityKeys keys) name = Some b <->
                   exists s, In (name, JStr s) keys /\ length s = 32%nat /\
                             forallb (fun c => is_hex (low_byte c)) s = true /\
                             b = Buffer_from_hex s).
  { rewrite Hiff. split; [intros [H|H]; [discriminate H|exact H]|now right]. }
  split; [exact Hvalid|].
  intros Hget. apply Hvalid in Hget as (s & _ & Hlen & Hhex & ->).
  rewrite (Buffer_from_hex_low_bytes s Hhex), Hlen. reflexivity.
Qed.

Lemma convertSecurityKeys_keeps_well_formed_keys_witness :
  buffers_get
    (convertSecurityKeys
       [(str "S2_AccessControl", JS_ "00112233445566778899aabbccddeeff");
        (str "S2_Authenticated", JS_ "00112233445566778899aabbccddee");
        (str "S2_Unauthenticated", JStr (repeat 1072%N 32));
        (str "S0_Legacy", JS_ "0011223344556677 8899aabbccddeef")])
    (str "S2_Unauthenticated")
  = Some (Buffer_from_hex (repeat 1072%N 32)).
Proof.
  apply (convertSecurityKeys_keeps_well_formed_keys
           [(str "S2_AccessControl", JS_ "00112233445566778899aabbccddeeff");
            (str "S2_Authenticated", JS_ "00112233445566778899aabbccddee");
            (str "S2_Unauthenticated", JStr (repeat 1072%N 32));
            (str "S0_Legacy", JS_ "0011223344556677 8899aabbccddeef")]
           (str "S2_Unauthenticated")
           (Buffer_from_hex (repeat 1072%N 32))).
  - vm_compute. repeat constructor; cbn; intuition discriminate.
  - exists (repeat 1072%N 32).
    repeat split. right. right. now left.
Defined.

Lemma grant_from_filter (securityKeys : Buffers) (requested granted : list JSNum) :
  grant_from securityKeys requested granted =
  granted ++
  List.filter (fun c => match securityClassToKey c with
                        | Some keyName =>
                            match buffers_get securityKeys keyName with
                            | Some _ => true
                            | None => false
                            end
                        | None => false
                        end) requested.
Proof.
  revert granted. induction requested as [|c rest IH]; intros granted.
  - cbn [grant_from List.filter]. now rewrite app_nil_r.
  - cbn [grant_from List.filter]. rewrite IH.
    destruct (securityClassToKey c) as [keyName|]; [|reflexivity].
    destruct (buffers_get securityKeys keyName); [|reflexivity].
    now rewrite <- app_assoc.
Qed.

Lemma filter_sublist_of (A : Type) (f : A -> bool) (l : list A) :
  sublist (List.filter f l) l.
Proof.
  induction l as [|x l IH]; [constructor|]. cbn [List.filter].
  destruct (f x); now constructor.
Qed.

(** X7. During S2 bootstrapping a security class is granted exactly
    when the device requested it, it is one of the classes 0, 1, 2, 7
    and the key configured under that class's name is a string of
    exactly 32 code units whose low bytes are hexadecimal digits (32
    hexadecimal characters, or 32 other characters with such low
    bytes).  The granted classes keep the order of the request, and
    client-side authentication is never granted. *)
Theorem grantSecurityClasses_grants_classes_with_a_key
    (keys : list (JSString * JSValue)) (requested : list JSNum) (c : JSNum) :
  List.NoDup (map fst keys) ->
  let granted :=
    grantSecurityClasses (convertSecurityKeys keys) (Some requested) in
  clientSideAuth granted = false /\
  sublist (granted_securityClasses granted) requested /\
  (In c (granted_securityClasses granted) <->
   In c requested /\
   exists keyName s,
     securityClassToKey c = Some keyName /\
     In (keyName, JStr s) keys /\ length s = 32%nat /\
     forallb (fun u => is_hex (low_byte u)) s = true) /\
  (In c (granted_securityClasses granted) ->
   existsb (num_eq c) (map num_of_Z [0; 1; 2; 7]) = true).
Proof.
  intros Hnodup granted. subst granted.
  unfold grantSecurityClasses. cbn [clientSideAuth granted_securityClasses].
  rewrite grant_from_filter. cbn [app].
  split; [reflexivity|]. split; [apply filter_sublist_of|].
  rewrite filter_In.
  assert (Hkey : forall keyName,
             (exists b, buffers_get (convertSecurityKeys keys) keyName = Some b)
             <-> exists s, In (keyName, JStr s) keys /\ length s = 32%nat /\
                           forallb (fun c => is_hex (low_byte c)) s = true).
  { intros keyName. split.
    - intros [b Hb].
      apply (convertSecurityKeys_from_get keys [] Hnodup (fun _ _ => eq_refl))
        in Hb as [Hb|(s & Hin & Hlen & Hhex & _)]; [discriminate Hb|].
      now exists s.
    - intros (s & Hin & Hlen & Hhex). exists (Buffer_from_hex s).
      apply (convertSecurityKeys_from_get keys [] Hnodup (fun _ _ => eq_refl)).
      right. now exists s. }
  split.
  - split.
    + intros [Hin Htest]. split; [exact Hin|].
      destruct (securityClassToKey c) as [keyName|]; [|discriminate].
      destruct (buffers_get (convertSecurityKeys keys) keyName) as [b|] eqn:Hb;
        [|discriminate].
      destruct (proj1 (Hkey keyName)) as (s & Hs); [now exists b|].
      now exists keyName, s.
    + intros [Hin (keyName & s & -> & Hs)]. split; [exact Hin|].
      destruct (proj2 (Hkey keyName)) as [b ->]; [now exists s|reflexivity].
  - intros [_ Htest]. unfold securityClassToKey in Htest.
    cbn [existsb map].
    destruct (num_eq c (num_of_Z 0)); [reflexivity|].
    destruct (num_eq c (num_of_Z 1)); [reflexivity|].
    destruct (num_eq c (num_of_Z 2)); [reflexivity|].
    destruct (num_eq c (num_of_Z 7)); [reflexivity|discriminate].
Qed.

Lemma grantSecurityClasses_grants_classes_with_a_key_witness :
  In (num_of_Z 0)
    (granted_securityClasses
       (grantSecurityClasses
          (convertSecurityKeys
             [(str "S2_AccessControl", JS_ "00112233445566778899aabbccddeeff");
              (str "S2_Unauthenticated", JStr (repeat 1072%N 32));
              (str "S0_Legacy", JS_ "0011")])
          (Some (map num_of_Z [7; 2; 1; 0])))) /\
  granted_securityClasses
    (grantSecurityClasses
       (convertSecurityKeys
          [(str "S2_AccessControl", JS_ "00112233445566778899aabbccddeeff");
           (str "S2_Unauthenticated", JStr (repeat 1072%N 32));
           (str "S0_Legacy", JS_ "0011")])
       (Some (map num_of_Z [7; 2; 1; 0])))
  = map num_of_Z [2; 0].
Proof.
  split; [|reflexivity].
  destruct (grantSecurityClasses_grants_classes_with_a_key
              [(str "S2_AccessControl", JS_ "00112233445566778899aabbccddeeff");
               (str "S2_Unauthenticated", JStr (repeat 1072%N 32));
               (str "S0_Legacy", JS_ "0011")]
              (map num_of_Z [7; 2; 1; 0]) (num_of_Z 0)) as (_ & _ & Hiff & _).
  - vm_compute. repeat constructor; cbn; intuition discriminate.
  - apply Hiff. split; [cbn; auto|].
    exists (str "S2_Unauthenticated"), (repeat 1072%N 32).
    repeat split. right. now left.
Defined.

(** ** Bounds of the custom sender *)

Lemma send_frames_bounded (ccMP : SendData) (m : JSNum) (p : Buffer)
    (count : JSNum) (mk : nat -> JSValue -> Z -> FrameResult) :
  (forall k, num_lt (num_of_nat k) count = true -> (k < 100)%nat) ->
  forall fuel i results node,
    (100 - i < fuel)%nat ->
    exists outcome n,
      send_frames fuel ccMP m p count mk i results node =
      (outcome, set_frames node (node_frames node ++ repeat (m, p) n)) /\
      outcome <> OutOfFuel /\ (n <= 100 - i)%nat.
Proof.
  intros Hbound. induction fuel as [|fuel IH]; intros i results node Hfuel;
    [lia|].
  cbn [send_frames]. destruct (num_lt (num_of_nat i) count) eqn:Hlt.
  - apply Hbound in Hlt.
    destruct (ccMP m p (length (node_frames node))) as [r d|e d].
    + destruct (IH (S i) (results ++ [mk (S i) r d])
                  (set_frames node (node_frames node ++ [(m, p)])))
        as (outcome & n & Hrun & Hout & Hn); [lia|].
      exists outcome, (S n). rewrite Hrun. split; [|split; [exact Hout|lia]].
      rewrite node_frames_set_frames, set_frames_set_frames, <- app_assoc.
      reflexivity.
    + exists (Throw e), 1%nat. repeat split; [discriminate|lia].
  - exists (Normal results), 0%nat. cbn [repeat].
    rewrite app_nil_r, set_frames_same. repeat split; [discriminate|lia].
Qed.

Lemma frames_of_nodes_put (drv : Driver) (nodeId : JSNum)
    (node node' : ZWaveNode) :
  nodes_get (nodes drv) nodeId = Some node ->
  frames_of (Some drv) nodeId = node_frames node /\
  frames_of (Some (nodes_put drv nodeId node')) nodeId = node_frames node'.
Proof.
  unfold frames_of, nodes_put, nodes_get. destruct nodeId as [| |q];
    try discriminate.
  destruct (q_is_integer q); [|discriminate]. intros Hnode.
  rewrite Hnode. cbn [nodes set_nodes]. now rewrite lookup_insert_eq.
Qed.

Lemma sender_bounded
    (context : Context) (nodeId : option JSNum) (vendorPayload : option Buffer)
    (manufacturerId count : option JSNum) :
  let run :=
    sendManufacturerProprietaryCustom context nodeId vendorPayload
      manufacturerId count in
  let target := default (num_of_Z 2) nodeId in
  fst run <> OutOfFuel /\
  exists n one,
    (n <= 100)%nat /\
    frames_of (snd run) target =
    frames_of (ctx_driver context) target ++ repeat one n.
Proof.
  intros run target. subst run. unfold sendManufacturerProprietaryCustom.
  fold target. cbv zeta.
  assert (Hnone : forall (e : Exn) (d : option Driver),
             fst (@Throw SendResult e, d) <> OutOfFuel /\
             exists n (one : JSNum * Buffer),
               (n <= 100)%nat /\
               frames_of d target = frames_of d target ++ repeat one n).
  { intros e d. split; [discriminate|].
    exists 0%nat, (NaN, []). cbn [repeat]. rewrite app_nil_r.
    split; [lia|reflexivity]. }
  destruct (ctx_driver context) as [drv|]; [|apply Hnone].
  destruct (if ctx_driverReady context then None
            else ctx_waitForDriverReady context); [apply Hnone|].
  destruct vendorPayload as [payload|]; [|apply Hnone].
  destruct (negb (length payload =? 32)%nat); [apply Hnone|].
  destruct (nodes_get (nodes drv) target) as [node|] eqn:Hnode; [|apply Hnone].
  destruct (negb (node_ready node)); [apply Hnone|].
  destruct (frames_of_nodes_put drv target node
              (forceManufacturerProprietarySupport node) Hnode) as [Hold Hforced].
  destruct (node_commandClasses_MP (forceManufacturerProprietarySupport node))
    as [ccMP|].
  - destruct (send_frames_bounded (sendData ccMP)
                (default (num_of_Z 0) manufacturerId) payload
                (clamp_count (default (num_of_Z 1) count))
                (fun n result _ => mkFrameResult n result None)
                (fun k => below_clamped_count k _)
                loop_bound 0 [] (forceManufacturerProprietarySupport node))
      as (outcome & n & Hrun & Hout & Hn); [unfold loop_bound; lia|].
    rewrite Hrun. cbn [fst snd]. split.
    + destruct outcome; [discriminate|discriminate|congruence].
    + exists n, (default (num_of_Z 0) manufacturerId, payload).
      split; [lia|]. rewrite Hold.
      destruct (frames_of_nodes_put drv target node
                  (set_frames (forceManufacturerProprietarySupport node)
                     (node_frames (forceManufacturerProprietarySupport node)
                      ++ repeat (default (num_of_Z 0) manufacturerId, payload) n))
                  Hnode) as [_ ->].
      now rewrite node_frames_set_frames, force_keeps_frames.
  - cbn [fst snd]. split; [discriminate|].
    exists 0%nat, (NaN, []). cbn [repeat].
    rewrite Hold, Hforced, force_keeps_frames, app_nil_r.
    split; [lia|reflexivity].
Qed.

(** X8. Whatever the count (an integer, a fraction, NaN, an infinity)
    and however the device answers, one call of the custom sender
    finishes, hands the node at most 100 frames, all of them the same
    frame, and leaves the frames that were handed before in place. *)
Theorem sendManufacturerProprietaryCustom_sends_at_most_100_frames
    (context : Context) (nodeId : option JSNum) (vendorPayload : option Buffer)
    (manufacturerId count : option JSNum) :
  let run :=
    sendManufacturerProprietaryCustom context nodeId vendorPayload
      manufacturerId count in
  let target := default (num_of_Z 2) nodeId in
  fst run <> OutOfFuel /\
  exists n one,
    (n <= 100)%nat /\
    frames_of (snd run) target =
    frames_of (ctx_driver context) target ++ repeat one n.
Proof.
  apply sender_bounded.
Qed.

(** ** [sendRandom] *)

Import LockRandom.




(** ** Inbound traffic through the interceptor *)

Import Traffic.

Lemma handleCommands_intercepting (nodeId : Z) (result : Command -> JSValue)
    (commands : list Command) :
  forall bus,
    handleCommands (Intercepting nodeId (Native result)) commands bus =
    mkBus
      (emitted bus
       ++ map (Lock.commandData nodeId)
            (List.filter Lock.isManufacturerProprietary commands))
      (delivered bus
       ++ List.filter (fun c => negb (Lock.isManufacturerProprietary c))
            commands).
Proof.
  unfold handleCommands.
  induction commands as [|c commands IH]; intros bus.
  - cbn [fold_left List.filter map]. rewrite !app_nil_r. now destruct bus.
  - cbn [fold_left List.filter Lock.handleCommand]. rewrite IH.
    destruct (Lock.isManufacturerProprietary c);
      cbn [snd negb map emitted delivered]; now rewrite <- app_assoc.
Qed.

(** X10. Once the interceptor is installed over the library's handler,
    a sequence of inbound commands is split in two without loss: the
    vendor-class commands (by class id, by [instanceof] or by
    constructor name) are published as events, in order and once
    each, and all the others reach the library's handler, in order. *)
Theorem interceptor_partitions_traffic (l : Lock.ZWaveLock)
    (result : Command -> JSValue) (commands : list Command) (bus : Bus) :
  node_handleCommand (Lock.node l) = Some (Native result) ->
  node_mpHandlerAttached (Lock.node l) = false ->
  exists installed,
    node_handleCommand
      (Lock.node (Lock.setupManufacturerProprietaryCommandHandler l))
    = Some installed /\
    handleCommands installed commands bus =
    mkBus
      (emitted bus
       ++ map (Lock.commandData (Lock.lock_nodeId l))
            (List.filter Lock.isManufacturerProprietary commands))
      (delivered bus
       ++ List.filter (fun c => negb (Lock.isManufacturerProprietary c))
            commands).
Proof.
  intros Hhandler Hflag.
  unfold Lock.setupManufacturerProprietaryCommandHandler.
  rewrite Hhandler, Hflag. cbn [Lock.node Lock.set_node node_handleCommand set_handler].
  eexists. split; [reflexivity|]. apply handleCommands_intercepting.
Qed.

Lemma interceptor_partitions_traffic_witness :
  exists installed,
    node_handleCommand
      (Lock.node (Lock.setupManufacturerProprietaryCommandHandler sample_lock))
    = Some installed /\
    handleCommands installed
      [basic_command; vendor_command; basic_command; vendor_command] empty_bus
    = mkBus [Lock.commandData 2 vendor_command; Lock.commandData 2 vendor_command]
        [basic_command; basic_command].
Proof.
  exact (interceptor_partitions_traffic sample_lock (fun _ => JBool true)
           [basic_command; vendor_command; basic_command; vendor_command]
           empty_bus eq_refl eq_refl).
Defined.

(** ** Preparing the nodes *)

Lemma force_idempotent (node : ZWaveNode) :
  forceManufacturerProprietarySupport
    (forceManufacturerProprietarySupport node) =
  forceManufacturerProprietarySupport node.
Proof.
  unfold forceManufacturerProprietarySupport.
  destruct (node_addCC node) eqn:HaddCC; cbn [negb].
  - destruct (existsb (Z.eqb CC_ManufacturerProprietary) (node_supported node))
      eqn:Hsupported; cbn [negb].
    + now rewrite HaddCC, Hsupported.
    + cbn [node_addCC set_supported node_supported existsb].
      rewrite HaddCC, Z.eqb_refl. reflexivity.
  - now rewrite HaddCC.
Qed.

Lemma prepare_idempotent (node : ZWaveNode) :
  let prepare n :=
    setupManufacturerProprietaryCommandHandler
      (forceManufacturerProprietarySupport n) in
  prepare (prepare node) = prepare node.
Proof.
  cbv beta zeta.
  set (forced := forceManufacturerProprietarySupport node).
  assert (Hforced : forceManufacturerProprietarySupport forced = forced)
    by apply force_idempotent.
  destruct (node_handleCommand forced) as [current|] eqn:Hcurrent.
  - destruct (node_mpHandlerAttached forced) eqn:Hattached.
    + assert (Hsame : setupManufacturerProprietaryCommandHandler forced = forced).
      { unfold setupManufacturerProprietaryCommandHandler.
        now rewrite Hcurrent, Hattached. }
      now rewrite Hsame, Hforced, Hsame.
    + assert (Hwrap : setupManufacturerProprietaryCommandHandler forced
                      = set_handler forced
                          (Intercepting (node_id forced) current) true).
      { unfold setupManufacturerProprietaryCommandHandler.
        now rewrite Hcurrent, Hattached. }
      assert (Hkeep : forceManufacturerProprietarySupport
                        (set_handler forced
                           (Intercepting (node_id forced) current) true)
                      = set_handler forced
                          (Intercepting (node_id forced) current) true).
      { unfold forceManufacturerProprietarySupport in *.
        cbn [node_addCC set_handler node_supported].
        destruct (node_addCC forced); cbn [negb] in *; [|reflexivity].
        destruct (existsb (Z.eqb CC_ManufacturerProprietary)
                    (node_supported forced)); cbn [negb] in *; [reflexivity|].
        apply (f_equal node_supported) in Hforced.
        cbn [node_supported set_supported] in Hforced.
        apply (f_equal (@length Z)) in Hforced. cbn [length] in Hforced. lia. }
      rewrite Hwrap, Hkeep. reflexivity.
  - assert (Hsame : setupManufacturerProprietaryCommandHandler forced = forced).
    { unfold setupManufacturerProprietaryCommandHandler. now rewrite Hcurrent. }
    now rewrite Hsame, Hforced, Hsame.
Qed.

(** X11. The client prepares a node by registering class 0x91 and
    wrapping its handler, for the nodes present when the driver gets
    ready and again for a node that is added.  Preparing a node twice
    is preparing it once: the handler is wrapped once and the class is
    listed once; after it a node with [addCC] supports class 0x91 and
    a node with a handler carries the attached mark. *)
Theorem node_is_prepared_once (node : ZWaveNode) :
  let prepare n :=
    setupManufacturerProprietaryCommandHandler
      (forceManufacturerProprietarySupport n) in
  prepare (prepare node) = prepare node /\
  (node_addCC node = true ->
   In CC_ManufacturerProprietary (node_supported (prepare node))) /\
  (node_handleCommand node <> None ->
   node_mpHandlerAttached (prepare node) = true).
Proof.
  intros prepare. split; [apply prepare_idempotent|]. subst prepare.
  cbv beta. unfold setupManufacturerProprietaryCommandHandler.
  assert (Hhandler : node_handleCommand
                       (forceManufacturerProprietarySupport node)
                     = node_handleCommand node).
  { unfold forceManufacturerProprietarySupport.
    destruct (negb (node_addCC node)); [reflexivity|].
    now destruct (negb _). }
  assert (Hsupported : node_addCC node = true ->
                       In CC_ManufacturerProprietary
                         (node_supported
                            (forceManufacturerProprietarySupport node))).
  { intros HaddCC. unfold forceManufacturerProprietarySupport.
    rewrite HaddCC. cbn [negb].
    destruct (existsb (Z.eqb CC_ManufacturerProprietary) (node_supported node))
      eqn:Hexists; cbn [negb].
    - apply existsb_exists in Hexists as (x & Hin & Heq).
      apply Z.eqb_eq in Heq. now subst x.
    - now left. }
  rewrite Hhandler. split.
  - intros HaddCC. specialize (Hsupported HaddCC).
    destruct (node_handleCommand node); [|exact Hsupported].
    now destruct (node_mpHandlerAttached
                    (forceManufacturerProprietarySupport node)).
  - intros Hsome. destruct (node_handleCommand node) as [h|]; [|congruence].
    now destruct (node_mpHandlerAttached
                    (forceManufacturerProprietarySupport node)) eqn:Hattached.
Qed.

Lemma node_is_prepared_once_witness :
  In CC_ManufacturerProprietary
    (node_supported
       (setupManufacturerProprietaryCommandHandler
          (forceManufacturerProprietarySupport (sample_node 2 accepting)))) /\
  node_mpHandlerAttached
    (setupManufacturerProprietaryCommandHandler
       (forceManufacturerProprietarySupport (sample_node 2 accepting))) = true.
Proof.
  destruct (node_is_prepared_once (sample_node 2 accepting))
    as (_ & Hsupported & Hattached).
  split; [apply Hsupported; reflexivity|apply Hattached; discriminate].
Defined.

(** ** One reply for every request *)

Import Conversation.

Section Replies.
Context `{Builtins}.
Variables (client : WebSocket) (requestId : JSValue).
Hypothesis client_open : readyState client = 1%N.

Lemma orderly_send (r : Response) : orderly requestId (sendResponse client requestId r).
Proof.
  intros w. left. exists r. unfold sendResponse, sendToClient.
  rewrite client_open. cbn. auto.
Qed.

Lemma orderly_lift {A} (c : Completion A) (k : A -> M unit) :
  c <> OutOfFuel ->
  (forall a, orderly requestId (k a)) ->
  orderly requestId (bind (lift c) k).
Proof.
  intros Hc Hk w. unfold bind, lift. destruct c as [a|e|]; [apply Hk| |congruence].
  right. now exists e.
Qed.

Lemma orderly_world (k : World -> M unit) :
  (forall w, orderly requestId (k w)) -> orderly requestId (bind get_world k).
Proof. intros Hk w. unfold bind, get_world. apply Hk. Qed.

Lemma orderly_silent {A} (m : M A) (k : A -> M unit) :
  silent m ->
  (forall a, orderly requestId (k a)) ->
  orderly requestId (bind m k).
Proof.
  intros Hm Hk w. unfold bind. destruct (Hm w) as [Hc Hout].
  destruct (m w) as [[a|e|] w']; cbn [fst snd] in *; [| |congruence].
  - destruct (Hk a w') as [(r & Hr & Hsent)|(e & He & Hsent)].
    + left. exists r. now rewrite <- Hout.
    + right. exists e. now rewrite <- Hout.
  - right. now exists e.
Qed.

Lemma answers_try_catch (body : M unit) (g : Exn -> Response) :
  orderly requestId body ->
  forall w,
    answers requestId w
      (try_catch body (fun e => sendResponse client requestId (g e)) w).
Proof.
  intros Hbody w. unfold try_catch.
  destruct (Hbody w) as [(r & Hr & Hsent)|(e & He & Hsent)];
    destruct (body w) as [c w']; cbn [fst snd] in *; subst c.
  - now exists r.
  - exists (g e). unfold sendResponse, sendToClient. rewrite client_open.
    cbn. now rewrite Hsent.
Qed.

Lemma silent_ret {A} (a : A) : silent (ret a).
Proof. intros w. split; [discriminate|reflexivity]. Qed.

Lemma silent_modify (f : World -> World) :
  (forall w, outbox (f w) = outbox w) -> silent (modify f).
Proof. intros Hf w. split; [discriminate|apply Hf]. Qed.

Lemma silent_bind {A B} (m : M A) (k : A -> M B) :
  silent m -> (forall a, silent (k a)) -> silent (bind m k).
Proof.
  intros Hm Hk w. unfold bind. destruct (Hm w) as [Hc Hout].
  destruct (m w) as [[a|e|] w']; cbn [fst snd] in *; [| |congruence].
  - destruct (Hk a w') as [Hc' Hout']. split; [exact Hc'|congruence].
  - split; [discriminate|exact Hout].
Qed.

Lemma silent_world {B} (k : World -> M B) :
  (forall w, silent (k w)) -> silent (bind get_world k).
Proof. intros Hk w. unfold bind, get_world. apply Hk. Qed.

Lemma silent_on_client {A} (r : nat)
    (f : ZWaveProvisioningClient -> Completion A * ZWaveProvisioningClient)
    (c : ZWaveProvisioningClient) :
  fst (f c) <> OutOfFuel -> silent (on_client r f c).
Proof.
  intros Hf w. unfold on_client. destruct (f c) as [res c'].
  split; [exact Hf|reflexivity].
Qed.

Lemma silent_try_catch {A} (body : M A) (handler : Exn -> M A) :
  silent body -> (forall e, silent (handler e)) ->
  silent (try_catch body handler).
Proof.
  intros Hbody Hhandler w. unfold try_catch. destruct (Hbody w) as [Hc Hout].
  destruct (body w) as [[a|e|] w']; cbn [fst snd] in *; [| |congruence].
  - split; [discriminate|exact Hout].
  - destruct (Hhandler e w') as [Hc' Hout']. split; [exact Hc'|congruence].
Qed.

End Replies.

(** The steps of the handlers return or throw. *)
Lemma get_returns (v : JSValue) (key : string) : get v key <> OutOfFuel.
Proof. destruct v; discriminate || (cbn; now destruct (own_property _ _)). Qed.

Lemma get_of_object (data : JSValue) (key : string) :
  data <> JNull -> data <> JUndefined -> get data key = Normal (prop data key).
Proof.
  intros Hnull Hundefined. unfold prop.
  destruct data; try congruence; try reflexivity.
  cbn. now destruct (own_property _ _).
Qed.

Lemma provisionSmartStartNode_returns (c : ZWaveProvisioningClient)
    (entry : ProvisioningEntry) :
  fst (provisionSmartStartNode c entry) <> OutOfFuel.
Proof.
  unfold provisionSmartStartNode.
  destruct (negb (driverReady c)); [discriminate|].
  destruct (js_not (dsk entry)); [discriminate|]. cbv zeta.
  destruct (driver c) as [drv|]; [|discriminate].
  destruct (getProvisioningEntry drv _).
  - unfold controller_provisionSmartStartNode.
    now destruct (assertProvisioningEntry drv _).
  - destruct (supportedProtocols (set_dsk entry (normalizeDSK (dsk entry))));
      cbn [includes_ZWaveLongRange]; try discriminate;
      unfold controller_provisionSmartStartNode;
      now destruct (assertProvisioningEntry drv _).
Qed.

Lemma updateProvisioningEntryStatus_returns (c : ZWaveProvisioningClient)
    (d active : JSValue) :
  fst (updateProvisioningEntryStatus c d active) <> OutOfFuel.
Proof.
  unfold updateProvisioningEntryStatus.
  destruct (negb (driverReady c)); [discriminate|]. cbv zeta.
  destruct (driver c) as [drv|]; [|discriminate].
  destruct (getProvisioningEntry drv _); [|discriminate].
  unfold controller_provisionSmartStartNode.
  now destruct (assertProvisioningEntry drv _).
Qed.

Lemma unprovisionSmartStartNode_returns (c : ZWaveProvisioningClient)
    (d : JSValue) :
  fst (unprovisionSmartStartNode c d) <> OutOfFuel.
Proof.
  unfold unprovisionSmartStartNode.
  destruct (negb (driverReady c)); [discriminate|]. cbv zeta.
  now destruct (driver c).
Qed.

Lemma getProvisioningEntries_returns (c : ZWaveProvisioningClient) :
  getProvisioningEntries c <> OutOfFuel.
Proof.
  unfold getProvisioningEntries.
  destruct (negb (driverReady c)); [discriminate|]. now destruct (driver c).
Qed.

Lemma close_returns (c : ZWaveProvisioningClient) : fst (close c) <> OutOfFuel.
Proof.
  unfold close. destruct (driver c) as [drv|]; [|discriminate].
  now destruct (destroy_outcome drv).
Qed.

Lemma connect_returns (c : ZWaveProvisioningClient) (ensure : option Exn)
    (fresh : Driver) :
  fst (connect c ensure fresh) <> OutOfFuel.
Proof.
  unfold connect. destruct ensure; [discriminate|].
  now destruct (start_outcome fresh).
Qed.

Lemma client_send_returns (c : ZWaveProvisioningClient) (wait : option Exn)
    (nodeId : option JSNum) (vendorPayload : option Buffer)
    (manufacturerId count : option JSNum) :
  fst (client_sendManufacturerProprietaryCustom c wait nodeId vendorPayload
         manufacturerId count) <> OutOfFuel.
Proof.
  unfold client_sendManufacturerProprietaryCustom.
  destruct (sender_bounded (mkContext (driver c) (driverReady c) wait)
              nodeId vendorPayload manufacturerId count) as [Hreturns _].
  now destruct (sendManufacturerProprietaryCustom _ _ _ _ _).
Qed.

Lemma hexTo32ByteBuffer_returns (v : JSValue) : hexTo32ByteBuffer v <> OutOfFuel.
Proof.
  destruct v; try discriminate. cbn [hexTo32ByteBuffer]. cbv zeta.
  destruct (negb (all_hex _)); [discriminate|].
  now destruct (negb (_ =? _)%nat).
Qed.

Section Handlers.
Context `{Builtins}.
Variables (client : WebSocket) (requestId : JSValue).
Hypothesis client_open : readyState client = 1%N.
Hypothesis conversions : conversions_return.

Lemma Number_returns (v : JSValue) : Number_ v <> OutOfFuel.
Proof. destruct v; try discriminate; apply conversions. Qed.

Lemma integer_or_Number_returns (v : JSValue) (fallback : Z) :
  integer_or_Number v fallback <> OutOfFuel.
Proof.
  unfold integer_or_Number. destruct (Number_isInteger v); [discriminate|].
  assert (Hn := Number_returns v). now destruct (Number_ v).
Qed.

Lemma numericManufacturerId_returns (v : JSValue) :
  numericManufacturerId v <> OutOfFuel.
Proof.
  unfold numericManufacturerId. destruct (Number_isInteger v); [discriminate|].
  destruct (negb _); [apply conversions|discriminate].
Qed.

Lemma handleGetProvisioningEntries_answers (w : World) :
  answers requestId w (handleGetProvisioningEntries client requestId w).
Proof.
  unfold handleGetProvisioningEntries, report.
  apply (answers_try_catch client requestId client_open).
  apply orderly_world. intros w0.
  destruct (ready_client w0) as [[r c]|]; [|now apply orderly_send].
  apply orderly_lift; [apply getProvisioningEntries_returns|].
  intros entries. now apply orderly_send.
Qed.

Lemma handleGetProvisioningEntry_answers (data : JSValue) (w : World) :
  answers requestId w (handleGetProvisioningEntry client data requestId w).
Proof.
  unfold handleGetProvisioningEntry, report.
  apply (answers_try_catch client requestId client_open).
  apply orderly_world. intros w0.
  destruct (ready_client w0) as [[r c]|]; [|now apply orderly_send].
  apply orderly_lift; [apply getProvisioningEntries_returns|].
  intros entries. apply orderly_lift.
  - destruct entries; [discriminate|]. unfold cbind.
    assert (Hget := get_returns data "dsk"). now destruct (get data "dsk").
  - intros [entry|]; now apply orderly_send.
Qed.

Lemma handleAddProvisioningEntry_answers (data : JSValue) (w : World) :
  answers requestId w (handleAddProvisioningEntry client data requestId w).
Proof.
  unfold handleAddProvisioningEntry, report.
  apply (answers_try_catch client requestId client_open).
  apply orderly_lift; [apply get_returns|]. intros e.
  apply orderly_lift; [apply get_returns|]. intros d.
  destruct (js_not d); [now apply orderly_send|].
  apply orderly_world. intros w0.
  destruct (ready_client w0) as [[r c]|]; [|now apply orderly_send].
  apply orderly_silent.
  - apply silent_on_client, provisionSmartStartNode_returns.
  - intros entry. now apply orderly_send.
Qed.

Lemma handleUpdateProvisioningEntryStatus_answers (data : JSValue) (w : World) :
  answers requestId w
    (handleUpdateProvisioningEntryStatus client data requestId w).
Proof.
  unfold handleUpdateProvisioningEntryStatus, report.
  apply (answers_try_catch client requestId client_open).
  apply orderly_world. intros w0.
  destruct (ready_client w0) as [[r c]|]; [|now apply orderly_send].
  apply orderly_lift; [apply get_returns|]. intros d.
  apply orderly_lift; [apply get_returns|]. intros active.
  destruct (js_not d); [now apply orderly_send|].
  destruct (negb _); [now apply orderly_send|].
  apply orderly_silent.
  - apply silent_on_client, updateProvisioningEntryStatus_returns.
  - intros entry. now apply orderly_send.
Qed.

Lemma handleDeleteProvisioningEntry_answers (data : JSValue) (w : World) :
  answers requestId w (handleDeleteProvisioningEntry client data requestId w).
Proof.
  unfold handleDeleteProvisioningEntry, report.
  apply (answers_try_catch client requestId client_open).
  apply orderly_world. intros w0.
  destruct (ready_client w0) as [[r c]|]; [|now apply orderly_send].
  apply orderly_lift; [apply get_returns|]. intros d.
  destruct (js_not d); [now apply orderly_send|].
  apply orderly_silent.
  - apply silent_on_client, unprovisionSmartStartNode_returns.
  - intros _. now apply orderly_send.
Qed.

Lemma handleGetNodes_answers (w : World) :
  answers requestId w (handleGetNodes client requestId w).
Proof.
  unfold handleGetNodes, report.
  apply (answers_try_catch client requestId client_open).
  apply orderly_world. intros w0.
  destruct (ready_client w0) as [[r c]|]; now apply orderly_send.
Qed.

Lemma handleGetNode_answers (data : JSValue) (w : World) :
  answers requestId w (handleGetNode client data requestId w).
Proof.
  unfold handleGetNode, report.
  apply (answers_try_catch client requestId client_open).
  apply orderly_world. intros w0.
  destruct (ready_client w0) as [[r c]|]; [|now apply orderly_send].
  apply orderly_lift; [apply get_returns|]. intros raw.
  apply orderly_lift; [apply conversions|]. intros nodeId.
  destruct nodeId; [now apply orderly_send| |];
    destruct (getNode c _); now apply orderly_send.
Qed.

Lemma handleGetStatus_answers (w : World) :
  answers requestId w (handleGetStatus client requestId w).
Proof.
  unfold handleGetStatus, bind, get_world, sendResponse, sendToClient.
  rewrite client_open. eexists. cbn [fst snd outbox set_outbox].
  split; reflexivity.
Qed.

End Handlers.

Section Dispatch.
Context `{Builtins}.
Variables (client : WebSocket) (requestId : JSValue).
Hypothesis client_open : readyState client = 1%N.
Hypothesis conversions : conversions_return.

Lemma close_quietly_silent (r : option nat) : silent (close_quietly r).
Proof.
  destruct r as [r|]; [|apply silent_ret]. unfold close_quietly.
  apply silent_try_catch; [|intros; apply silent_ret].
  apply silent_world. intros w. destruct (heap w !! r) as [c|].
  - apply silent_on_client, close_returns.
  - apply silent_ret.
Qed.

Lemma connect_ref_silent (r : nat) : silent (connect_ref r).
Proof.
  unfold connect_ref. apply silent_world. intros w.
  destruct (heap w !! r) as [c|].
  - apply silent_on_client, connect_returns.
  - apply silent_ret.
Qed.

Lemma setupZWaveEventHandlers_silent : silent setupZWaveEventHandlers.
Proof.
  unfold setupZWaveEventHandlers. apply silent_world. intros w.
  destruct (plugin_client w) as [[r c]|]; [|apply silent_ret].
  now apply silent_modify.
Qed.

Lemma setZWaveClient_silent (r : nat) (port : JSValue) :
  silent (setZWaveClient r port).
Proof.
  unfold setZWaveClient. apply silent_bind; [now apply silent_modify|].
  intros _. apply setupZWaveEventHandlers_silent.
Qed.

(** A new client object is created and stored, and the run goes on. *)
Lemma silent_alloc {B} (c : ZWaveProvisioningClient)
    (g : nat -> World -> World) (k : nat -> M B) :
  (forall r w, outbox (g r w) = outbox w) ->
  (forall r, silent (k r)) ->
  silent (bind get_world
            (fun w => let '(r, w') := alloc w c in
                      bind (modify (fun _ => g r w')) (fun _ => k r))).
Proof.
  intros Hg Hk w. unfold bind, get_world, modify, alloc.
  cbv beta iota zeta. cbn [fst snd].
  match goal with
  | |- context [k ?r ?w1] =>
      destruct (Hk r w1) as [Hc Hout]; destruct (k r w1) as [[b|e|] w2]
  end; cbn [fst snd] in *; try congruence;
    (split; [discriminate|]); rewrite Hout, Hg; reflexivity.
Qed.

(** The same when the run goes on to answer. *)
Lemma orderly_alloc (c : ZWaveProvisioningClient)
    (g : nat -> World -> World) (k : nat -> M unit) :
  (forall r w, outbox (g r w) = outbox w) ->
  (forall r, orderly requestId (k r)) ->
  orderly requestId
    (bind get_world
       (fun w => let '(r, w') := alloc w c in
                 bind (modify (fun _ => g r w')) (fun _ => k r))).
Proof.
  intros Hg Hk w. unfold bind, get_world, modify, alloc.
  cbv beta iota zeta.
  match goal with
  | |- context [k ?r ?w1] =>
      assert (Hout : outbox w1 = outbox w) by (rewrite Hg; reflexivity);
      destruct (Hk r w1) as [(x & Hx & Hsent)|(e & He & Hsent)]
  end.
  - left. exists x. rewrite Hout in Hsent. split; assumption.
  - right. exists e. rewrite Hout in Hsent. split; assumption.
Qed.

Lemma server_initializeDriver_silent (port : JSValue) :
  silent (server_initializeDriver port).
Proof.
  unfold server_initializeDriver. apply silent_world. intros w.
  apply silent_bind; [apply close_quietly_silent|]. intros _.
  apply (silent_alloc (mkClient port None false 0)
           (fun r w' => set_server w' (Some r) (server_currentPort w'))
           (fun r => bind (connect_ref r)
                       (fun _ => bind (modify (fun w =>
                                         set_server w (server_zwaveClient w) port))
                                   (fun _ => setZWaveClient r port)))).
  - reflexivity.
  - intros r. apply silent_bind; [apply connect_ref_silent|]. intros _.
    apply silent_bind; [now apply silent_modify|]. intros _.
    apply setZWaveClient_silent.
Qed.

Lemma handleStart_answers (data : JSValue) (w : World) :
  answers requestId w (handleStart client data requestId w).
Proof.
  unfold handleStart.
  apply (answers_try_catch client requestId client_open).
  apply orderly_world. intros w0.
  destruct (ready_client w0) as [[r c]|]; [now apply orderly_send|].
  apply orderly_lift; [apply get_returns|]. intros p. cbv zeta.
  destruct (initializeDriver w0).
  - apply orderly_silent; [apply server_initializeDriver_silent|].
    intros _. now apply orderly_send.
  - destruct (negb (securityKeys w0) || negb (securityKeysLongRange w0));
      [now apply orderly_send|].
    apply orderly_silent; [apply close_quietly_silent|]. intros _.
    set (port := js_or (js_or p (currentPort w0)) default_port).
    apply (orderly_alloc (mkClient port None false 0)
             (fun r w' => set_plugin w' (Some r) (currentPort w'))
             (fun r =>
                bind setupZWaveEventHandlers
                  (fun _ =>
                     bind (connect_ref r)
                       (fun _ =>
                          bind (modify (fun w2 =>
                                  set_plugin w2 (zwaveClient w2) port))
                            (fun _ =>
                               sendResponse client requestId
                                 (START_SUCCESS port)))))).
    + reflexivity.
    + intros r.
      apply orderly_silent; [apply setupZWaveEventHandlers_silent|]. intros _.
      apply orderly_silent; [apply connect_ref_silent|]. intros _.
      apply orderly_silent; [now apply silent_modify|]. intros _.
      now apply orderly_send.
Qed.

Lemma handleSendCommand_answers (data : JSValue) (w : World) :
  answers requestId w (handleSendCommand client data requestId w).
Proof.
  unfold handleSendCommand.
  apply (answers_try_catch client requestId client_open).
  apply orderly_world. intros w0.
  destruct (ready_client w0) as [[r c]|]; [|now apply orderly_send].
  do 4 (apply orderly_lift; [apply get_returns|]; intros ?).
  destruct (js_not _); [now apply orderly_send|].
  assert (Hhex := hexTo32ByteBuffer_returns a).
  destruct (hexTo32ByteBuffer a) as [vendorPayload|e|];
    [|now apply orderly_send|congruence].
  apply orderly_lift; [now apply integer_or_Number_returns|]. intros n.
  apply orderly_lift; [now apply numericManufacturerId_returns|]. intros m.
  apply orderly_lift; [now apply integer_or_Number_returns|]. intros k.
  apply orderly_silent.
  - apply silent_on_client, client_send_returns.
  - intros result. now apply orderly_send.
Qed.

End Dispatch.

Lemma try_catch_of_answers (requestId : JSValue) (body : M unit)
    (handler : Exn -> M unit) (w : World) :
  answers requestId w (body w) ->
  answers requestId w (try_catch body handler w).
Proof.
  intros (r & Hr & Hsent). unfold try_catch.
  destruct (body w) as [c w']. cbn [fst] in Hr. subst c. now exists r.
Qed.

Lemma sendResponse_answers (client : WebSocket) (requestId : JSValue)
    (r : Response) (w : World) :
  readyState client = 1%N ->
  answers requestId w (sendResponse client requestId r w).
Proof.
  intros Hopen. exists r. unfold sendResponse, sendToClient. rewrite Hopen.
  cbn. split; reflexivity.
Qed.

(** X12. A frame that parses to a value other than [null] gets exactly
    one reply on an open socket, whatever its type and fields and
    whatever state the process is in: the handler completes, one
    message is appended to what was sent, and it carries the
    [requestId] of the request. *)
Theorem every_request_gets_one_reply `{Builtins}
    (client : WebSocket) (message : Message) (data : JSValue) (w : World) :
  conversions_return ->
  readyState client = 1%N ->
  parsed message = Some data ->
  data <> JNull ->
  data <> JUndefined ->
  exists r w',
    handleMessage client message w = (Normal tt, w') /\
    outbox w' = outbox w ++ [with_requestId r (prop data "requestId")].
Proof.
  intros Hconversions Hopen Hparsed Hnull Hundefined.
  assert (Hanswers : answers (prop data "requestId") w
                       (handleMessage client message w)).
  { unfold handleMessage. apply try_catch_of_answers.
    unfold bind at 1, lift at 1, JSON_parse. rewrite Hparsed.
    unfold bind at 1, lift at 1.
    rewrite (get_of_object data "type" Hnull Hundefined).
    destruct (js_not (prop data "type")).
    - unfold bind, lift.
      rewrite (get_of_object data "requestId" Hnull Hundefined).
      unfold sendToClient. rewrite Hopen. eexists. cbn. split; reflexivity.
    - unfold bind at 1, lift at 1.
      rewrite (get_of_object data "requestId" Hnull Hundefined).
      repeat match goal with
             | |- context [if is_type ?t ?n then _ else _] =>
                 destruct (is_type t n)
             end.
      + now apply handleGetProvisioningEntries_answers.
      + now apply handleGetProvisioningEntry_answers.
      + now apply handleAddProvisioningEntry_answers.
      + now apply handleUpdateProvisioningEntryStatus_answers.
      + now apply handleDeleteProvisioningEntry_answers.
      + now apply handleGetNodes_answers.
      + now apply handleGetNode_answers.
      + now apply handleGetStatus_answers.
      + now apply handleStart_answers.
      + now apply handleSendCommand_answers.
      + now apply sendResponse_answers.
      + now apply sendResponse_answers. }
  destruct Hanswers as (r & Hr & Hsent).
  destruct (handleMessage client message w) as [c w']. cbn [fst snd] in *.
  subst c. now exists r, w'.
Qed.

Lemma language_conversions_return : @conversions_return conversions.
Proof.
  split.
  - intros v. cbn. destruct (print_throws v); discriminate.
  - intros v radix. cbn. destruct v; try discriminate;
      match goal with |- context [print_throws ?x] => destruct (print_throws x) end;
      discriminate.
Qed.

Lemma every_request_gets_one_reply_witness :
  exists r w',
    handleMessage open_socket (frame send_to_node_0) ready_world
    = (Normal tt, w') /\
    outbox w' =
    outbox ready_world ++ [with_requestId r (prop send_to_node_0 "requestId")].
Proof.
  apply (every_request_gets_one_reply open_socket (frame send_to_node_0)
           send_to_node_0 ready_world).
  - exact language_conversions_return.
  - reflexivity.
  - reflexivity.
  - discriminate.
  - discriminate.
Defined.

(** ** Requests that only read *)

Section Queries.
Context `{Builtins}.
Variables (client : WebSocket) (requestId : JSValue).

Local Notation "'observes' m" :=
  (forall w, snd (m w) = set_outbox w (outbox (snd (m w))))
  (at level 10, m at level 9).

Lemma set_outbox_same (w : World) : set_outbox w (outbox w) = w.
Proof. now destruct w. Qed.

Lemma observes_send (r : Response) : observes (sendResponse client requestId r).
Proof.
  intros w. unfold sendResponse, sendToClient.
  destruct (readyState client =? 1)%N; cbn [snd]; [reflexivity|].
  now rewrite set_outbox_same.
Qed.

Lemma observes_bind {A B} (m : M A) (k : A -> M B) :
  observes m -> (forall a, observes (k a)) -> observes (bind m k).
Proof.
  intros Hm Hk w. unfold bind. specialize (Hm w).
  destruct (m w) as [[a|e|] w1]; cbn [snd] in *; try exact Hm.
  rewrite (Hk a w1). rewrite Hm at 1. reflexivity.
Qed.

Lemma observes_lift {A} (c : Completion A) : observes (lift c).
Proof. intros w. cbn. now rewrite set_outbox_same. Qed.

Lemma observes_world {B} (k : World -> M B) :
  (forall w, observes (k w)) -> observes (bind get_world k).
Proof. intros Hk w. unfold bind, get_world. apply Hk. Qed.

Lemma observes_try_catch {A} (body : M A) (handler : Exn -> M A) :
  observes body -> (forall e, observes (handler e)) ->
  observes (try_catch body handler).
Proof.
  intros Hbody Hhandler w. unfold try_catch. specialize (Hbody w).
  destruct (body w) as [[a|e|] w1]; cbn [snd] in *; try exact Hbody.
  rewrite (Hhandler e w1). rewrite Hbody at 1. reflexivity.
Qed.

Lemma handleGetProvisioningEntries_observes :
  observes (handleGetProvisioningEntries client requestId).
Proof.
  unfold handleGetProvisioningEntries, report.
  apply observes_try_catch; [|intros; apply observes_send].
  apply observes_world. intros w0.
  destruct (ready_client w0) as [[r c]|]; [|apply observes_send].
  apply observes_bind; [apply observes_lift|]. intros; apply observes_send.
Qed.

Lemma handleGetProvisioningEntry_observes (data : JSValue) :
  observes (handleGetProvisioningEntry client data requestId).
Proof.
  unfold handleGetProvisioningEntry, report.
  apply observes_try_catch; [|intros; apply observes_send].
  apply observes_world. intros w0.
  destruct (ready_client w0) as [[r c]|]; [|apply observes_send].
  apply observes_bind; [apply observes_lift|]. intros entries.
  apply observes_bind; [apply observes_lift|].
  intros [entry|]; apply observes_send.
Qed.

Lemma handleGetNodes_observes : observes (handleGetNodes client requestId).
Proof.
  unfold handleGetNodes, report.
  apply observes_try_catch; [|intros; apply observes_send].
  apply observes_world. intros w0.
  destruct (ready_client w0) as [[r c]|]; apply observes_send.
Qed.

Lemma handleGetNode_observes (data : JSValue) :
  observes (handleGetNode client data requestId).
Proof.
  unfold handleGetNode, report.
  apply observes_try_catch; [|intros; apply observes_send].
  apply observes_world. intros w0.
  destruct (ready_client w0) as [[r c]|]; [|apply observes_send].
  apply observes_bind; [apply observes_lift|]. intros raw.
  apply observes_bind; [apply observes_lift|]. intros nodeId.
  destruct nodeId; [apply observes_send| |];
    destruct (getNode c _); apply observes_send.
Qed.

Lemma handleGetStatus_observes : observes (handleGetStatus client requestId).
Proof.
  unfold handleGetStatus. apply observes_world. intros w0. apply observes_send.
Qed.

Lemma observes_lift_bind {A B} (c : Completion A) (k : A -> M B) :
  (forall a, c = Normal a -> observes (k a)) -> observes (bind (lift c) k).
Proof.
  intros Hk w. unfold bind, lift.
  destruct c as [a|e|]; cbn [snd]; [now apply Hk| |];
    now rewrite set_outbox_same.
Qed.

End Queries.

(** X13. A request of any type other than the five that act on the
    driver (adding, updating and deleting an entry, START and
    SEND_COMMAND) leaves the process as it was: the client objects,
    the driver with its provisioning list and nodes, and the ports
    are the same after it; only the messages sent may have grown.
    This includes a request without a type or of an unknown type. *)
Theorem queries_change_nothing `{Builtins}
    (client : WebSocket) (message : Message) (data : JSValue) (w : World) :
  parsed message = Some data ->
  (forall t, In t ["ADD_PROVISIONING_ENTRY"; "UPDATE_PROVISIONING_ENTRY_STATUS";
                   "DELETE_PROVISIONING_ENTRY"; "START"; "SEND_COMMAND"] ->
             is_type (prop data "type") t = false) ->
  let w' := snd (handleMessage client message w) in
  w' = set_outbox w (outbox w').
Proof.
  intros Hparsed Hquery. cbv zeta. revert w.
  unfold handleMessage.
  apply observes_try_catch.
  - unfold JSON_parse. rewrite Hparsed.
    apply observes_lift_bind. intros d [= <-].
    apply observes_lift_bind. intros type Htype.
    apply get_prop_eq in Htype. subst type.
    destruct (js_not (prop data "type")).
    + apply observes_lift_bind. intros requestId _ w.
      unfold sendToClient. destruct (readyState client =? 1)%N; cbn [snd];
        [reflexivity|now rewrite set_outbox_same].
    + apply observes_lift_bind. intros requestId _.
      rewrite (Hquery "ADD_PROVISIONING_ENTRY") by (cbn; auto 10).
      rewrite (Hquery "UPDATE_PROVISIONING_ENTRY_STATUS") by (cbn; auto 10).
      rewrite (Hquery "DELETE_PROVISIONING_ENTRY") by (cbn; auto 10).
      rewrite (Hquery "START") by (cbn; auto 10).
      rewrite (Hquery "SEND_COMMAND") by (cbn; auto 10).
      repeat match goal with
             | |- context [if is_type ?t ?n then _ else _] =>
                 destruct (is_type t n)
             end.
      * apply handleGetProvisioningEntries_observes.
      * apply handleGetProvisioningEntry_observes.
      * apply handleGetNodes_observes.
      * apply handleGetNode_observes.
      * apply handleGetStatus_observes.
      * apply observes_send.
      * apply observes_send.
  - intros e. apply observes_lift_bind. intros d _.
    apply observes_lift_bind. intros requestId _.
    apply observes_send.
Qed.

Lemma queries_change_nothing_witness :
  snd (handleMessage open_socket
         (frame (request [("type", JS_ "GET_NODES"); ("requestId", JS_ "r1")]))
         ready_world)
  = set_outbox ready_world
      (outbox
         (snd (handleMessage open_socket
                 (frame (request [("type", JS_ "GET_NODES");
                                  ("requestId", JS_ "r1")]))
                 ready_world))).
Proof.
  apply (queries_change_nothing open_socket
           (frame (request [("type", JS_ "GET_NODES"); ("requestId", JS_ "r1")]))
           (request [("type", JS_ "GET_NODES"); ("requestId", JS_ "r1")])
           ready_world).
  - reflexivity.
  - intros t Hin. cbn [In] in Hin.
    repeat (destruct Hin as [<-|Hin]; [vm_compute; reflexivity|]).
    destruct Hin.
Defined.

(** ** START *)

Lemma set_heap_same (w : World) : set_heap w (heap w) = w.
Proof. now destruct w. Qed.

Lemma close_quietly_heap (r : option nat) (w : World) :
  exists h, close_quietly r w = (Normal tt, set_heap w h).
Proof.
  destruct r as [r|]; cbn [close_quietly].
  - unfold try_catch, bind, get_world, ret, on_client.
    destruct (heap w !! r) as [c|].
    + destruct (close c) as [[[]|e|] c'] eqn:Hclose.
      * now eexists.
      * now eexists.
      * exfalso. apply (close_returns c). now rewrite Hclose.
    + exists (heap w). now rewrite set_heap_same.
  - exists (heap w). unfold ret. now rewrite set_heap_same.
Qed.

(** Closing the client at [r]: the object is written back as [close]
    leaves it, and an error of [close] is only logged. *)
Lemma close_quietly_at (r : nat) (c : ZWaveProvisioningClient) (w : World) :
  heap w !! r = Some c ->
  close_quietly (Some r) w =
  (Normal tt, set_heap w (<[r := snd (close c)]> (heap w))).
Proof.
  intros Hc. cbn [close_quietly].
  unfold try_catch, bind, get_world, ret, on_client. rewrite Hc.
  destruct (close c) as [[[]|e|] c'] eqn:Hclose; cbn [snd].
  - reflexivity.
  - reflexivity.
  - exfalso. apply (close_returns c). now rewrite Hclose.
Qed.

(** In the Starting state the plugin's client is not ready and its
    driver is neither destroyed nor failed. *)
Lemma lifecycle_Starting (w : World) (r : nat) (c : ZWaveProvisioningClient) :
  lifecycle w = Starting ->
  zwaveClient w = Some r -> heap w !! r = Some c ->
  ready_client w = None /\
  exists drv, driver c = Some drv /\ destroyed drv = false /\
              start_outcome drv = None.
Proof.
  unfold lifecycle, ready_client, plugin_client. intros Hl Hr Hc.
  rewrite Hr, Hc in *.
  destruct (driverReady c); [discriminate|]. split; [reflexivity|].
  destruct (driver c) as [drv|]; [|discriminate].
  destruct (destroyed drv) eqn:Hd; [discriminate|].
  destruct (start_outcome drv) eqn:Hs; [discriminate|]. eauto.
Qed.

(** C4 (the code against the claim): [handleStart] rejects a START
    only in the Ready state, where the request fails with the
    already-started error and nothing but the reply changes.  In the
    Starting state (the client's driver has started and has not yet
    signalled "driver ready") a START is not rejected: on either
    start path, with a driver that starts, the request is answered
    with START_SUCCESS, the client that was connecting is closed (its
    driver is destroyed when [destroy] succeeds), and a new client
    with a new driver takes its place in the plugin. *)
Theorem start_is_rejected_only_when_ready (client : WebSocket)
    (data requestId p : JSValue) (w : World) (r0 : nat)
    (c0 : ZWaveProvisioningClient) :
  readyState client = 1%N ->
  (lifecycle w = Ready ->
   handleStart client data requestId w =
   (Normal tt,
    set_outbox w
      (outbox w
       ++ [with_requestId (ERROR (msg "Driver is already started"))
             requestId]))) /\
  (lifecycle w = Starting ->
   zwaveClient w = Some r0 ->
   heap w !! r0 = Some c0 ->
   heap w !! next_ref w = None ->
   get data "port" = Normal p ->
   let port := js_or (js_or p (currentPort w)) default_port in
   (initializeDriver w = true /\ server_zwaveClient w = Some r0 \/
    initializeDriver w = false /\ securityKeys w = true /\
    securityKeysLongRange w = true) ->
   ensureCustomDeviceConfig w = None ->
   start_outcome (new_Driver w port) = None ->
   destroyed (new_Driver w port) = false ->
   exists w1,
     handleStart client data requestId w = (Normal tt, w1) /\
     outbox w1 = outbox w ++ [with_requestId (START_SUCCESS port) requestId] /\
     zwaveClient w1 = Some (next_ref w) /\
     next_ref w <> r0 /\
     heap w1 !! r0 = Some (snd (close c0)) /\
     (forall drv0,
        driver c0 = Some drv0 -> destroy_outcome drv0 = None ->
        driver (snd (close c0)) = Some (set_destroyed drv0)) /\
     heap w1 !! next_ref w =
     Some (mkClient port (Some (new_Driver w port)) false 1) /\
     lifecycle w1 = Starting).
Proof.
  intros Hopen. split.
  - exact (start_while_ready_is_rejected client data requestId w Hopen).
  - intros Hstarting Hr0 Hc0 Hfresh Hport port Hpath Hensure Hstart Hdestroyed.
    destruct (lifecycle_Starting w r0 c0 Hstarting Hr0 Hc0)
      as (Hnot_ready & drv0 & Hdrv0 & _ & _).
    assert (Hne : next_ref w <> r0).
    { intros Heq. rewrite Heq, Hc0 in Hfresh. discriminate. }
    assert (Hne' : r0 <> next_ref w) by congruence.
    assert (Hclosed : forall drv,
               driver c0 = Some drv -> destroy_outcome drv = None ->
               driver (snd (close c0)) = Some (set_destroyed drv)).
    { intros drv Hd Ho. unfold close. rewrite Hd, Ho. reflexivity. }
    unfold handleStart, server_initializeDriver, connect_ref, setZWaveClient,
      setupZWaveEventHandlers.
    run. rewrite Hnot_ready, Hport. fold port.
    destruct Hpath as [(Hinit & Hserver) | (Hinit & Hkeys & HkeysLR)];
      rewrite Hinit.
    + rewrite Hserver, (close_quietly_at r0 c0 w Hc0).
      unfold alloc.
      cbn [heap set_heap next_ref set_server ensureCustomDeviceConfig
             new_Driver].
      rewrite lookup_insert_eq. unfold connect. cbn [Client.port].
      rewrite Hensure. cbn [set_driver Client.port driverReady].
      rewrite Hstart. unfold plugin_client.
      cbn [heap set_heap set_server set_plugin zwaveClient].
      rewrite lookup_insert_eq, Hopen.
      eexists. split; [reflexivity|].
      cbn [outbox set_outbox set_plugin zwaveClient currentPort heap
             set_server set_heap server_zwaveClient].
      split; [reflexivity|]. split; [reflexivity|]. split; [exact Hne|].
      split.
      { rewrite !(lookup_insert_ne _ _ _ _ Hne). apply lookup_insert_eq. }
      split; [exact Hclosed|]. split; [apply lookup_insert_eq|].
      unfold lifecycle, plugin_client.
      cbn [zwaveClient heap set_outbox set_plugin set_server set_heap].
      rewrite lookup_insert_eq.
      cbn [driverReady driver set_driver on_ready].
      now rewrite Hdestroyed, Hstart.
    + rewrite Hkeys, HkeysLR. cbn [negb orb].
      rewrite Hr0, (close_quietly_at r0 c0 w Hc0).
      unfold alloc, plugin_client.
      repeat (cbn [heap set_heap next_ref set_plugin ensureCustomDeviceConfig
                     new_Driver zwaveClient];
              rewrite lookup_insert_eq).
      unfold connect. cbn [Client.port on_ready].
      rewrite Hensure. cbn [set_driver Client.port driverReady].
      rewrite Hstart, Hopen.
      eexists. split; [reflexivity|].
      cbn [outbox set_outbox set_plugin zwaveClient currentPort heap
             set_server set_heap server_zwaveClient].
      split; [reflexivity|]. split; [reflexivity|]. split; [exact Hne|].
      split.
      { rewrite !(lookup_insert_ne _ _ _ _ Hne). apply lookup_insert_eq. }
      split; [exact Hclosed|]. split; [apply lookup_insert_eq|].
      unfold lifecycle, plugin_client.
      cbn [zwaveClient heap set_outbox set_plugin set_server set_heap].
      rewrite lookup_insert_eq.
      cbn [driverReady driver set_driver on_ready].
      now rewrite Hdestroyed, Hstart.
Qed.

Lemma start_is_rejected_only_when_ready_witness :
  lifecycle ready_world = Ready /\
  handleStart open_socket (request [("type", JS_ "START")]) (JS_ "r2")
    ready_world =
  (Normal tt,
   set_outbox ready_world
     [with_requestId (ERROR (msg "Driver is already started")) (JS_ "r2")]) /\
  lifecycle starting_world = Starting /\
  exists w1,
    handleStart open_socket (request [("type", JS_ "START")]) (JS_ "r2")
      starting_world = (Normal tt, w1) /\
    map r_type (outbox w1) = [str "START_SUCCESS"] /\
    zwaveClient starting_world = Some 0%nat /\
    zwaveClient w1 = Some 1%nat /\
    (driver <$> heap w1 !! 0%nat) =
    Some (Some (set_destroyed (sample_driver accepting))).
Proof.
  split; [reflexivity|]. split.
  - apply (start_is_rejected_only_when_ready open_socket
             (request [("type", JS_ "START")]) (JS_ "r2") JUndefined
             ready_world 0%nat ready_client_object eq_refl).
    reflexivity.
  - split; [reflexivity|].
    destruct (start_is_rejected_only_when_ready open_socket
                (request [("type", JS_ "START")]) (JS_ "r2") JUndefined
                starting_world 0%nat
                (mkClient default_port (Some (sample_driver accepting)) false 1)
                eq_refl)
      as (_ & Hrestart).
    destruct Hrestart
      as (w1 & Hrun & Hout & Hclient & _ & Hold & Hclosed & _ & _).
    + reflexivity.
    + reflexivity.
    + vm_compute. reflexivity.
    + reflexivity.
    + reflexivity.
    + left. split; reflexivity.
    + reflexivity.
    + reflexivity.
    + reflexivity.
    + exists w1. split; [exact Hrun|]. split.
      * rewrite Hout. reflexivity.
      * split; [reflexivity|]. split; [exact Hclient|].
        rewrite Hold. cbn [fmap option_fmap option_map].
        rewrite (Hclosed (sample_driver accepting) eq_refl eq_refl).
        reflexivity.
Defined.

(** X14. A START request while the driver is not ready, on a server
    that provides its [initializeDriver], with a driver that starts:
    the request is answered with START_SUCCESS for the port chosen
    (the request's port, else the current port, else the default),
    the plugin holds the new client and the lifecycle is Starting;
    when that client's driver signals "driver ready" the lifecycle is
    Ready and DRIVER_READY is sent. *)
Theorem start_brings_the_driver_up (client : WebSocket)
    (data requestId p : JSValue) (w : World) :
  readyState client = 1%N ->
  ready_client w = None ->
  initializeDriver w = true ->
  get data "port" = Normal p ->
  let port := js_or (js_or p (currentPort w)) default_port in
  ensureCustomDeviceConfig w = None ->
  start_outcome (new_Driver w port) = None ->
  destroyed (new_Driver w port) = false ->
  exists w1,
    handleStart client data requestId w = (Normal tt, w1) /\
    outbox w1 = outbox w ++ [with_requestId (START_SUCCESS port) requestId] /\
    zwaveClient w1 = Some (next_ref w) /\
    currentPort w1 = port /\
    lifecycle w1 = Starting /\
    exists w2,
      driver_ready_event client (next_ref w) w1 = (Normal tt, w2) /\
      lifecycle w2 = Ready /\
      outbox w2 = outbox w1 ++ [reply "DRIVER_READY" NoData].
Proof.
  intros Hopen Hnot_ready Hinit Hport port Hensure Hstart Hdestroyed.
  unfold handleStart, server_initializeDriver, connect_ref, setZWaveClient,
    setupZWaveEventHandlers.
  run. rewrite Hnot_ready, Hport, Hinit. fold port.
  destruct (close_quietly_heap (server_zwaveClient w) w) as [h ->].
  unfold alloc. cbn [heap set_heap next_ref set_server ensureCustomDeviceConfig
                       new_Driver].
  rewrite lookup_insert_eq. unfold connect. cbn [port Client.port].
  rewrite Hensure. cbn [set_driver Client.port driverReady].
  rewrite Hstart. unfold plugin_client.
  cbn [heap set_heap set_server set_plugin zwaveClient].
  rewrite lookup_insert_eq, Hopen.
  eexists. split; [reflexivity|].
  cbn [outbox set_outbox set_plugin zwaveClient currentPort heap set_server
         set_heap server_zwaveClient].
  repeat split.
  - unfold lifecycle, plugin_client.
    cbn [zwaveClient heap set_outbox set_plugin set_server set_heap].
    rewrite lookup_insert_eq.
    cbn [driverReady driver set_driver on_ready].
    now rewrite Hdestroyed, Hstart.
  - unfold driver_ready_event. run.
    cbn [heap zwaveClient set_outbox set_plugin set_server set_heap].
    eexists. rewrite lookup_insert_eq.
    cbn [ready_listeners on_ready set_driver emit_ready]. run.
    rewrite Hopen.
    split; [reflexivity|]. split; [|reflexivity].
    unfold lifecycle, plugin_client.
    cbn [zwaveClient heap set_heap set_outbox set_plugin set_server].
    rewrite lookup_insert_eq.
    unfold on_driver_ready.
    cbn [set_driverReady driver driverReady set_driver on_ready].
    reflexivity.
Qed.

Lemma start_brings_the_driver_up_witness :
  exists w1,
    handleStart open_socket (request [("type", JS_ "START")]) (JS_ "r1")
      initial_world = (Normal tt, w1) /\
    lifecycle w1 = Starting.
Proof.
  destruct (start_brings_the_driver_up open_socket
              (request [("type", JS_ "START")]) (JS_ "r1") JUndefined
              initial_world)
    as (w1 & Hrun & _ & _ & _ & Hlifecycle & _); try reflexivity.
  exists w1. split; assumption.
Defined.

(** X15. A START request that fails, because the configuration
    directory cannot be prepared or because the driver does not
    start, is answered with one ERROR that carries the failure's
    message (or a fixed text when it has none).  The plugin keeps the
    client reference and the port it had, while the server's variable
    already names the client that failed. *)
Theorem failed_start_is_reported (client : WebSocket)
    (data requestId p : JSValue) (w : World) (e : Exn) :
  readyState client = 1%N ->
  ready_client w = None ->
  initializeDriver w = true ->
  get data "port" = Normal p ->
  let port := js_or (js_or p (currentPort w)) default_port in
  (ensureCustomDeviceConfig w = Some e \/
   ensureCustomDeviceConfig w = None /\
   start_outcome (new_Driver w port) = Some e) ->
  exists w1,
    handleStart client data requestId w = (Normal tt, w1) /\
    outbox w1 =
    outbox w
    ++ [with_requestId
          (ERROR (if msg_truthy (exn_message e) then exn_message e
                  else msg "Failed to start driver")) requestId] /\
    zwaveClient w1 = zwaveClient w /\
    currentPort w1 = currentPort w /\
    server_zwaveClient w1 = Some (next_ref w) /\
    server_currentPort w1 = server_currentPort w.
Proof.
  intros Hopen Hnot_ready Hinit Hport port Hfails.
  unfold handleStart, server_initializeDriver, connect_ref, setZWaveClient.
  run. rewrite Hnot_ready, Hport, Hinit. fold port.
  destruct (close_quietly_heap (server_zwaveClient w) w) as [h ->].
  unfold alloc. cbn [heap set_heap next_ref set_server ensureCustomDeviceConfig
                       new_Driver].
  rewrite lookup_insert_eq. unfold connect. cbn [port Client.port].
  destruct Hfails as [Hensure|[Hensure Hstart]]; rewrite Hensure.
  - rewrite Hopen. eexists. split; [reflexivity|].
    cbn [outbox set_outbox zwaveClient currentPort heap set_server set_heap
           server_zwaveClient server_currentPort].
    repeat split.
  - cbn [set_driver Client.port driverReady]. rewrite Hstart, Hopen.
    eexists. split; [reflexivity|].
    cbn [outbox set_outbox zwaveClient currentPort heap set_server set_heap
           server_zwaveClient server_currentPort].
    repeat split.
Qed.

Lemma failed_start_is_reported_witness :
  exists w1,
    handleStart open_socket (request [("type", JS_ "START")]) (JS_ "r1")
      (mkWorld ∅ 0 None default_port None default_port true true true
         (Some timeout) (fun _ => sample_driver accepting) [])
    = (Normal tt, w1) /\
    zwaveClient w1 = None /\
    server_zwaveClient w1 = Some 0%nat.
Proof.
  destruct (failed_start_is_reported open_socket
              (request [("type", JS_ "START")]) (JS_ "r1") JUndefined
              (mkWorld ∅ 0 None default_port None default_port true true true
                 (Some timeout) (fun _ => sample_driver accepting) [])
              timeout)
    as (w1 & Hrun & _ & Hplugin & _ & Hserver & _); try reflexivity.
  - left. reflexivity.
  - exists w1. repeat split; assumption.
Defined.

(** ** Provisioning requests and the form of the DSK *)

Lemma strict_eq_JStr (v : JSValue) (s : JSString) :
  strict_eq v (JStr s) = true -> v = JStr s.
Proof.
  destruct v; try discriminate. cbn [strict_eq]. intros Heq.
  now apply streq_eq in Heq as ->.
Qed.

Lemma ev_dsk_entry_view (drv : Driver) (e : ProvisioningEntry) :
  ev_dsk (entry_view drv e) = dsk e.
Proof. reflexivity. Qed.

Lemma find_view_other_form (drv : Driver) (s : JSString)
    (l : list ProvisioningEntry) :
  Forall (fun e => normalizeDSK (dsk e) = dsk e) l ->
  normalizeDSK (JStr s) <> JStr s ->
  find (fun v => strict_eq (ev_dsk v) (JStr s)) (map (entry_view drv) l) = None.
Proof.
  intros Hstored Hother. induction Hstored as [|e l He _ IH]; [reflexivity|].
  cbn [map find]. rewrite ev_dsk_entry_view.
  destruct (strict_eq (dsk e) (JStr s)) eqn:Heq; [|exact IH].
  apply strict_eq_JStr in Heq. congruence.
Qed.

(** X16. GET_PROVISIONING_ENTRY compares the DSK as it was given with
    the stored ones and does not normalise it: when the stored DSKs
    are in normal form (as the client stores them), a DSK written in
    another form, which the add, update and delete requests accept,
    is answered with "Entry not found". *)
Theorem get_entry_does_not_normalise (client : WebSocket)
    (data requestId : JSValue) (w : World) (r : nat)
    (c : ZWaveProvisioningClient) (drv : Driver) (s : JSString) :
  readyState client = 1%N ->
  ready_client w = Some (r, c) ->
  driver c = Some drv ->
  Forall (fun e => normalizeDSK (dsk e) = dsk e) (provisioningList drv) ->
  get data "dsk" = Normal (JStr s) ->
  normalizeDSK (JStr s) <> JStr s ->
  handleGetProvisioningEntry client data requestId w =
  (Normal tt,
   set_outbox w
     (outbox w ++ [with_requestId (ERROR (msg "Entry not found")) requestId])).
Proof.
  intros Hopen Hready Hdriver Hstored Hdsk Hother.
  destruct (ready_client_inv w r c Hready) as (_ & _ & HdriverReady).
  unfold handleGetProvisioningEntry. run. rewrite Hready.
  unfold getProvisioningEntries. rewrite HdriverReady, Hdriver. cbn [negb].
  assert (Hfind := find_view_other_form drv s (provisioningList drv)
                     Hstored Hother).
  destruct (map (entry_view drv) (provisioningList drv)) as [|v views] eqn:Hviews.
  - now rewrite Hopen.
  - rewrite Hdsk. cbn [cbind]. rewrite Hfind. now rewrite Hopen.
Qed.

Import Samples.

Lemma provisioned_world_ready :
  ready_client provisioned_world = Some (0%nat, provisioned_client) /\
  driver provisioned_client = Some provisioned_driver.
Proof. vm_compute. split; reflexivity. Qed.

Lemma get_entry_does_not_normalise_witness :
  stored_entry provisioned_world (normalizeDSK (JStr sample_dsk)) <> None /\
  handleGetProvisioningEntry open_socket get_sample_entry (JS_ "r8")
    provisioned_world =
  (Normal tt,
   set_outbox provisioned_world
     (outbox provisioned_world
      ++ [with_requestId (ERROR (msg "Entry not found")) (JS_ "r8")])).
Proof.
  split; [vm_compute; discriminate|].
  apply (get_entry_does_not_normalise open_socket get_sample_entry (JS_ "r8")
           provisioned_world 0 provisioned_client provisioned_driver sample_dsk).
  - reflexivity.
  - apply provisioned_world_ready.
  - apply provisioned_world_ready.
  - vm_compute. repeat constructor.
  - reflexivity.
  - vm_compute. discriminate.
Defined.

Lemma truthy_nonempty_string (s : JSString) : s <> [] -> js_not (JStr s) = false.
Proof. destruct s; [congruence|reflexivity]. Qed.

(** X17. UPDATE_PROVISIONING_ENTRY_STATUS with a non-empty DSK text
    and a boolean [active], on a ready driver.  The entry is looked up
    under the normal form of the DSK.  Without such an entry the
    reply is an ERROR that names the normal form, and nothing else
    changes.  With one (and a controller that accepts entries) the
    reply echoes the DSK as given and the flag, and the stored entry
    is the old one with its status set to Active or Inactive. *)
Theorem update_status_of_entry (client : WebSocket)
    (data requestId : JSValue) (w : World) (r : nat)
    (c : ZWaveProvisioningClient) (drv : Driver) (s : JSString) (b : bool) :
  readyState client = 1%N ->
  ready_client w = Some (r, c) ->
  driver c = Some drv ->
  get data "dsk" = Normal (JStr s) -> s <> [] ->
  get data "active" = Normal (JBool b) ->
  (getProvisioningEntry drv (normalizeDSK (JStr s)) = None ->
   handleUpdateProvisioningEntryStatus client data requestId w =
   (Normal tt,
    set_outbox w
      (outbox w
       ++ [with_requestId
             (ERROR [Txt (str "Provisioning entry not found for DSK: ");
                     Val (normalizeDSK (JStr s))]) requestId]))) /\
  (forall e,
     getProvisioningEntry drv (normalizeDSK (JStr s)) = Some e ->
     accepts_entries drv ->
     exists w',
       handleUpdateProvisioningEntryStatus client data requestId w =
       (Normal tt, w') /\
       outbox w' =
       outbox w
       ++ [with_requestId
             (reply "PROVISIONING_ENTRY_STATUS_UPDATED"
                (StatusUpdated (JStr s) (JBool b))) requestId] /\
       stored_entry w' (normalizeDSK (JStr s)) =
       Some (set_status e (if b then ProvisioningEntryStatus_Active
                           else ProvisioningEntryStatus_Inactive))).
Proof.
  intros Hopen Hready Hdriver Hdsk Hne Hactive.
  destruct (ready_client_inv w r c Hready) as (Hplugin & Hheap & HdriverReady).
  split.
  - intros Hnone. unfold handleUpdateProvisioningEntryStatus. run.
    rewrite Hready, Hdsk, Hactive, (truthy_nonempty_string s Hne).
    cbn [typeof negb]. unfold updateProvisioningEntryStatus.
    rewrite HdriverReady, Hdriver. cbn [negb]. cbv zeta. rewrite Hnone.
    cbv beta iota. unfold sendResponse, sendToClient.
    rewrite Hopen. cbn [exn_message new_Error outbox set_heap].
    now rewrite (insert_id _ _ _ Hheap), set_heap_same.
  - intros e Hsome Haccepts. unfold handleUpdateProvisioningEntryStatus. run.
    rewrite Hready, Hdsk, Hactive, (truthy_nonempty_string s Hne).
    cbn [typeof negb]. unfold updateProvisioningEntryStatus.
    rewrite HdriverReady, Hdriver. cbn [negb]. cbv zeta. rewrite Hsome.
    unfold controller_provisionSmartStartNode. rewrite Haccepts.
    cbn [cbind]. rewrite Hopen. eexists. split; [reflexivity|].
    split; [reflexivity|].
    unfold stored_entry.
    erewrite ready_client_after_update; [|exact Hready|exact HdriverReady].
    cbn [driver set_driver]. unfold getProvisioningEntry.
    cbn [provisioningList set_provisioningList].
    destruct (normalizeDSK_string s) as [s' Hs']. rewrite Hs' in *.
    unfold getProvisioningEntry in Hsome. apply find_some in Hsome as [_ Heq].
    apply strict_eq_JStr in Heq.
    set (e' := set_status e _).
    replace (JStr s') with (dsk e') by (subst e'; exact Heq).
    apply find_upsert. subst e'. cbn [dsk set_status]. rewrite Heq.
    apply strict_eq_string_refl.
Qed.

Lemma update_status_of_entry_witness :
  (active <$> stored_entry provisioned_world (normalizeDSK (JStr sample_dsk)))
  = Some true /\
  exists w',
    handleUpdateProvisioningEntryStatus open_socket deactivate_sample_entry
      (JS_ "r9") provisioned_world = (Normal tt, w') /\
    (active <$> stored_entry w' (normalizeDSK (JStr sample_dsk))) = Some false.
Proof.
  split; [reflexivity|].
  destruct (update_status_of_entry open_socket deactivate_sample_entry
              (JS_ "r9") provisioned_world 0 provisioned_client
              provisioned_driver sample_dsk false) as [_ Hfound].
  - reflexivity.
  - apply provisioned_world_ready.
  - apply provisioned_world_ready.
  - reflexivity.
  - discriminate.
  - reflexivity.
  - destruct (getProvisioningEntry provisioned_driver
                (normalizeDSK (JStr sample_dsk))) as [e|] eqn:He;
      [|vm_compute in He; discriminate He].
    destruct (Hfound e eq_refl) as (w' & Hrun & _ & Hstored).
    + intros x. reflexivity.
    + exists w'. split; [exact Hrun|]. rewrite Hstored. reflexivity.
Defined.

(** ** The form of a normalised DSK *)

Import Text.

Lemma list_of_length_S {A} (n : nat) (l : list A) :
  length l = S n -> exists x l', l = x :: l' /\ length l' = n.
Proof.
  destruct l as [|x l']; [discriminate|]. cbn [length]. intros [= Hlen].
  now exists x, l'.
Qed.

(** X18. The normal form of a DSK of 40 decimal digits is the digits
    in eight groups of five joined by dashes; the normal form of a
    DSK of 32 hexadecimal characters is the upper-case characters in
    six groups of five and a last group of two. *)
Theorem normalizeDSK_groups (s : JSString) :
  let cleaned := toUpperCase (strip_dashes s) in
  (is_decimal_of_length 40 cleaned = true ->
   exists groups,
     length groups = 8%nat /\
     Forall (fun g => is_decimal_of_length 5 g = true) groups /\
     concat groups = cleaned /\
     normalizeDSK (JStr s) = JStr (join [45%N] groups)) /\
  (is_HEX_of_length 32 cleaned = true ->
   exists groups last,
     length groups = 6%nat /\
     Forall (fun g => is_HEX_of_length 5 g = true) groups /\
     is_HEX_of_length 2 last = true /\
     concat groups ++ last = cleaned /\
     normalizeDSK (JStr s) = JStr (join [45%N] (groups ++ [last]))).
Proof.
  intros cleaned. split.
  - intros Hshape.
    assert (Hnormal : normalizeDSK (JStr s) = JStr (group5 cleaned)).
    { unfold normalizeDSK. fold cleaned. cbv zeta. rewrite Hshape.
      destruct s; [discriminate Hshape|reflexivity]. }
    rewrite Hnormal. clear Hnormal.
    unfold is_decimal_of_length in Hshape.
    apply andb_true_iff in Hshape as [Hlen Hdigits].
    apply Nat.eqb_eq in Hlen. clearbody cleaned.
    do 40 (apply list_of_length_S in Hlen as (? & ? & -> & Hlen)).
    apply length_zero_iff_nil in Hlen as ->.
    cbn [forallb] in Hdigits.
    repeat (apply andb_true_iff in Hdigits as [? Hdigits]).
    eexists [[_; _; _; _; _]; [_; _; _; _; _]; [_; _; _; _; _]; [_; _; _; _; _];
             [_; _; _; _; _]; [_; _; _; _; _]; [_; _; _; _; _]; [_; _; _; _; _]].
    split; [reflexivity|]. split; [|split; reflexivity].
    repeat constructor; unfold is_decimal_of_length; cbn [length Nat.eqb forallb];
      repeat match goal with
             | H : is_digit ?x = true |- context [is_digit ?x] => rewrite H
             end; reflexivity.
  - intros Hshape.
    assert (Hnormal : normalizeDSK (JStr s) = JStr (group5 cleaned)).
    { unfold normalizeDSK. fold cleaned. cbv zeta. rewrite Hshape.
      destruct (is_decimal_of_length 40 cleaned);
        (destruct s; [discriminate Hshape|reflexivity]). }
    rewrite Hnormal. clear Hnormal.
    unfold is_HEX_of_length in Hshape.
    apply andb_true_iff in Hshape as [Hlen Hdigits].
    apply Nat.eqb_eq in Hlen. clearbody cleaned.
    do 32 (apply list_of_length_S in Hlen as (? & ? & -> & Hlen)).
    apply length_zero_iff_nil in Hlen as ->.
    cbn [forallb] in Hdigits.
    repeat (apply andb_true_iff in Hdigits as [? Hdigits]).
    eexists [[_; _; _; _; _]; [_; _; _; _; _]; [_; _; _; _; _]; [_; _; _; _; _];
             [_; _; _; _; _]; [_; _; _; _; _]], [_; _].
    split; [reflexivity|].
    split; [|split; [|split; reflexivity]].
    + repeat constructor; unfold is_HEX_of_length; cbn [length Nat.eqb forallb];
        repeat match goal with
               | H : is_digit ?x || is_upper_hex ?x = true
                 |- context [is_digit ?x || is_upper_hex ?x] => rewrite H
               end; reflexivity.
    + unfold is_HEX_of_length; cbn [length Nat.eqb forallb];
        repeat match goal with
               | H : is_digit ?x || is_upper_hex ?x = true
                 |- context [is_digit ?x || is_upper_hex ?x] => rewrite H
               end; reflexivity.
Qed.

Lemma normalizeDSK_groups_witness :
  exists groups,
    length groups = 8%nat /\
    normalizeDSK (JStr sample_dsk) = JStr (join [45%N] groups).
Proof.
  destruct (normalizeDSK_groups sample_dsk) as [Hdecimal _].
  destruct Hdecimal as (groups & Hlen & _ & _ & Hnormal); [reflexivity|].
  exists groups. split; assumption.
Defined.

Lemma cleaned_of_empty : toUpperCase (strip_dashes []) = [].
Proof. reflexivity. Qed.

(** X19. Two texts of a DSK whose characters agree once dashes and
    white space are removed and letters are put in upper case have
    the same normal form, when that common text is one of the three
    recognised shapes (40 digits, 32 or 40 hexadecimal characters):
    entries are found whatever the grouping and the letter case of
    the request. *)
Theorem normalizeDSK_ignores_formatting (s1 s2 : JSString) :
  toUpperCase (strip_dashes s1) = toUpperCase (strip_dashes s2) ->
  is_decimal_of_length 40 (toUpperCase (strip_dashes s1))
  || is_HEX_of_length 32 (toUpperCase (strip_dashes s1))
  || is_HEX_of_length 40 (toUpperCase (strip_dashes s1)) = true ->
  normalizeDSK (JStr s1) = normalizeDSK (JStr s2).
Proof.
  intros Hsame Hshape.
  assert (Hne : forall s, toUpperCase (strip_dashes s)
                          = toUpperCase (strip_dashes s1) ->
                          js_not (JStr s) = false).
  { intros s Hs. destruct s; [|reflexivity].
    rewrite <- Hs, cleaned_of_empty in Hshape. discriminate Hshape. }
  unfold normalizeDSK. rewrite (Hne s1 eq_refl), (Hne s2 (eq_sym Hsame)).
  cbv zeta. rewrite <- Hsame.
  destruct (is_decimal_of_length 40 _); [reflexivity|].
  destruct (is_HEX_of_length 32 _); [reflexivity|].
  cbn [orb] in Hshape. rewrite Hshape.
  now rewrite (firstn_32_of_HEX_40 _ Hshape).
Qed.

Lemma normalizeDSK_ignores_formatting_witness :
  normalizeDSK (JS_ "ab cd ef 01 23 45 67 89 ab cd ef 01 23 45 67 89")
  = normalizeDSK (JS_ "ABCDE-F0123-45678-9ABCD-EF012-34567-89").
Proof.
  apply (normalizeDSK_ignores_formatting
           (str "ab cd ef 01 23 45 67 89 ab cd ef 01 23 45 67 89")
           (str "ABCDE-F0123-45678-9ABCD-EF012-34567-89"));
    vm_compute; reflexivity.
Defined.

(** ** DELETE_PROVISIONING_ENTRY *)

Lemma find_after_unprovision (key : JSString) (l : list ProvisioningEntry) :
  find (fun e => strict_eq (dsk e) (JStr key))
    (List.filter (fun e => negb (strict_eq (dsk e) (JStr key))) l) = None.
Proof.
  induction l as [|e l IH]; [reflexivity|]. cbn [List.filter].
  destruct (strict_eq (dsk e) (JStr key)) eqn:Heq; cbn [negb]; [exact IH|].
  cbn [find]. now rewrite Heq.
Qed.

Lemma find_other_after_unprovision (key key' : JSString)
    (l : list ProvisioningEntry) :
  key <> key' ->
  find (fun e => strict_eq (dsk e) (JStr key'))
    (List.filter (fun e => negb (strict_eq (dsk e) (JStr key))) l) =
  find (fun e => strict_eq (dsk e) (JStr key')) l.
Proof.
  intros Hne. induction l as [|e l IH]; [reflexivity|]. cbn [List.filter find].
  destruct (strict_eq (dsk e) (JStr key)) eqn:Heq; cbn [negb].
  - apply strict_eq_JStr in Heq. rewrite Heq. cbn [strict_eq].
    now rewrite (streq_false key key' Hne).
  - cbn [find]. now rewrite IH.
Qed.

(** X20. DELETE_PROVISIONING_ENTRY with a non-empty DSK text on a
    ready driver is always answered with PROVISIONING_ENTRY_DELETED
    that echoes the DSK as given, whether or not an entry existed.
    Afterwards no entry is stored under the normal form of that DSK,
    and the entries stored under other DSKs are the ones stored
    before. *)
Theorem delete_entry_by_dsk (client : WebSocket)
    (data requestId : JSValue) (w : World) (r : nat)
    (c : ZWaveProvisioningClient) (drv : Driver) (s : JSString) :
  readyState client = 1%N ->
  ready_client w = Some (r, c) ->
  driver c = Some drv ->
  get data "dsk" = Normal (JStr s) -> s <> [] ->
  exists w',
    handleDeleteProvisioningEntry client data requestId w = (Normal tt, w') /\
    outbox w' =
    outbox w
    ++ [with_requestId
          (reply "PROVISIONING_ENTRY_DELETED" (EntryDeleted (JStr s)))
          requestId] /\
    stored_entry w' (normalizeDSK (JStr s)) = None /\
    forall other,
      normalizeDSK (JStr s) <> JStr other ->
      stored_entry w' (JStr other) = stored_entry w (JStr other).
Proof.
  intros Hopen Hready Hdriver Hdsk Hne.
  destruct (ready_client_inv w r c Hready) as (Hplugin & Hheap & HdriverReady).
  unfold handleDeleteProvisioningEntry. run.
  rewrite Hready, Hdsk, (truthy_nonempty_string s Hne).
  unfold unprovisionSmartStartNode. rewrite HdriverReady, Hdriver.
  cbn [negb is_string_type typeof]. cbv zeta. rewrite Hopen.
  eexists. split; [reflexivity|]. split; [reflexivity|].
  unfold stored_entry.
  erewrite ready_client_after_update; [|exact Hready|exact HdriverReady].
  rewrite Hready, Hdriver. cbn [driver set_driver].
  unfold getProvisioningEntry, controller_unprovisionSmartStartNode.
  cbn [provisioningList set_provisioningList].
  destruct (normalizeDSK_string s) as [key Hkey]. rewrite Hkey. split.
  - apply find_after_unprovision.
  - intros other Hother. apply find_other_after_unprovision. congruence.
Qed.

Lemma delete_entry_by_dsk_witness :
  stored_entry provisioned_world (normalizeDSK (JStr sample_dsk)) <> None /\
  exists w',
    handleDeleteProvisioningEntry open_socket delete_sample_entry (JS_ "r10")
      provisioned_world = (Normal tt, w') /\
    stored_entry w' (normalizeDSK (JStr sample_dsk)) = None.
Proof.
  split; [vm_compute; discriminate|].
  destruct (delete_entry_by_dsk open_socket delete_sample_entry (JS_ "r10")
              provisioned_world 0 provisioned_client provisioned_driver
              sample_dsk) as (w' & Hrun & _ & Hgone & _).
  - reflexivity.
  - apply provisioned_world_ready.
  - apply provisioned_world_ready.
  - reflexivity.
  - discriminate.
  - exists w'. split; assumption.
Defined.

(** ** The API a lock sends through *)

(** X21. [sendCustom] of a lock that has not cached an API yet, on a
    ready node whose class API offers [withOptions]: the frames go
    through the supervised API that [withOptions] yields, whatever the
    plain [sendData] would do, and that API is cached in the lock.
    With a supervised API that accepts every frame an integer count z
    sends max(1, min(100, z)) frames. *)
Theorem sendCustom_uses_the_supervised_api (l : Lock.ZWaveLock)
    (b : Buffer) (base : MPApi) (supervised : SendData) (m : JSNum) (z : Z) :
  node_ready (Lock.node l) = true ->
  Lock._mpAPI l = None ->
  node_commandClasses_MP (Lock.node l) = Some base ->
  withOptions base = Some supervised ->
  length b = 32%nat ->
  accepts_all supervised m b ->
  exists result l',
    Lock.sendCustom l (Lock.PBuffer b) (Some m) (Some (num_of_Z z)) =
    (Normal result, l') /\
    length (sr_results result) = Z.to_nat (Z.max 1 (Z.min 100 z)) /\
    node_frames (Lock.node l') =
    node_frames (Lock.node l)
    ++ repeat (m, b) (Z.to_nat (Z.max 1 (Z.min 100 z))) /\
    Lock._mpAPI l' = Some supervised.
Proof.
  intros Hready Hcache Hbase Hsupervised Hlen Haccepts.
  set (forced := forceManufacturerProprietarySupport (Lock.node l)).
  assert (Hapi : Lock.lock_getManufacturerProprietaryAPI (Lock.set_node l forced)
                 = (Some supervised,
                    Lock.set_mpAPI (Lock.set_node l forced) (Some supervised))).
  { unfold Lock.lock_getManufacturerProprietaryAPI.
    cbn [Lock.node Lock.set_node Lock._mpAPI].
    assert (Hforced_ready : node_ready forced = true).
    { subst forced. unfold forceManufacturerProprietarySupport.
      destruct (negb (node_addCC (Lock.node l))); [exact Hready|].
      now destruct (negb _). }
    rewrite Hforced_ready. cbn [negb]. cbv zeta.
    cbn [Lock.node Lock.set_node Lock._mpAPI]. rewrite Hcache.
    unfold Lock._initializeMPAPI.
    cbn [Lock._mpAPI Lock.set_mpAPI Lock.node Lock.set_node Lock.lock_nodeId].
    rewrite Hcache. cbn [Lock._mpAPI Lock.set_mpAPI].
    unfold getManufacturerProprietaryAPI.
    subst forced. rewrite force_idempotent, force_keeps_api, Hbase, Hsupervised.
    reflexivity. }
  destruct (sendCustom_clamps_integer_count l _ b supervised m z
              Hready Hlen Hapi Haccepts)
    as (result & l' & Hrun & _ & Hresults & Hframes).
  exists result, l'. repeat split; try assumption.
  rewrite (sendCustom_loop l _ b supervised m (num_of_Z z) Hready Hlen Hapi)
    in Hrun.
  destruct (send_frames _ _ _ _ _ _ _ _ _) as [outcome n].
  injection Hrun as _ <-. reflexivity.
Qed.

Lemma sendCustom_uses_the_supervised_api_witness :
  exists result l',
    Lock.sendCustom late_api_lock (Lock.PBuffer payload32) (Some (num_of_Z 0))
      (Some (num_of_Z 3)) = (Normal result, l') /\
    length (sr_results result) = 3%nat /\
    node_frames (Lock.node l') = repeat (num_of_Z 0, payload32) 3.
Proof.
  destruct (sendCustom_uses_the_supervised_api late_api_lock payload32
              (mkMPApi (fun _ _ _ => SendFailed timeout 0) (Some accepting))
              accepting (num_of_Z 0) 3)
    as (result & l' & Hrun & Hresults & Hframes & _); try reflexivity.
  - intros k. now exists JUndefined, 5.
  - exists result, l'. repeat split; assumption.
Defined.

(** ** Listing what was added *)

(** X22. An entry that was added is listed: after a successful
    ADD_PROVISIONING_ENTRY whose [securityClasses] is an object, the
    reply to GET_PROVISIONING_ENTRIES holds an entry with the normal
    form of the DSK, whose four security flags are each the OR of the
    object-form flag and the individually named flag of the request,
    and whose [status] flag is the stored activity. *)
Theorem added_entry_is_listed (client : WebSocket)
    (data requestId requestId' : JSValue) (w : World) (r : nat)
    (c : ZWaveProvisioningClient) (drv : Driver) (s : JSString)
    (newLongRange : bool) (fields : list (JSString * JSValue)) :
  readyState client = 1%N ->
  ready_client w = Some (r, c) ->
  driver c = Some drv ->
  accepts_entries drv ->
  prop (entry_of data) "dsk" = JStr s -> s <> [] ->
  match getProvisioningEntry drv (normalizeDSK (JStr s)) with
  | None =>
      includes_ZWaveLongRange
        (js_or (prop (entry_of data) "supportedProtocols") (JArr []))
  | Some _ => Normal false
  end = Normal newLongRange ->
  prop (entry_of data) "securityClasses" = JObj fields ->
  let flag key :=
    flag_set (prop (JObj fields) key) || flag_set (prop (entry_of data) key) in
  exists w1 w2 views view,
    handleAddProvisioningEntry client data requestId w = (Normal tt, w1) /\
    handleGetProvisioningEntries client requestId' w1 = (Normal tt, w2) /\
    outbox w2 =
    outbox w1
    ++ [with_requestId (reply "PROVISIONING_ENTRIES" (Entries views))
          requestId'] /\
    In view views /\
    ev_dsk view = normalizeDSK (JStr s) /\
    ev_securityClasses view =
    Flags (flag "s2AccessControl") (flag "s2Authenticated")
      (flag "s2Unauthenticated") (flag "s0Legacy") /\
    ev_status view =
    (if newLongRange then false
     else strict_eq (status (provisioningEntry_of (entry_of data))) (JBool true)
          || strict_eq (status (provisioningEntry_of (entry_of data)))
               (JS_ "active")).
Proof.
  intros Hopen Hready Hdriver Haccepts Hdsk Hne Hlong Hobject flag.
  destruct (handleAddProvisioningEntry_stores client data requestId w r c drv s
              newLongRange Hopen Hready Hdriver Haccepts Hdsk Hne Hlong)
    as (stored & drv' & Hrun & Hready' & _ & Hstored & Hstatus & Hclasses).
  cbv zeta in Hrun, Hready', Hstored.
  destruct (securityClassesArray_union (entry_of data) fields Hobject)
    as [Hunion _]. cbv zeta in Hunion.
  eexists _, _, (map (entry_view drv') (provisioningList drv')),
    (entry_view drv' stored).
  split; [exact Hrun|].
  destruct (ready_client_inv _ _ _ Hready') as (_ & _ & HdriverReady).
  split.
  { unfold handleGetProvisioningEntries. run. rewrite Hready'.
    unfold getProvisioningEntries. rewrite HdriverReady.
    cbn [negb driver set_driver]. now rewrite Hopen. }
  split; [reflexivity|].
  - unfold stored_entry in Hstored. rewrite Hready' in Hstored.
    cbn [driver set_driver] in Hstored. unfold getProvisioningEntry in Hstored.
    apply find_some in Hstored as [Hin Hkey].
    destruct (normalizeDSK_string s) as [key Hnormal]. rewrite Hnormal in *.
    apply strict_eq_JStr in Hkey.
    split; [now apply in_map|]. split; [exact Hkey|].
    unfold entry_view. cbn [ev_securityClasses ev_status].
    rewrite Hclasses, Hstatus. split.
    + rewrite (Hunion 2 "s2AccessControl"), (Hunion 1 "s2Authenticated"),
        (Hunion 0 "s2Unauthenticated"), (Hunion 7 "s0Legacy");
        [reflexivity|cbn; auto..].
    + destruct newLongRange; [reflexivity|].
      now destruct (strict_eq _ (JBool true) || strict_eq _ (JS_ "active")).
Qed.

Lemma added_entry_is_listed_witness :
  exists w1 w2 views view,
    handleAddProvisioningEntry open_socket add_both_flag_forms (JS_ "r6")
      ready_world = (Normal tt, w1) /\
    handleGetProvisioningEntries open_socket (JS_ "r7") w1 = (Normal tt, w2) /\
    outbox w2 =
    outbox w1
    ++ [with_requestId (reply "PROVISIONING_ENTRIES" (Entries views))
          (JS_ "r7")] /\
    In view views /\
    ev_securityClasses view = Flags true true false false.
Proof.
  destruct (added_entry_is_listed open_socket add_both_flag_forms
              (JS_ "r6") (JS_ "r7") ready_world 0%nat ready_client_object
              ready_driver sample_dsk false
              [(str "s2AccessControl", JBool true);
               (str "s2Authenticated", JBool false)]
              eq_refl eq_refl eq_refl ready_driver_accepts eq_refl
              sample_dsk_not_empty eq_refl eq_refl)
    as (w1 & w2 & views & view & Hadd & Hlist & Hsent & Hin & _ & Hflags & _).
  exists w1, w2, views, view. repeat split; assumption.
Defined.

(** ** The two tables of security classes *)

Lemma num_eq_integers (c : JSNum) (a b : Z) :
  a <> b -> num_eq c (num_of_Z a) = true -> num_eq c (num_of_Z b) = false.
Proof.
  intros Hne. destruct c as [| |q]; try discriminate. cbn [num_eq num_of_Z].
  intros Ha. apply Qeq_bool_iff in Ha.
  destruct (Qeq_bool q (inject_Z b)) eqn:Hb; [|reflexivity].
  apply Qeq_bool_iff in Hb. rewrite Ha in Hb.
  unfold Qeq, inject_Z in Hb. cbn in Hb. lia.
Qed.

(** X23. [ZWaveController] has two tables from security class to key
    name, the one of the grant callback (0, 1, 2, 7) and the one of
    [_getSecurityKeyName] (1, 2, 3, 7).  They name the same key for
    class 7 only: for the classes 0, 1, 2 and 3 they differ, and for
    every other number neither has a name. *)
Theorem security_class_tables_agree_on_7_only (securityClass : JSNum) :
  (_getSecurityKeyName securityClass = securityClassToKey securityClass <->
   existsb (num_eq securityClass) (map num_of_Z [0; 1; 2; 3]) = false) /\
  (num_eq securityClass (num_of_Z 7) = true ->
   _getSecurityKeyName securityClass = Some (str "S0_Legacy")).
Proof.
  unfold _getSecurityKeyName, securityClassToKey. cbn [existsb map].
  destruct (num_eq securityClass (num_of_Z 0)) eqn:H0;
    destruct (num_eq securityClass (num_of_Z 1)) eqn:H1;
    destruct (num_eq securityClass (num_of_Z 2)) eqn:H2;
    destruct (num_eq securityClass (num_of_Z 3)) eqn:H3;
    destruct (num_eq securityClass (num_of_Z 7)) eqn:H7;
    cbn [orb];
    repeat match goal with
           | Ha : num_eq ?c (num_of_Z ?a) = true,
             Hb : num_eq ?c (num_of_Z ?b) = true |- _ =>
               assert (a <> b) as Hne by lia;
               rewrite (num_eq_integers c a b Hne Ha) in Hb; discriminate Hb
           end;
    (split; [split; intros Heq; solve [reflexivity | discriminate Heq
                                       | vm_compute in Heq; discriminate Heq]
            |intros Heq; solve [reflexivity | discriminate Heq]]).
Qed.

Lemma security_class_tables_agree_on_7_only_witness :
  _getSecurityKeyName (num_of_Z 7) = Some (str "S0_Legacy") /\
  _getSecurityKeyName (num_of_Z 7) = securityClassToKey (num_of_Z 7).
Proof.
  destruct (security_class_tables_agree_on_7_only (num_of_Z 7))
    as [Hagree Hlegacy].
  split; [apply Hlegacy; reflexivity|apply Hagree; reflexivity].
Defined.

(** ** SEND_COMMAND with a payload that is not valid *)

(** X24. A SEND_COMMAND whose [payloadHex] is missing or empty, or is
    rejected by the payload validator, never reaches a node: it is
    answered with one ERROR ("payloadHex is required", or the
    validator's message) and the process state, the frames handed to
    the nodes included, is as before. *)
Theorem invalid_payload_is_not_sent `{Builtins} (client : WebSocket)
    (data requestId payloadHex : JSValue) (w : World) (r : nat)
    (c : ZWaveProvisioningClient) :
  readyState client = 1%N ->
  ready_client w = Some (r, c) ->
  get data "payloadHex" = Normal payloadHex ->
  (js_not payloadHex = true ->
   handleSendCommand client data requestId w =
   (Normal tt,
    set_outbox w
      (outbox w
       ++ [with_requestId (ERROR (msg "payloadHex is required")) requestId])))
  /\
  (forall e,
     js_not payloadHex = false ->
     hexTo32ByteBuffer payloadHex = Throw e ->
     handleSendCommand client data requestId w =
     (Normal tt,
      set_outbox w
        (outbox w
         ++ [with_requestId
               (ERROR (if msg_truthy (exn_message e) then exn_message e
                       else msg "Invalid payloadHex format")) requestId]))).
Proof.
  intros Hopen Hready Hpayload.
  assert (Hget : forall k, get data k = Normal (prop data k))
    by (intros k; apply (get_prop data payloadHex "payloadHex" k Hpayload)).
  split.
  - intros Hmissing. unfold handleSendCommand. run.
    rewrite Hready, Hpayload, !Hget, Hmissing, Hopen. reflexivity.
  - intros e Hpresent Hinvalid. unfold handleSendCommand. run.
    rewrite Hready, Hpayload, !Hget, Hpresent, Hinvalid, Hopen. reflexivity.
Qed.

Lemma invalid_payload_is_not_sent_witness :
  handleSendCommand open_socket
    (request [("type", JS_ "SEND_COMMAND"); ("payloadHex", JS_ "00ff")])
    (JS_ "r11") ready_world =
  (Normal tt,
   set_outbox ready_world
     (outbox ready_world
      ++ [with_requestId
            (ERROR [Txt (str "vendorPayload must be exactly 32 bytes, got ");
                    Val (JInt 2)]) (JS_ "r11")])).
Proof.
  destruct (invalid_payload_is_not_sent open_socket
              (request [("type", JS_ "SEND_COMMAND"); ("payloadHex", JS_ "00ff")])
              (JS_ "r11") (JS_ "00ff") ready_world 0%nat ready_client_object)
    as [_ Hinvalid].
  - reflexivity.
  - reflexivity.
  - reflexivity.
  - apply (Hinvalid (new_Error
                       [Txt (str "vendorPayload must be exactly 32 bytes, got ");
                        Val (JInt 2)])); reflexivity.
Defined.
